(** * Web Agent Memory Protocol: registry, merge engine, permission store
      and write-back store of the extension SDK

    A shallow embedding of
    - [extension-sdk/src/index.ts] (createProvider and its registry),
    - the RegistryManager (registry with [convertToContextResult]),
    - [extension-sdk/src/permissions.ts] (PermissionManager),
    - [extension-sdk/src/context-builder.ts] (ContextBuilder),
    - the BaseProvider class,
    followed by the properties established about them.

    Conventions of the embedding.
    - JavaScript strings are sequences of ASCII characters; [toLowerCase]
      and [trim] act on the ASCII letters and the six ASCII white-space
      characters.
    - Time stamps, sizes and limits are integers ([Z]).  A relevance is a
      finite number, modelled as a rational ([Q]); comparisons and the sign
      of a difference of two finite floats agree with the rationals.
    - [Date.now()] is a parameter [now] of each operation.
    - An exception is a value of [Outcome]; [try_catch] is the try block.
    - A JavaScript Map, and an object whose keys are not array indices, is
      an insertion-ordered association list ([OMap]); an object used only
      through lookups is a [gmap] of its own properties.  Where the key of
      a lookup or of an assignment is a string of the caller, the members
      that the object inherits from [Object.prototype] are taken into
      account ([Js.truthy_at], [Js.assign]). *)

From Stdlib Require Import ZArith QArith Qminmax List Sorted Permutation Lia Lqa.
From Stdlib Require Import Ascii String.
From stdpp Require Import base option list sorting gmap strings pretty.

Local Open Scope string_scope.
Local Open Scope Z_scope.

(* ===================================================================== *)
(** * JavaScript primitives *)
(* ===================================================================== *)

Module Js.

(** A thrown value: an [Error] object carrying a message, or any other
    value. *)
Inductive Exn : Type :=
| ErrorObj (message : string)
| Thrown.

(** The result of evaluating an expression (or of awaiting a promise). *)
Inductive Outcome (A : Type) : Type :=
| Returns (a : A)
| Throws (e : Exn).

Arguments Returns {A} a.
Arguments Throws {A} e.

Definition bind {A B : Type} (m : Outcome A) (k : A -> Outcome B) : Outcome B :=
  match m with
  | Returns a => k a
  | Throws e => Throws e
  end.

(** [try { body } catch (error) { handler }] *)
Definition try_catch {A : Type} (body : Outcome A) (handler : Exn -> A) : A :=
  match body with
  | Returns a => a
  | Throws e => handler e
  end.

(** [Promise.all] over calls issued in list order: the results in the
    order of the inputs, or the first rejection. *)
Fixpoint all {A : Type} (l : list (Outcome A)) : Outcome (list A) :=
  match l with
  | [] => Returns []
  | m :: r =>
      match m, all r with
      | Returns a, Returns s => Returns (a :: s)
      | Throws e, _ => Throws e
      | Returns _, Throws e => Throws e
      end
  end.

(** [error instanceof Error ? error.message : fallback] *)
Definition message_or (e : Exn) (fallback : string) : string :=
  match e with
  | ErrorObj m => m
  | Thrown => fallback
  end.

(** Truthiness of a string and of a number. *)
Definition truthy_str (s : string) : bool := negb (String.eqb s "").
Definition truthy_num (z : Z) : bool := negb (z =? 0).

(** [s || d] for an optional string. *)
Definition str_or (s : option string) (d : string) : string :=
  match s with
  | Some v => if truthy_str v then v else d
  | None => d
  end.

Definition truthy_ostr (s : option string) : bool :=
  match s with Some v => truthy_str v | None => false end.

Definition truthy_onum (z : option Z) : bool :=
  match z with Some v => truthy_num v | None => false end.

Definition truthy_obool (b : option bool) : bool :=
  match b with Some v => v | None => false end.

(** [arr.slice(0, e)]: a negative [e] counts from the end. *)
Definition slice0 {A : Type} (l : list A) (e : Z) : list A :=
  let len := Z.of_nat (length l) in
  let k := if e <? 0 then Z.max (len + e) 0 else Z.min e len in
  take (Z.to_nat k) l.

(** [arr.sort(cmp)]: the sort is stable; [a] stays before [b] when
    [cmp a b <= 0]. *)
Fixpoint sort_insert {A : Type} (cmp : A -> A -> Q) (x : A) (l : list A) : list A :=
  match l with
  | [] => [x]
  | y :: r => if Qle_bool (cmp x y) 0 then x :: y :: r else y :: sort_insert cmp x r
  end.

Fixpoint sort {A : Type} (cmp : A -> A -> Q) (l : list A) : list A :=
  match l with
  | [] => []
  | x :: r => sort_insert cmp x (sort cmp r)
  end.

(** [s.toLowerCase()] *)
Definition lower_ascii (c : ascii) : ascii :=
  let n := nat_of_ascii c in
  if (65 <=? n)%nat && (n <=? 90)%nat then ascii_of_nat (n + 32) else c.

Fixpoint toLowerCase (s : string) : string :=
  match s with
  | EmptyString => EmptyString
  | String c r => String (lower_ascii c) (toLowerCase r)
  end.

(** [s.trim()] *)
Fixpoint trimStart (s : string) : string :=
  match s with
  | EmptyString => EmptyString
  | String c r => if Ascii.is_space c then trimStart r else s
  end.

Definition trimEnd (s : string) : string := String.rev (trimStart (String.rev s)).

Definition trim (s : string) : string := trimEnd (trimStart s).

(** ** Insertion-ordered maps with string keys

    [set] on a present key replaces the value in place; on a new key it
    appends. *)
Abbreviation OMap V := (list (string * V)).

Section OMap.
Context {V : Type}.

Fixpoint get (k : string) (m : OMap V) : option V :=
  match m with
  | [] => None
  | (k', v) :: r => if String.eqb k k' then Some v else get k r
  end.

Definition has (k : string) (m : OMap V) : bool :=
  match get k m with Some _ => true | None => false end.

Fixpoint set (k : string) (v : V) (m : OMap V) : OMap V :=
  match m with
  | [] => [(k, v)]
  | (k', v') :: r => if String.eqb k k' then (k, v) :: r else (k', v') :: set k v r
  end.

Fixpoint delete (k : string) (m : OMap V) : OMap V :=
  match m with
  | [] => []
  | (k', v') :: r => if String.eqb k k' then r else (k', v') :: delete k r
  end.

Definition keys (m : OMap V) : list string := fst <$> m.
Definition values (m : OMap V) : list V := snd <$> m.
Definition entries (m : OMap V) : list (string * V) := m.
End OMap.

(** [Object.fromEntries]: a later entry overrides an earlier one; every
    entry becomes an own property, whatever its key. *)
Definition fromEntries {V : Type} (l : list (string * V)) : gmap string V :=
  fold_left (fun acc kv => <[kv.1 := kv.2]> acc) l ∅.

(** ** Plain objects indexed by a string of the caller

    An object made by [{}] or by [JSON.parse] is represented by its own
    properties; it inherits from [Object.prototype].  [obj[k]] is the own
    property [k] when there is one.  Otherwise, for the names below, it is
    the member of [Object.prototype] of that name: a function (for
    ["__proto__"] the prototype object itself), which is truthy and has
    none of the fields of a stored record.  For every other name it is
    [undefined]. *)
Definition objectPrototypeKeys : list string :=
  [ "__proto__"; "constructor"; "hasOwnProperty"; "isPrototypeOf";
    "propertyIsEnumerable"; "toLocaleString"; "toString"; "valueOf";
    "__defineGetter__"; "__defineSetter__"; "__lookupGetter__"; "__lookupSetter__" ].

(** [obj[k]] is truthy (the own properties are objects). *)
Definition truthy_at {V : Type} (obj : gmap string V) (k : string) : bool :=
  bool_decide (is_Some (obj !! k)) || bool_decide (k ∈ objectPrototypeKeys).

(** [obj[k] = v]: the own property [k] is created or replaced.  The
    exception is ["__proto__"] when the object has no own property of that
    name: the assignment then runs the setter of [Object.prototype], which
    changes the prototype of [obj] (when [v] is an object) and creates no
    property, so that [JSON.stringify] writes [obj] as it was. *)
Definition assign {V : Type} (k : string) (v : V) (obj : gmap string V) : gmap string V :=
  if bool_decide (k = "__proto__") && bool_decide (obj !! k = None) then obj
  else <[k := v]> obj.

End Js.

Import Js.

#[global] Instance Outcome_ret : MRet Outcome := @Returns.
#[global] Instance Outcome_bind : MBind Outcome := fun A B k m => Js.bind m k.

(* ===================================================================== *)
(** * Data model (the protocol's types) *)
(* ===================================================================== *)

(** [Record<string, unknown>]: an opaque key-value map. *)
Definition Metadata : Type := list (string * string).

Record Memory : Type := mkMemory {
  text : string;
  relevance : Q;
  timestamp : Z;
  source : string;
  metadata : option Metadata
}.

Record MemoryContext : Type := mkMemoryContext {
  memories : list Memory
}.

(** [ContextData] of the SDK has the same shape as [MemoryContext]. *)
Definition ContextData : Type := MemoryContext.

Record TimeRange : Type := mkTimeRange {
  range_start : option Z;
  range_end : option Z
}.

Record ContextOptions : Type := mkContextOptions {
  relevanceQuery : option string;
  timeRange : option TimeRange;
  topK : option Z;
  categories : option (list string);
  format : option string
}.

(** [options?.topK] *)
Definition options_topK (options : option ContextOptions) : option Z :=
  match options with
  | Some o => topK o
  | None => None
  end.

Definition options_timeRange (options : option ContextOptions) : option TimeRange :=
  match options with
  | Some o => timeRange o
  | None => None
  end.

Definition options_categories (options : option ContextOptions) : option (list string) :=
  match options with
  | Some o => categories o
  | None => None
  end.

Record ProviderRef : Type := mkProviderRef {
  ref_id : string;
  ref_name : string;
  ref_version : string
}.

Record DataSource : Type := mkDataSource {
  ds_timeRange : TimeRange;
  ds_categories : list string
}.

Record ContextMetadata : Type := mkContextMetadata {
  generatedAt : Z;
  provider : ProviderRef;
  dataSource : DataSource
}.

(** [Partial<ContextMetadata>] *)
Record PartialMetadata : Type := mkPartialMetadata {
  p_generatedAt : option Z;
  p_provider : option ProviderRef;
  p_dataSource : option DataSource
}.

Definition full_metadata (m : ContextMetadata) : PartialMetadata :=
  mkPartialMetadata (Some (generatedAt m)) (Some (provider m)) (Some (dataSource m)).

Record AggregatedContextMetadata : Type := mkAggregatedContextMetadata {
  ag_base : ContextMetadata;
  aggregationMethod : string;
  providerCount : Z
}.

Inductive ErrorCode : Type :=
| NOT_AVAILABLE
| PERMISSION_DENIED
| NO_DATA
| PROVIDER_ERROR
| NETWORK_ERROR
| INVALID_OPTIONS.

Record ProtocolError : Type := mkProtocolError {
  code : ErrorCode;
  message : string;
  recoverable : bool;
  suggestedAction : option string
}.

Record ProviderContextResult : Type := mkProviderContextResult {
  pr_success : bool;
  pr_data : option MemoryContext;
  pr_error : option string;
  pr_metadata : option PartialMetadata
}.

Record ContextResult : Type := mkContextResult {
  cr_success : bool;
  cr_data : option MemoryContext;
  cr_error : option ProtocolError;
  cr_metadata : ContextMetadata
}.

Record AggregatedContextResult : Type := mkAggregatedContextResult {
  ag_success : bool;
  ag_data : option MemoryContext;
  ag_error : option ProtocolError;
  ag_metadata : AggregatedContextMetadata;
  ag_providers : list string;
  ag_providerResults : gmap string ProviderContextResult
}.

Record RequestedCapabilities : Type := mkRequestedCapabilities {
  req_read : option bool;
  req_write : option bool
}.

Record AppInfo : Type := mkAppInfo {
  appName : string;
  appId : string;
  app_domain : option string;
  requestedCapabilities : option RequestedCapabilities
}.

(** The capability map [{read, write}]; a flag may be missing from an
    object read back from storage. *)
Record Capabilities : Type := mkCapabilities {
  read : option bool;
  write : option bool
}.

Inductive Capability : Type := CapRead | CapWrite.

(** [capabilities[capability]] *)
Definition capability_flag (c : Capabilities) (cap : Capability) : option bool :=
  match cap with
  | CapRead => read c
  | CapWrite => write c
  end.

Record PermissionResult : Type := mkPermissionResult {
  res_granted : bool;
  isFirstTime : bool;
  res_permissions : list string;
  res_capabilities : option Capabilities;
  res_domain : option string
}.

Record SourceInfo : Type := mkSourceInfo {
  source_type : string;
  source_description : option string;
  source_confidence : option Q
}.

Record WebAgentContext : Type := mkWebAgentContext {
  agentId : string;
  agentName : string;
  agentType : option string;
  wac_memories : list Memory;
  sessionId : option string;
  contextType : string;
  wac_timestamp : Z;
  wac_domain : string;
  wac_expiresAt : option Z;
  wac_source : SourceInfo
}.

Record WebAgentContextOptions : Type := mkWebAgentContextOptions {
  storageType : option string
}.

Record ProvisionMetadata : Type := mkProvisionMetadata {
  pm_providerId : string;
  pm_timestamp : Z;
  pm_version : string
}.

Record ContextProvisionResult : Type := mkContextProvisionResult {
  cp_success : bool;
  cp_processed : bool;
  cp_acknowledged : bool;
  memoriesAccepted : Z;
  memoriesRejected : Z;
  rejectionReasons : option (list string);
  cp_error : option ProtocolError;
  cp_contextId : option string;
  storedUntil : option Z;
  storageLocation : option string;
  processingTimeMs : option Z;
  sizeBytes : option Z;
  cp_metadata : option ProvisionMetadata
}.

(** The [MemoryProvider] interface, as the registry sees a provider: the
    answers its methods give.  [provideContext] and [contributeMemory] are
    optional members. *)
Module MemoryProvider.
Record t : Type := mk {
  providerId : string;
  providerName : string;
  version : string;
  isPermissionGranted : option string -> bool;
  requestPermission : AppInfo -> Outcome PermissionResult;
  getContext : option ContextOptions -> Outcome ProviderContextResult;
  provideContext :
    option (WebAgentContext -> option WebAgentContextOptions
            -> Outcome ContextProvisionResult);
  contributeMemory :
    option (list Memory -> string -> Outcome ContextProvisionResult)
}.
End MemoryProvider.

(** The [AgentMemoryRegistry] interface, as a page uses
    [window.agentMemory]: the answers of the members that the helpers and
    the client SDK call. *)
Module AgentMemoryRegistry.
Record t : Type := mk {
  getProviders : list MemoryProvider.t;
  getProvider : string -> option MemoryProvider.t;
  getContext : option ContextOptions -> option string -> Outcome ContextResult;
  provideContext :
    WebAgentContext -> option WebAgentContextOptions -> option string
    -> Outcome ContextProvisionResult;
  contributeMemory :
    list Memory -> string -> option string -> Outcome ContextProvisionResult
}.
End AgentMemoryRegistry.

(** [(a, b) => b.relevance - a.relevance] *)
Definition byRelevanceDesc (a b : Memory) : Q := (relevance b - relevance a)%Q.

(** [x > y] on numbers. *)
Definition Qgtb (x y : Q) : bool := negb (Qle_bool x y).

(* ===================================================================== *)
(** * ContextBuilder (context-builder.ts) *)
(* ===================================================================== *)

Module ContextBuilder.

Record ContextBuilderConfig : Type := mkContextBuilderConfig {
  cfg_topK : option Z;
  cfg_defaultTimeRange : option TimeRange
}.

(** The constructor's [config.topK ?? 50]. *)
Definition config_topK (config : ContextBuilderConfig) : Z :=
  default 50 (cfg_topK config).

Definition config_defaultTimeRange (config : ContextBuilderConfig) (now : Z) : TimeRange :=
  default (mkTimeRange (Some (now - 7 * 24 * 60 * 60 * 1000)) (Some now))
          (cfg_defaultTimeRange config).

(** The predicate of [.filter(...)]; the two [typeof] tests hold of every
    [Memory]. *)
Definition keep (memory : Memory) : bool :=
  truthy_str (trim (text memory)) && truthy_str (trim (source memory)).

(** The function of [.map(...)]. *)
Definition normalize (memory : Memory) : Memory :=
  {| text := trim (text memory);
     relevance := Qmax 0 (Qmin 1 (relevance memory));
     timestamp := timestamp memory;
     source := trim (source memory);
     metadata := Some (default [] (metadata memory)) |}.

Definition processMemories (config : ContextBuilderConfig)
    (mems : list Memory) (options : option ContextOptions) : list Memory :=
  slice0 (sort byRelevanceDesc (normalize <$> filter keep mems))
         (default (config_topK config) (options_topK options)).

Definition buildContext (config : ContextBuilderConfig)
    (contextData : ContextData) (options : option ContextOptions) : MemoryContext :=
  {| memories := processMemories config (memories contextData) options |}.

Definition buildMetadata (config : ContextBuilderConfig) (now : Z)
    (options : option ContextOptions) (providerInfo : ProviderRef) : PartialMetadata :=
  {| p_generatedAt := Some now;
     p_provider := Some providerInfo;
     p_dataSource :=
       Some {| ds_timeRange :=
                 default (config_defaultTimeRange config now) (options_timeRange options);
               ds_categories := default ["memories"] (options_categories options) |} |}.

Definition buildErrorMetadata (now : Z) (providerInfo : ProviderRef) : PartialMetadata :=
  {| p_generatedAt := Some now;
     p_provider := Some providerInfo;
     p_dataSource := Some {| ds_timeRange := mkTimeRange (Some 0) (Some 0);
                             ds_categories := [] |} |}.

(** Nothing in the try block throws on a well-typed [ContextData]. *)
Definition buildContextResult (config : ContextBuilderConfig) (now : Z)
    (contextData : ContextData) (options : option ContextOptions)
    (providerInfo : ProviderRef) : ProviderContextResult :=
  {| pr_success := true;
     pr_data := Some (buildContext config contextData options);
     pr_error := None;
     pr_metadata := Some (buildMetadata config now options providerInfo) |}.

End ContextBuilder.

(* ===================================================================== *)
(** * The merge engine: [mergeContexts] *)
(* ===================================================================== *)

(** [memory.text.toLowerCase().trim()] *)
Definition dedupKey (memory : Memory) : string := trim (toLowerCase (text memory)).

(** The body of [allMemories.forEach]. *)
Definition mergeStep (memoryMap : OMap Memory) (memory : Memory) : OMap Memory :=
  let key := dedupKey memory in
  match Js.get key memoryMap with
  | None => Js.set key memory memoryMap
  | Some existing =>
      if Qgtb (relevance memory) (relevance existing)
      then Js.set key memory memoryMap
      else memoryMap
  end.

Definition dedup (allMemories : list Memory) : OMap Memory :=
  fold_left mergeStep allMemories [].

(** [contexts.flatMap((c) => c.memories)] *)
Definition flatMemories (contexts : list MemoryContext) : list Memory :=
  concat (memories <$> contexts).

(** The two copies of [mergeContexts] share everything but the bound of
    the final [slice]. *)
Definition mergeWithLimit (limit : Z) (contexts : list MemoryContext) : MemoryContext :=
  match contexts with
  | [] => {| memories := [] |}
  | [c] => c
  | _ =>
      {| memories :=
           slice0 (sort byRelevanceDesc (values (dedup (flatMemories contexts)))) limit |}
  end.

Module RegistryManager_merge.
(** [mergeContexts(contexts, options)] of the RegistryManager:
    [.slice(0, options?.topK ?? 50)]. *)
Definition mergeContexts (contexts : list MemoryContext)
    (options : option ContextOptions) : MemoryContext :=
  mergeWithLimit (default 50 (options_topK options)) contexts.
End RegistryManager_merge.

Module ExtensionSDK_merge.
(** [mergeContexts(contexts)] of index.ts: [.slice(0, 50)]. *)
Definition mergeContexts (contexts : list MemoryContext) : MemoryContext :=
  mergeWithLimit 50 contexts.
End ExtensionSDK_merge.

(* ===================================================================== *)
(** * The registry ([createRegistry])

    The two registries (index.ts and the RegistryManager) hold their
    providers in a [Map] keyed by [providerId].  The members that read the
    same in both files are in [Registry]; the members that differ are in
    [ExtensionSDK] and [RegistryManager].  Listeners and event dispatch do
    not influence any returned value and are left out. *)
(* ===================================================================== *)

Definition systemRef : ProviderRef :=
  {| ref_id := "system"; ref_name := "Memory Protocol System"; ref_version := "1.0.0" |}.

Definition emptyDataSource : DataSource :=
  {| ds_timeRange := mkTimeRange (Some 0) (Some 0); ds_categories := [] |}.

Definition systemMetadata (now : Z) : ContextMetadata :=
  {| generatedAt := now; provider := systemRef; dataSource := emptyDataSource |}.

(** [convertToContextResult(providerResult, providerId)]; index.ts has the
    same statements inline in its [getContext]. *)
Definition convertToContextResult (now : Z)
    (providerResult : ProviderContextResult) (providerId : string) : ContextResult :=
  let md := pr_metadata providerResult in
  let metadata :=
    {| generatedAt := default now (md ≫= p_generatedAt);
       provider :=
         default {| ref_id := providerId; ref_name := "Unknown Provider";
                    ref_version := "1.0.0" |}
                 (md ≫= p_provider);
       dataSource := default emptyDataSource (md ≫= p_dataSource) |} in
  let error :=
    match pr_error providerResult with
    | Some msg =>
        if truthy_str msg
        then Some {| code := PROVIDER_ERROR; message := msg; recoverable := false;
                     suggestedAction := None |}
        else None
    | None => None
    end in
  {| cr_success := pr_success providerResult;
     cr_data := pr_data providerResult;
     cr_error := error;
     cr_metadata := metadata |}.

Module Registry.

Abbreviation Providers := (OMap MemoryProvider.t).

(** [providers.set(provider.providerId, provider)] *)
Definition registerProvider (providers : Providers) (p : MemoryProvider.t) : Providers :=
  Js.set (MemoryProvider.providerId p) p providers.

Definition unregisterProvider (providers : Providers) (providerId : string)
    : bool * Providers :=
  let existed := Js.has providerId providers in
  (existed, if existed then Js.delete providerId providers else providers).

Definition getProviders (providers : Providers) : list MemoryProvider.t :=
  values providers.

Definition getProvider (providers : Providers) (providerId : string)
    : option MemoryProvider.t :=
  Js.get providerId providers.

(** [providerId ? providers.get(providerId) : Array.from(providers.values())[0]] *)
Definition selectProvider (providers : Providers) (providerId : option string)
    : option MemoryProvider.t :=
  match providerId with
  | Some pid =>
      if truthy_str pid then Js.get pid providers else head (values providers)
  | None => head (values providers)
  end.

Definition notAvailable (now : Z) : ContextResult :=
  {| cr_success := false;
     cr_data := None;
     cr_error := Some {| code := NOT_AVAILABLE;
                         message := "No memory providers available";
                         recoverable := true; suggestedAction := None |};
     cr_metadata := systemMetadata now |}.

Definition getContext (providers : Providers) (now : Z)
    (options : option ContextOptions) (providerId : option string)
    : Outcome ContextResult :=
  match selectProvider providers providerId with
  | None => Returns (notAvailable now)
  | Some p =>
      providerResult ← MemoryProvider.getContext p options;
      Returns (convertToContextResult now providerResult (MemoryProvider.providerId p))
  end.

(** [r.success && r.data] *)
Definition successfulWithData (r : ProviderContextResult) : bool :=
  pr_success r && bool_decide (is_Some (pr_data r)).

(** [results.map((result, index) => [availableProviders[index].providerId, result])] *)
Definition resultEntries (availableProviders : list MemoryProvider.t)
    (results : list ProviderContextResult) : list (string * ProviderContextResult) :=
  zip (MemoryProvider.providerId <$> availableProviders) results.

Definition aggregatedMetadata (now : Z) (p : ProviderRef) (ds : DataSource) (n : nat)
    : AggregatedContextMetadata :=
  {| ag_base := {| generatedAt := now; provider := p; dataSource := ds |};
     aggregationMethod := "merge";
     providerCount := Z.of_nat n |}.

Definition permissionDenied (now : Z) : AggregatedContextResult :=
  {| ag_success := false;
     ag_data := None;
     ag_error := Some {| code := PERMISSION_DENIED;
                         message := "No providers available with permissions";
                         recoverable := true; suggestedAction := None |};
     ag_metadata := aggregatedMetadata now systemRef emptyDataSource 0;
     ag_providers := [];
     ag_providerResults := ∅ |}.

Definition noData (now : Z) (availableProviders : list MemoryProvider.t)
    (results : list ProviderContextResult) : AggregatedContextResult :=
  {| ag_success := false;
     ag_data := None;
     ag_error := Some {| code := NO_DATA;
                         message := "No providers returned successful context";
                         recoverable := true; suggestedAction := None |};
     ag_metadata :=
       aggregatedMetadata now systemRef emptyDataSource (length availableProviders);
     ag_providers := MemoryProvider.providerId <$> availableProviders;
     ag_providerResults := fromEntries (resultEntries availableProviders results) |}.

Definition aggregated (now : Z) (options : option ContextOptions)
    (availableProviders : list MemoryProvider.t)
    (results successful : list ProviderContextResult)
    (mergedContext : MemoryContext) : AggregatedContextResult :=
  {| ag_success := true;
     ag_data := Some mergedContext;
     ag_error := None;
     ag_metadata :=
       aggregatedMetadata now
         {| ref_id := "aggregated"; ref_name := "Aggregated"; ref_version := "1.0.0" |}
         {| ds_timeRange :=
              default (mkTimeRange (Some (now - 7 * 24 * 60 * 60 * 1000)) (Some now))
                      (options_timeRange options);
            ds_categories := ["all"] |}
         (length successful);
     ag_providers := MemoryProvider.providerId <$> availableProviders;
     ag_providerResults := fromEntries (resultEntries availableProviders results) |}.

(** [Array.from(providers.values()).filter((p) => p.isPermissionGranted())] *)
Definition availableProviders (providers : Providers) : list MemoryProvider.t :=
  filter (fun p => MemoryProvider.isPermissionGranted p None = true) (values providers).

(** [successful.map((r) => r.data).filter(Boolean)] *)
Definition successfulData (successful : list ProviderContextResult) : list MemoryContext :=
  omap pr_data successful.

(** [getAggregatedContext]; [merge] is the call of [mergeContexts], which
    is the one place where the two registries differ. *)
Definition getAggregatedContextWith
    (merge : list MemoryContext -> option ContextOptions -> MemoryContext)
    (providers : Providers) (now : Z) (options : option ContextOptions)
    : Outcome AggregatedContextResult :=
  let available := availableProviders providers in
  if bool_decide (length available = 0%nat) then Returns (permissionDenied now)
  else
    results ← Js.all ((fun p => MemoryProvider.getContext p options) <$> available);
    let successful := filter (fun r => successfulWithData r = true) results in
    if bool_decide (length successful = 0%nat)
    then Returns (noData now available results)
    else Returns (aggregated now options available results successful
                             (merge (successfulData successful) options)).

Definition isPermissionGranted (providers : Providers)
    (providerId domain : option string) : bool :=
  if truthy_ostr providerId then
    match Js.get (default "" providerId) providers with
    | Some p => MemoryProvider.isPermissionGranted p domain
    | None => false
    end
  else existsb (fun p => MemoryProvider.isPermissionGranted p domain) (values providers).

Definition requestPermission (providers : Providers)
    (appInfo : AppInfo) (providerId : option string) : Outcome PermissionResult :=
  match selectProvider providers providerId with
  | None =>
      Returns {| res_granted := false; isFirstTime := true; res_permissions := [];
                 res_capabilities := None; res_domain := None |}
  | Some p => MemoryProvider.requestPermission p appInfo
  end.

End Registry.

(** [(p as any).provideContext] is present *)
Definition exposesProvideContext (p : MemoryProvider.t) : bool :=
  bool_decide (is_Some (MemoryProvider.provideContext p)).

Definition exposesContributeMemory (p : MemoryProvider.t) : bool :=
  bool_decide (is_Some (MemoryProvider.contributeMemory p)).

(** The registry of index.ts. *)
Module ExtensionSDK.

Definition mergeContexts := ExtensionSDK_merge.mergeContexts.

(** [mergeContexts(successful.map(...).filter(Boolean))]: the options are
    not passed on. *)
Definition getAggregatedContext :=
  Registry.getAggregatedContextWith (fun contexts _ => mergeContexts contexts).

Definition provisionNotAvailable (msg : string) (rejected : nat) : ContextProvisionResult :=
  {| cp_success := false; cp_processed := false; cp_acknowledged := false;
     memoriesAccepted := 0; memoriesRejected := Z.of_nat rejected;
     rejectionReasons := None;
     cp_error := Some {| code := NOT_AVAILABLE; message := msg; recoverable := true;
                         suggestedAction := None |};
     cp_contextId := None; storedUntil := None; storageLocation := None;
     processingTimeMs := Some 0; sizeBytes := None; cp_metadata := None |}.

Definition provideContext (providers : Registry.Providers)
    (context : WebAgentContext) (options : option WebAgentContextOptions)
    (providerId : option string) : Outcome ContextProvisionResult :=
  let provider :=
    if truthy_ostr providerId then Js.get (default "" providerId) providers
    else find (fun p => exposesProvideContext p
                        && MemoryProvider.isPermissionGranted p (Some (wac_domain context)))
              (values providers) in
  match provider ≫= MemoryProvider.provideContext with
  | None =>
      Returns (provisionNotAvailable "No providers support context provision"
                 (length (wac_memories context)))
  | Some provide =>
      result ← provide context options;
      Returns result
  end.

Definition contributeMemory (providers : Registry.Providers)
    (mems : list Memory) (source : string) (providerId : option string)
    : Outcome ContextProvisionResult :=
  let provider :=
    if truthy_ostr providerId then Js.get (default "" providerId) providers
    else find exposesContributeMemory (values providers) in
  match provider ≫= MemoryProvider.contributeMemory with
  | None =>
      Returns (provisionNotAvailable "No providers support memory contribution"
                 (length mems))
  | Some contribute => contribute mems source
  end.

(** The registry object returned by [createRegistry], as it answers with
    the providers registered so far. *)
Definition createRegistry (providers : Registry.Providers) (now : Z)
    : AgentMemoryRegistry.t :=
  {| AgentMemoryRegistry.getProviders := Registry.getProviders providers;
     AgentMemoryRegistry.getProvider := Registry.getProvider providers;
     AgentMemoryRegistry.getContext := Registry.getContext providers now;
     AgentMemoryRegistry.provideContext := provideContext providers;
     AgentMemoryRegistry.contributeMemory := contributeMemory providers |}.

End ExtensionSDK.

(** The registry of the RegistryManager. *)
Module RegistryManager.

Definition mergeContexts := RegistryManager_merge.mergeContexts.

Definition getAggregatedContext :=
  Registry.getAggregatedContextWith mergeContexts.

Definition provisionFailure (c : ErrorCode) (msg : string) (rec : bool) (rejected : nat)
    : ContextProvisionResult :=
  {| cp_success := false; cp_processed := false; cp_acknowledged := false;
     memoriesAccepted := 0; memoriesRejected := Z.of_nat rejected;
     rejectionReasons := None;
     cp_error := Some {| code := c; message := msg; recoverable := rec;
                         suggestedAction := None |};
     cp_contextId := None; storedUntil := None; storageLocation := None;
     processingTimeMs := None; sizeBytes := None; cp_metadata := None |}.

Definition provideContext (providers : Registry.Providers)
    (context : WebAgentContext) (options : option WebAgentContextOptions)
    (providerId : option string) : Outcome ContextProvisionResult :=
  let provider :=
    if truthy_ostr providerId then Js.get (default "" providerId) providers
    else find exposesProvideContext (values providers) in
  match provider ≫= MemoryProvider.provideContext with
  | None =>
      Returns (provisionFailure NOT_AVAILABLE "No providers support context provision"
                 true (length (wac_memories context)))
  | Some provide =>
      Returns (try_catch (provide context options)
                 (fun error =>
                    provisionFailure PROVIDER_ERROR (message_or error "Unknown error")
                      false (length (wac_memories context))))
  end.

Definition contributeMemory (providers : Registry.Providers)
    (mems : list Memory) (source : string) (providerId : option string)
    : Outcome ContextProvisionResult :=
  let provider :=
    if truthy_ostr providerId then Js.get (default "" providerId) providers
    else find exposesContributeMemory (values providers) in
  match provider ≫= MemoryProvider.contributeMemory with
  | None =>
      Returns (provisionFailure NOT_AVAILABLE "No providers support memory contribution"
                 true (length mems))
  | Some contribute =>
      Returns (try_catch (contribute mems source)
                 (fun error =>
                    provisionFailure PROVIDER_ERROR (message_or error "Unknown error")
                      false (length mems)))
  end.

(** The registry object returned by [createRegistry], as it answers with
    the providers registered so far. *)
Definition createRegistry (providers : Registry.Providers) (now : Z)
    : AgentMemoryRegistry.t :=
  {| AgentMemoryRegistry.getProviders := Registry.getProviders providers;
     AgentMemoryRegistry.getProvider := Registry.getProvider providers;
     AgentMemoryRegistry.getContext := Registry.getContext providers now;
     AgentMemoryRegistry.provideContext := provideContext providers;
     AgentMemoryRegistry.contributeMemory := contributeMemory providers |}.

End RegistryManager.

(* ===================================================================== *)
(** * The host environment *)
(* ===================================================================== *)

Record PermissionRecord : Type := mkPermissionRecord {
  granted : bool;
  grantedAt : Z;
  permissions : list string;
  (** required by the record type of index.ts; absent from the records of
      the PermissionManager *)
  capabilities : option Capabilities;
  rec_appInfo : option AppInfo;
  revokedAt : option Z;
  lastUsed : option Z
}.

(** [PermissionStorage]: the records that the object holds as own
    properties, keyed by domain.  The domain may be a string of the
    calling page ([appInfo.domain]); reads of [permissions[domain]] that
    test for a record, and the assignments to it, go through
    [Js.truthy_at] and [Js.assign]. *)
Abbreviation PermissionStorage := (gmap string PermissionRecord).

Record StoredContext : Type := mkStoredContext {
  context : WebAgentContext;
  receivedAt : Z;
  processed : bool;
  expiresAt : option Z;
  size : Z
}.

(** [WebAgentContextStorage]: entries keyed by context id, in the order
    of [Object.entries]. *)
Abbreviation WebAgentContextStorage := (OMap StoredContext).

(** [window]: [window.location?.hostname] and the answers of
    [window.confirm]. *)
Record Window : Type := mkWindow {
  hostname : option string;
  confirm : string -> bool
}.

(** The items of [localStorage] that belong to one provider (or to one
    PermissionManager).  [None] is an item that was never set; an item
    that does not parse reads as if it were not set. *)
Record LocalStorage : Type := mkLocalStorage {
  permissionsItem : option PermissionStorage;
  webAgentContextItem : option WebAgentContextStorage
}.

Record Env : Type := mkEnv {
  window : option Window;
  localStorage : option LocalStorage;
  (** [chrome.storage.local], holding the PermissionManager's item *)
  chromeStorageLocal : option (option PermissionStorage)
}.

(** [(typeof window !== "undefined" && window.location?.hostname) || "localhost"] *)
Definition currentDomain (env : Env) : string :=
  str_or (window env ≫= hostname) "localhost".

Definition setPermissionsItem (env : Env) (p : PermissionStorage) : Env :=
  match localStorage env with
  | Some ls =>
      {| window := window env;
         localStorage := Some {| permissionsItem := Some p;
                                 webAgentContextItem := webAgentContextItem ls |};
         chromeStorageLocal := chromeStorageLocal env |}
  | None => env
  end.

Definition setWebAgentContextItem (env : Env) (c : WebAgentContextStorage) : Env :=
  match localStorage env with
  | Some ls =>
      {| window := window env;
         localStorage := Some {| permissionsItem := permissionsItem ls;
                                 webAgentContextItem := Some c |};
         chromeStorageLocal := chromeStorageLocal env |}
  | None => env
  end.

Definition newline : string := String (ascii_of_nat 10) EmptyString.

(* ===================================================================== *)
(** * createProvider (index.ts) *)
(* ===================================================================== *)

Module Provider.

Record ProviderConfig : Type := mkProviderConfig {
  providerId : string;
  providerName : string;
  version : string;
  supportsContextProvision : option bool;
  maxWebAgentContextSize : option Z;
  webAgentStorageLimit : option Z;
  allowedAgentTypes : option (list string)
}.

Definition WebAgentContextHandler : Type :=
  WebAgentContext -> option WebAgentContextOptions -> Outcome ContextProvisionResult.

Section createProvider.

Variable config : ProviderConfig.
Variable getContextData : option ContextOptions -> Outcome ContextData.
Variable webAgentContextHandler : option WebAgentContextHandler.
(** [JSON.stringify(context).length]; it throws on a value that has no
    JSON form. *)
Variable stringifiedLength : WebAgentContext -> Outcome Z.

Definition getStoredPermissions (env : Env) : PermissionStorage :=
  match window env, localStorage env with
  | Some _, Some ls => default ∅ (permissionsItem ls)
  | _, _ => ∅
  end.

Definition storePermissions (env : Env) (p : PermissionStorage) : Env :=
  setPermissionsItem env p.

(** Without an own record [permissions[targetDomain]] is [undefined] or a
    member of [Object.prototype]; neither has a truthy [granted]. *)
Definition isPermissionGranted (env : Env)
    (domain : option string) (capability : option Capability) : Outcome bool :=
  let targetDomain := str_or domain (currentDomain env) in
  match getStoredPermissions env !! targetDomain with
  | None => Returns false
  | Some domainPermission =>
      if negb (granted domainPermission) || truthy_onum (revokedAt domainPermission)
      then Returns false
      else
        match capability with
        | None => Returns true
        | Some cap =>
            match capabilities domainPermission with
            | Some c => Returns (bool_decide (capability_flag c cap = Some true))
            | None =>
                Throws (ErrorObj "Cannot read properties of undefined")
            end
        end
  end.

(** The answers collected by the permission dialog, with the messages
    shown. *)
Definition defaultRequested : RequestedCapabilities :=
  {| req_read := Some true; req_write := Some false |}.

Definition askUser (w : Window) (appInfo : AppInfo) (isFirstTime : bool)
    : bool * Capabilities * list string :=
  let requested := default defaultRequested (requestedCapabilities appInfo) in
  let baseMessage :=
    if isFirstTime
    then appName appInfo ++
         " wants to access your browsing context. Which permissions do you want to grant?"
    else appName appInfo ++
         " is requesting additional permissions. Which do you want to grant?" in
  let grantMessage := baseMessage ++ newline ++ newline ++ "Grant access?" in
  let readMessage := "Allow reading your browsing context?" in
  let writeMessage := "Allow contributing context back to your memory?" in
  if confirm w grantMessage then
    let askRead := truthy_obool (req_read requested) in
    let askWrite := truthy_obool (req_write requested) in
    (true,
     {| read := Some (askRead && confirm w readMessage);
        write := Some (askWrite && confirm w writeMessage) |},
     ([grantMessage] ++ (if askRead then [readMessage] else [])
                     ++ (if askWrite then [writeMessage] else []))%list)
  else (false, {| read := Some false; write := Some false |}, [grantMessage]).

(** Without a window the requested capabilities are granted:
    [read: requested.read || true], [write: requested.write || false]. *)
Definition autoGrant (appInfo : AppInfo) : bool * Capabilities * list string :=
  let requested := default defaultRequested (requestedCapabilities appInfo) in
  (true,
   {| read := Some (truthy_obool (req_read requested) || true);
      write := Some (truthy_obool (req_write requested) || false) |},
   []).

(** [requestPermission(appInfo)]: the result, the environment after the
    call and the messages shown to the user. *)
Definition requestPermission (env : Env) (now : Z) (appInfo : AppInfo)
    : Outcome (PermissionResult * Env * list string) :=
  let domain := str_or (app_domain appInfo) (currentDomain env) in
  alreadyGranted ← isPermissionGranted env (Some domain) None;
  if (alreadyGranted : bool) then
    match getStoredPermissions env !! domain with
    | Some existingPermission =>
        Returns ({| res_granted := true; isFirstTime := false;
                    res_permissions := permissions existingPermission;
                    res_capabilities := capabilities existingPermission;
                    res_domain := Some domain |}, env, [])
    | None => Throws (ErrorObj "Cannot read properties of undefined")
    end
  else
    let perms := getStoredPermissions env in
    let firstTime := negb (truthy_at perms domain) in
    let '(userGranted, userCapabilities, shown) :=
      match window env with
      | Some w => askUser w appInfo firstTime
      | None => autoGrant appInfo
      end in
    let grantedPermissions :=
      ((if truthy_obool (read userCapabilities) then ["context.read"] else [])
       ++ (if truthy_obool (write userCapabilities) then ["context.write"] else []))%list
      in
    if userGranted then
      let record :=
        {| granted := true; grantedAt := now; permissions := grantedPermissions;
           capabilities := Some userCapabilities; rec_appInfo := Some appInfo;
           revokedAt := None; lastUsed := Some now |} in
      Returns ({| res_granted := true; isFirstTime := firstTime;
                  res_permissions := grantedPermissions;
                  res_capabilities := Some userCapabilities;
                  res_domain := Some domain |},
               storePermissions env (assign domain record perms), shown)
    else
      let record :=
        {| granted := false; grantedAt := now; permissions := [];
           capabilities := Some {| read := Some false; write := Some false |};
           rec_appInfo := Some appInfo; revokedAt := None; lastUsed := None |} in
      Returns ({| res_granted := false; isFirstTime := firstTime;
                  res_permissions := [];
                  res_capabilities := Some {| read := Some false; write := Some false |};
                  res_domain := Some domain |},
               storePermissions env (assign domain record perms), shown).

(** ** The write-back store *)

(** [!expiresAt || expiresAt > now] *)
Definition notExpired (now : Z) (d : StoredContext) : bool :=
  negb (truthy_onum (expiresAt d)) || bool_decide (now < default 0 (expiresAt d)).

(** The loop that fills [cleanedContexts]. *)
Definition cleanContexts (now : Z) (contexts : WebAgentContextStorage)
    : WebAgentContextStorage :=
  fold_left
    (fun cleaned entry =>
       if notExpired now entry.2 then Js.set entry.1 entry.2 cleaned else cleaned)
    (entries contexts) [].

Definition getStoredWebAgentContexts (env : Env) (now : Z)
    : WebAgentContextStorage * Env :=
  match window env, localStorage env with
  | Some _, Some ls =>
      let contexts := default [] (webAgentContextItem ls) in
      let cleanedContexts := cleanContexts now contexts in
      (cleanedContexts,
       if bool_decide (length (keys cleanedContexts) ≠ length (keys contexts))
       then setWebAgentContextItem env cleanedContexts
       else env)
  | _, _ => ([], env)
  end.

Definition storeWebAgentContexts (env : Env) (c : WebAgentContextStorage) : Env :=
  setWebAgentContextItem env c.

(** [config.webAgentStorageLimit || 100] *)
Definition storageLimit : Z :=
  match webAgentStorageLimit config with
  | Some l => if truthy_num l then l else 100
  | None => 100
  end.

(** [(a, b) => a[1].receivedAt - b[1].receivedAt] *)
Definition byReceivedAt (a b : string * StoredContext) : Q :=
  inject_Z (receivedAt a.2 - receivedAt b.2).

(** "Remove oldest contexts if at limit" *)
Definition evictOldest (storedContexts : WebAgentContextStorage)
    : WebAgentContextStorage :=
  let contextEntries := entries storedContexts in
  let n := Z.of_nat (length contextEntries) in
  if bool_decide (storageLimit <= n) then
    let sortedEntries := sort byReceivedAt contextEntries in
    let toRemove := slice0 sortedEntries (n - storageLimit + 1) in
    fold_left (fun acc entry => Js.delete entry.1 acc) toRemove storedContexts
  else storedContexts.

Definition makeContextId (c : WebAgentContext) : string :=
  agentId c ++ "_" ++ str_or (sessionId c) "default" ++ "_" ++ pretty (wac_timestamp c).

Definition expiryOf (now : Z) (c : WebAgentContext)
    (options : option WebAgentContextOptions) : Z :=
  if truthy_onum (wac_expiresAt c) then default 0 (wac_expiresAt c)
  else if bool_decide (options ≫= storageType = Some "ephemeral")
       then now + 5 * 60 * 1000
       else now + 24 * 60 * 60 * 1000.

Definition rejection (now : Z) (c : WebAgentContext)
    (reasons : option (list string)) (err : ProtocolError) : ContextProvisionResult :=
  {| cp_success := false; cp_processed := false; cp_acknowledged := false;
     memoriesAccepted := 0;
     memoriesRejected := Z.of_nat (length (wac_memories c));
     rejectionReasons := reasons;
     cp_error := Some err;
     cp_contextId := None; storedUntil := None; storageLocation := None;
     processingTimeMs := Some (now - now); sizeBytes := None; cp_metadata := None |}.

Definition accepted (now : Z) (c : WebAgentContext) (contextId : string)
    (expires contextSize : Z) : ContextProvisionResult :=
  {| cp_success := true; cp_processed := true; cp_acknowledged := true;
     memoriesAccepted := Z.of_nat (length (wac_memories c));
     memoriesRejected := 0;
     rejectionReasons := None;
     cp_error := None;
     cp_contextId := Some contextId;
     storedUntil := Some expires;
     storageLocation := Some "memory";
     processingTimeMs := Some (now - now);
     sizeBytes := Some contextSize;
     cp_metadata := Some {| pm_providerId := providerId config; pm_timestamp := now;
                            pm_version := version config |} |}.

(** [config.allowedAgentTypes && context.agentType] and not included *)
Definition agentTypeRefused (c : WebAgentContext) : bool :=
  match allowedAgentTypes config, agentType c with
  | Some allowed, Some t => truthy_str t && negb (bool_decide (t ∈ allowed))
  | _, _ => false
  end.

(** [config.maxWebAgentContextSize && contextSize > config.maxWebAgentContextSize] *)
Definition tooLarge (contextSize : Z) : bool :=
  truthy_onum (maxWebAgentContextSize config)
  && bool_decide (default 0 (maxWebAgentContextSize config) < contextSize).

(** The handler's result, or [null] when there is no handler or it
    throws (the inner try block). *)
Definition runHandler (c : WebAgentContext) (options : option WebAgentContextOptions)
    : option ContextProvisionResult :=
  match webAgentContextHandler with
  | Some handler =>
      try_catch (r ← handler c options; Returns (Some r)) (fun _ => None)
  | None => None
  end.

(** [storedContexts[contextId].processed = true] *)
Definition markProcessed (contextId : string) (storedContexts : WebAgentContextStorage)
    : WebAgentContextStorage :=
  match Js.get contextId storedContexts with
  | Some d =>
      Js.set contextId
        {| context := context d; receivedAt := receivedAt d; processed := true;
           expiresAt := expiresAt d; size := size d |}
        storedContexts
  | None => storedContexts
  end.

(** [handleWebAgentContext(context, options)]: the result and the
    environment after the call. *)
Definition handleWebAgentContext (env : Env) (now : Z)
    (c : WebAgentContext) (options : option WebAgentContextOptions)
    : ContextProvisionResult * Env :=
  try_catch
    (permitted ← isPermissionGranted env (Some (wac_domain c)) (Some CapWrite);
     if negb permitted then
       Returns (rejection now c (Some ["Permission denied for domain"])
                  {| code := PERMISSION_DENIED;
                     message := "Permission required for domain: " ++ wac_domain c;
                     recoverable := true;
                     suggestedAction := Some "Request permission from user" |},
                env)
     else if agentTypeRefused c then
       Returns (rejection now c
                  (Some ["Agent type '" ++ default "" (agentType c) ++ "' not allowed"])
                  {| code := INVALID_OPTIONS;
                     message := "Agent type '" ++ default "" (agentType c)
                                ++ "' is not allowed";
                     recoverable := false; suggestedAction := None |},
                env)
     else
       contextSize ← stringifiedLength c;
       if tooLarge contextSize then
         Returns (rejection now c (Some ["Context size exceeds limit"])
                    {| code := INVALID_OPTIONS;
                       message := "Context size exceeds maximum allowed limit";
                       recoverable := false; suggestedAction := None |},
                  env)
       else
         let contextId := makeContextId c in
         let '(storedContexts, env1) := getStoredWebAgentContexts env now in
         let storedContexts := evictOldest storedContexts in
         let expires := expiryOf now c options in
         let storedContexts :=
           Js.set contextId
             {| context := c; receivedAt := now; processed := false;
                expiresAt := Some expires; size := contextSize |}
             storedContexts in
         let env2 := storeWebAgentContexts env1 storedContexts in
         let handlerResult := runHandler c options in
         let storedContexts := markProcessed contextId storedContexts in
         let env3 := storeWebAgentContexts env2 storedContexts in
         Returns (default (accepted now c contextId expires contextSize) handlerResult,
                  env3))
    (fun error =>
       (rejection now c None
          {| code := PROVIDER_ERROR;
             message := message_or error "Unknown error occurred";
             recoverable := false; suggestedAction := None |},
        env)).

(** ** The read path *)

Definition providerRef : ProviderRef :=
  {| ref_id := providerId config; ref_name := providerName config;
     ref_version := version config |}.

Definition failed (now : Z) (msg : string) : ProviderContextResult :=
  {| pr_success := false; pr_data := None; pr_error := Some msg;
     pr_metadata :=
       Some {| p_generatedAt := Some now; p_provider := Some providerRef;
               p_dataSource := Some emptyDataSource |} |}.

Definition getContext (env : Env) (now : Z) (options : option ContextOptions)
    : ProviderContextResult :=
  try_catch
    (permitted ← isPermissionGranted env (Some (currentDomain env)) (Some CapRead);
     if negb permitted then
       Returns (failed now "Permission required to access memory data")
     else
       contextData ← getContextData options;
       Returns
         {| pr_success := true;
            pr_data := Some {| memories := slice0 (memories contextData) 50 |};
            pr_error := None;
            pr_metadata :=
              Some {| p_generatedAt := Some now;
                      p_provider := Some providerRef;
                      p_dataSource :=
                        Some {| ds_timeRange :=
                                  default (mkTimeRange
                                             (Some (now - 7 * 24 * 60 * 60 * 1000))
                                             (Some now))
                                          (options_timeRange options);
                                ds_categories :=
                                  default ["all"] (options_categories options) |} |} |})
    (fun error => failed now (message_or error "Unknown provider error")).

(** [contributeMemory(memories, source)] *)
Definition contributeMemory (env : Env) (now : Z) (mems : list Memory) (src : string)
    : ContextProvisionResult * Env :=
  handleWebAgentContext env now
    {| agentId := src; agentName := src; agentType := Some "other";
       wac_memories := mems; sessionId := None; contextType := "other";
       wac_timestamp := now; wac_domain := currentDomain env;
       wac_expiresAt := None;
       wac_source := {| source_type := "external-api";
                        source_description := Some ("Memories contributed from " ++ src);
                        source_confidence := Some 1%Q |} |}
    None.

(** The provider object returned by [createProvider], as it answers in
    the environment [env] at time [now]. *)
Definition createProvider (env : Env) (now : Z) : MemoryProvider.t :=
  let writable := negb (bool_decide (supportsContextProvision config = Some false)) in
  {| MemoryProvider.providerId := providerId config;
     MemoryProvider.providerName := providerName config;
     MemoryProvider.version := version config;
     (* the registry passes no capability, and then the check returns *)
     MemoryProvider.isPermissionGranted :=
       fun domain =>
         match isPermissionGranted env domain None with
         | Returns b => b
         | Throws _ => false
         end;
     MemoryProvider.requestPermission :=
       fun appInfo => r ← requestPermission env now appInfo; Returns r.1.1;
     MemoryProvider.getContext := fun options => Returns (getContext env now options);
     MemoryProvider.provideContext :=
       if writable
       then Some (fun c options => Returns (handleWebAgentContext env now c options).1)
       else None;
     MemoryProvider.contributeMemory :=
       if writable
       then Some (fun mems src => Returns (contributeMemory env now mems src).1)
       else None |}.

End createProvider.

End Provider.

(* ===================================================================== *)
(** * PermissionManager (permissions.ts)

    Its records carry no capability map.  Events dispatched after a change
    do not influence any returned value and are left out. *)
(* ===================================================================== *)

Module PermissionManager.

Record PermissionManagerConfig : Type := mkPermissionManagerConfig {
  cfg_autoShowUI : option bool;
  cfg_defaultPermissions : option (list string)
}.

Section PermissionManager.

Variable config : PermissionManagerConfig.

Definition autoShowUI : bool := default true (cfg_autoShowUI config).

Definition defaultPermissions : list string :=
  default ["context"] (cfg_defaultPermissions config).

Definition getStoredPermissions (env : Env) : PermissionStorage :=
  match window env, localStorage env with
  | Some _, Some ls => default ∅ (permissionsItem ls)
  | _, _ => ∅
  end.

(** Writes go to [chrome.storage.local] when it exists, and to
    [localStorage] otherwise. *)
Definition storePermissions (env : Env) (p : PermissionStorage) : Env :=
  match chromeStorageLocal env with
  | Some _ =>
      {| window := window env; localStorage := localStorage env;
         chromeStorageLocal := Some (Some p) |}
  | None => setPermissionsItem env p
  end.

(** [domainPermission?.granted === true && !domainPermission.revokedAt];
    a member inherited from [Object.prototype] has no [granted]. *)
Definition isPermissionGranted (env : Env) (domain : string) : bool :=
  match getStoredPermissions env !! domain with
  | Some domainPermission =>
      granted domainPermission && negb (truthy_onum (revokedAt domainPermission))
  | None => false
  end.

Definition getCurrentDomain (env : Env) : string :=
  default "localhost" (window env ≫= hostname).

Definition showPermissionDialog (env : Env) (appInfo : AppInfo) (isFirstTime : bool)
    : bool * list string :=
  match window env with
  | None => (true, [])
  | Some w =>
      let message :=
        if isFirstTime
        then appName appInfo ++
             " wants to access your browsing context to provide personalized AI responses. Allow?"
        else appName appInfo ++ " is requesting permission again. Allow?" in
      (confirm w message, [message])
  end.

Definition grantPermission (env : Env) (now : Z) (domain : string) (appInfo : AppInfo)
    : Env :=
  storePermissions env
    (assign domain
       {| granted := true; grantedAt := now;
          permissions := defaultPermissions; capabilities := None;
          rec_appInfo := Some appInfo; revokedAt := None;
          lastUsed := None |}
       (getStoredPermissions env)).

Definition denyPermission (env : Env) (now : Z) (domain : string) (appInfo : AppInfo)
    : Env :=
  storePermissions env
    (assign domain
       {| granted := false; grantedAt := now;
          permissions := []; capabilities := None;
          rec_appInfo := Some appInfo; revokedAt := None;
          lastUsed := None |}
       (getStoredPermissions env)).

(** [revokePermission(domain)].  When [permissions[domain]] is a member
    inherited from [Object.prototype], the two fields are set on that
    member and the object is stored as it was.  (For ["__proto__"] the
    member is [Object.prototype] itself, so that every object of the page
    then inherits a [revokedAt]; this effect on the page is not
    represented.) *)
Definition revokePermission (env : Env) (now : Z) (domain : string) : Env :=
  let perms := getStoredPermissions env in
  match perms !! domain with
  | Some existingPermission =>
      storePermissions env
        (<[domain := {| granted := false;
                        grantedAt := grantedAt existingPermission;
                        permissions := permissions existingPermission;
                        capabilities := capabilities existingPermission;
                        rec_appInfo := rec_appInfo existingPermission;
                        revokedAt := Some now;
                        lastUsed := lastUsed existingPermission |}]> perms)
  | None =>
      if bool_decide (domain ∈ objectPrototypeKeys) then storePermissions env perms
      else env
  end.

(** [requestPermission(appInfo)]: the result, the environment after the
    call and the messages shown to the user. *)
Definition requestPermission (env : Env) (now : Z) (appInfo : AppInfo)
    : PermissionResult * Env * list string :=
  let domain := str_or (app_domain appInfo) (getCurrentDomain env) in
  if isPermissionGranted env domain then
    ({| res_granted := true; isFirstTime := false;
        res_permissions := defaultPermissions; res_capabilities := None;
        res_domain := Some domain |}, env, [])
  else
    let firstTime := negb (truthy_at (getStoredPermissions env) domain) in
    if autoShowUI then
      let '(userGranted, shown) := showPermissionDialog env appInfo firstTime in
      if (userGranted : bool) then
        ({| res_granted := true; isFirstTime := firstTime;
            res_permissions := defaultPermissions; res_capabilities := None;
            res_domain := Some domain |},
         grantPermission env now domain appInfo, shown)
      else
        ({| res_granted := false; isFirstTime := firstTime;
            res_permissions := []; res_capabilities := None;
            res_domain := Some domain |},
         denyPermission env now domain appInfo, shown)
    else
      ({| res_granted := false; isFirstTime := firstTime;
          res_permissions := []; res_capabilities := None;
          res_domain := Some domain |}, env, []).



End PermissionManager.

End PermissionManager.

(* ===================================================================== *)
(** * BaseProvider *)
(* ===================================================================== *)

Module BaseProvider.

(** The provider's configuration and the utilities installed by
    [_initialize] ([None] before initialisation). *)
Record BaseProvider : Type := mkBaseProvider {
  info : ProviderRef;
  _permissionManager : option PermissionManager.PermissionManagerConfig;
  _contextBuilder : option ContextBuilder.ContextBuilderConfig
}.

Section BaseProvider.

Variable this : BaseProvider.
Variable getContextData : option ContextOptions -> Outcome ContextData.

Definition getCurrentDomain (env : Env) : string :=
  default "localhost" (window env ≫= hostname).

(** [this._permissionManager?.isPermissionGranted(domain) ?? false] *)
Definition getPermissionState (env : Env) (domain : string) : bool :=
  match _permissionManager this with
  | Some pm => PermissionManager.isPermissionGranted env domain
  | None => false
  end.

Definition isPermissionGranted (env : Env) (domain : option string) : bool :=
  getPermissionState env (default (getCurrentDomain env) domain).

(** [requestPermission(appInfo)]: the result, the environment after the
    call and the messages shown to the user. *)
Definition requestPermission (env : Env) (now : Z) (appInfo : AppInfo)
    : Outcome (PermissionResult * Env * list string) :=
  match _permissionManager this with
  | None =>
      Throws (ErrorObj
        "PermissionManager not initialized. Call ExtensionSDK.initialize() first.")
  | Some pm => Returns (PermissionManager.requestPermission pm env now appInfo)
  end.

Definition createErrorMetadata (now : Z) : PartialMetadata :=
  {| p_generatedAt := Some now; p_provider := Some (info this);
     p_dataSource := Some emptyDataSource |}.

Definition getContext (env : Env) (now : Z) (options : option ContextOptions)
    : ProviderContextResult :=
  try_catch
    (if negb (isPermissionGranted env (Some (getCurrentDomain env))) then
       Returns {| pr_success := false; pr_data := None;
                  pr_error := Some "Permission required to access memory data";
                  pr_metadata := Some (createErrorMetadata now) |}
     else
       contextData ← getContextData options;
       match _contextBuilder this with
       | None =>
           Throws (ErrorObj
             "ContextBuilder not initialized. Call ExtensionSDK.initialize() first.")
       | Some builder =>
           Returns (ContextBuilder.buildContextResult builder now contextData options
                      (info this))
       end)
    (fun error =>
       {| pr_success := false; pr_data := None;
          pr_error := Some (message_or error "Unknown provider error");
          pr_metadata := Some (createErrorMetadata now) |}).

End BaseProvider.

End BaseProvider.

(* ===================================================================== *)
(** * validateContextData (index.ts)

    The [typeof] tests of the loop hold of every [ContextData], and nothing
    in the try block throws on one. *)
(* ===================================================================== *)

Fixpoint validateMemories (mems : list Memory) : bool :=
  match mems with
  | [] => true
  | memory :: rest =>
      if Qgtb 0 (relevance memory) || Qgtb (relevance memory) 1 then false
      else if negb (truthy_str (trim (text memory)))
              || negb (truthy_str (trim (source memory)))
      then false
      else validateMemories rest
  end.

Definition validateContextData (data : ContextData) : bool :=
  validateMemories (memories data).

(* ===================================================================== *)
(** * Storage keys (storage-keys.ts) *)
(* ===================================================================== *)

Module StorageKeys.

Definition PERMISSIONS_BASE : string := "agentMemoryPermissions".
Definition WEB_AGENT_CONTEXT_BASE : string := "agentMemoryWebAgentContext".
Definition EXTENSION_SETTINGS : string := "agentMemorySettings".
Definition UI_PROMPT_DISMISSED : string := "agent-memory-prompt-dismissed".
Definition ANALYTICS_LOG : string := "agentMemoryAnalyticsLog".

Record ProviderKeys : Type := mkProviderKeys {
  permissions : string;
  webAgentContext : string;
  analytics : string
}.

Definition createStorageKeys (providerId : string) : ProviderKeys :=
  {| permissions := PERMISSIONS_BASE ++ "_" ++ providerId;
     webAgentContext := WEB_AGENT_CONTEXT_BASE ++ "_" ++ providerId;
     analytics := ANALYTICS_LOG ++ "_" ++ providerId |}.

End StorageKeys.

(* ===================================================================== *)
(** * Event listeners of a registry ([createRegistry])

    [listeners] is a [Map] from an event type to the [Set] of its
    callbacks.  A callback is a function object, and a [Set] tells its
    members apart by identity. *)
(* ===================================================================== *)

Module RegistryEvents.

Section RegistryEvents.

Context {Callback : Type} `{EqDecision Callback}.

(** [Set.prototype.add] *)
Definition Set_add (x : Callback) (s : list Callback) : list Callback :=
  if bool_decide (x ∈ s) then s else (s ++ [x])%list.

(** [Set.prototype.delete] *)
Fixpoint Set_delete (x : Callback) (s : list Callback) : list Callback :=
  match s with
  | [] => []
  | y :: r => if bool_decide (x = y) then r else y :: Set_delete x r
  end.

Definition addEventListener (listeners : OMap (list Callback))
    (event : string) (callback : Callback) : OMap (list Callback) :=
  let listeners :=
    if Js.has event listeners then listeners else Js.set event [] listeners in
  match Js.get event listeners with
  | Some eventListeners => Js.set event (Set_add callback eventListeners) listeners
  | None => listeners
  end.

Definition removeEventListener (listeners : OMap (list Callback))
    (event : string) (callback : Callback) : OMap (list Callback) :=
  match Js.get event listeners with
  | Some eventListeners =>
      let eventListeners := Set_delete callback eventListeners in
      if bool_decide (length eventListeners = 0%nat)
      then Js.delete event listeners
      else Js.set event eventListeners listeners
  | None => listeners
  end.

(** [dispatchEvent(event)]: the callbacks that are run, in order (one that
    throws is logged and the next one runs; the callbacks are taken not to
    add or remove listeners themselves), the type of the event sent on to
    the window, and the value returned. *)
Definition dispatchEvent (listeners : OMap (list Callback)) (env : Env)
    (eventType : string) : list Callback * option string * bool :=
  (default [] (Js.get eventType listeners),
   match window env with
   | Some _ => Some ("agentMemory:" ++ eventType)
   | None => None
   end,
   true).

End RegistryEvents.

End RegistryEvents.

(* ===================================================================== *)
(** * TimeUtils (time-utils.ts) *)
(* ===================================================================== *)

Module TimeUtils.

Definition MS_PER_SECOND : Z := 1000.
Definition MS_PER_MINUTE : Z := MS_PER_SECOND * 60.
Definition MS_PER_HOUR : Z := MS_PER_MINUTE * 60.
Definition MS_PER_DAY : Z := MS_PER_HOUR * 24.
Definition MS_PER_WEEK : Z := MS_PER_DAY * 7.

Definition daysAgo (now days : Z) : Z := now - days * MS_PER_DAY.
Definition hoursAgo (now hours : Z) : Z := now - hours * MS_PER_HOUR.
Definition minutesAgo (now minutes : Z) : Z := now - minutes * MS_PER_MINUTE.
Definition weeksAgo (now weeks : Z) : Z := now - weeks * MS_PER_WEEK.

Definition since (start : Z) : TimeRange := mkTimeRange (Some start) None.
Definition between (start end_ : Z) : TimeRange := mkTimeRange (Some start) (Some end_).
Definition lastDays (now days : Z) : TimeRange := mkTimeRange (Some (daysAgo now days)) None.
Definition lastHours (now hours : Z) : TimeRange :=
  mkTimeRange (Some (hoursAgo now hours)) None.
Definition lastMinutes (now minutes : Z) : TimeRange :=
  mkTimeRange (Some (minutesAgo now minutes)) None.
Definition lastWeeks (now weeks : Z) : TimeRange :=
  mkTimeRange (Some (weeksAgo now weeks)) None.

End TimeUtils.

(* ===================================================================== *)
(** * Client-side helpers (client-sdk, helpers.ts) *)
(* ===================================================================== *)

Module Helpers.

Record ProviderSelectionCriteria : Type := mkProviderSelectionCriteria {
  preferredProviders : option (list string);
  requiredFeatures : option (list string)
}.

Section Helpers.

(** [window.agentMemory]; [None] when there is no window or the window
    has no registry. *)
Variable agentMemory : option AgentMemoryRegistry.t.

(** [p.getProviderInfo().features] *)
Variable features : MemoryProvider.t -> list string.

(** [provider.isPermissionGranted(domain)] as a call: a provider object
    that a page registers may throw there.  A provider that reports
    answers [Returns (MemoryProvider.isPermissionGranted provider domain)]. *)
Variable callIsPermissionGranted : MemoryProvider.t -> option string -> Outcome bool.

(** [isProtocolAvailable()] of the protocol package. *)
Definition isProtocolAvailable : bool := bool_decide (is_Some agentMemory).

(** [window.agentMemory?.getProviders() || []] *)
Definition installedProviders : list MemoryProvider.t :=
  default [] (AgentMemoryRegistry.getProviders <$> agentMemory).

(** [xs?.length], as a condition *)
Definition nonEmpty {A : Type} (xs : option (list A)) : bool :=
  match xs with
  | Some (_ :: _) => true
  | _ => false
  end.

Definition selectBestProvider (criteria : ProviderSelectionCriteria)
    : option MemoryProvider.t :=
  if negb isProtocolAvailable then None
  else
    let providers := installedProviders in
    if bool_decide (length providers = 0%nat) then None
    else
      let preferred :=
        filter (fun p => MemoryProvider.providerId p
                         ∈ default [] (preferredProviders criteria)) providers in
      if nonEmpty (preferredProviders criteria)
         && bool_decide (0 < length preferred)%nat
      then head preferred
      else
        let compatible :=
          filter (fun p => Forall (fun feature => feature ∈ features p)
                                  (default [] (requiredFeatures criteria)))
                 providers in
        if nonEmpty (requiredFeatures criteria)
           && bool_decide (0 < length compatible)%nat
        then head compatible
        else head providers.

Definition getProviderByName (name : string) : option MemoryProvider.t :=
  if negb isProtocolAvailable then None
  else
    find (fun p => String.eqb (toLowerCase (MemoryProvider.providerName p))
                              (toLowerCase name))
         installedProviders.

(** [getContextSafely(options, providerId)]: [None] is [null]. *)
Definition getContextSafely (options : option ContextOptions)
    (providerId : option string) : option ContextResult :=
  try_catch
    (match agentMemory with
     | None => Returns None
     | Some registry =>
         result ← AgentMemoryRegistry.getContext registry options providerId;
         Returns (Some result)
     end)
    (fun _ => None).

(** [checkAllPermissions(appInfo)]: the own properties of [results].  A
    provider whose check throws is recorded as [false]. *)
Definition checkAllPermissions (appInfo : AppInfo) : gmap string bool :=
  if negb isProtocolAvailable then ∅
  else
    fold_left
      (fun results provider =>
         assign (MemoryProvider.providerId provider)
           (try_catch (callIsPermissionGranted provider (app_domain appInfo))
              (fun _ => false))
           results)
      installedProviders ∅.

(** [requestAllPermissions(appInfo)]: the own properties of [results]. *)
Definition requestAllPermissions (appInfo : AppInfo) : gmap string PermissionResult :=
  if negb isProtocolAvailable then ∅
  else
    fold_left
      (fun results provider =>
         assign (MemoryProvider.providerId provider)
           (try_catch (MemoryProvider.requestPermission provider appInfo)
              (fun _ => {| res_granted := false; isFirstTime := false;
                           res_permissions := []; res_capabilities := None;
                           res_domain := None |}))
           results)
      installedProviders ∅.

End Helpers.

End Helpers.

(* ===================================================================== *)
(** * Client SDK (client-sdk, index.ts)

    [protocol] is what [waitForProtocol] resolves to: the registry that
    the page has, or gets, before the time-out, or [null].  Fields of a
    context that no operation reads ([agentVersion], [categories], ...)
    are not represented. *)
(* ===================================================================== *)

Module ClientSDK.

Record MemorySDKConfig : Type := mkMemorySDKConfig {
  appName : string;
  appId : string;
  mockMode : option bool;
  showInstallPrompt : option bool;
  preferredProvider : option string;
  debug : option bool;
  agentType : option string;
  enableWrite : option bool;
  sessionId : option string
}.

(** [permissionGranted] is a getter; a provider answers from the state it
    was taken in, so the getter's value is fixed with the client. *)
Record MemoryClient : Type := mkMemoryClient {
  available : bool;
  providersInstalled : bool;
  permissionGranted : bool;
  provider : option MemoryProvider.t;
  config : MemorySDKConfig;
  __mockMode : bool;
  __protocol : option AgentMemoryRegistry.t
}.

Definition initMemoryClient (protocol : option AgentMemoryRegistry.t)
    (config : MemorySDKConfig) : Outcome MemoryClient :=
  if negb (truthy_str (appName config)) || negb (truthy_str (appId config)) then
    Throws (ErrorObj "MemoryClientSDK: appName and appId are required")
  else if (String.length (appId config) <? 3)%nat then
    Throws (ErrorObj "MemoryClientSDK: appId must be at least 3 characters long")
  else if truthy_obool (mockMode config) then
    Returns {| available := true; providersInstalled := true;
               permissionGranted := true; provider := None; config := config;
               __mockMode := true; __protocol := None |}
  else
    match protocol with
    | None =>
        Returns {| available := false; providersInstalled := false;
                   permissionGranted := false; provider := None; config := config;
                   __mockMode := false; __protocol := None |}
    | Some protocol =>
        let providers := AgentMemoryRegistry.getProviders protocol in
        let selectedProvider :=
          if truthy_ostr (preferredProvider config)
          then AgentMemoryRegistry.getProvider protocol
                 (default "" (preferredProvider config))
          else head providers in
        Returns {| available := true;
                   providersInstalled := bool_decide (0 < length providers)%nat;
                   permissionGranted :=
                     match selectedProvider with
                     | Some p => MemoryProvider.isPermissionGranted p None
                     | None => false
                     end;
                   provider := selectedProvider; config := config;
                   __mockMode := false; __protocol := Some protocol |}
    end.

(** [{}] *)
Definition noOptions : ContextOptions :=
  {| relevanceQuery := None; timeRange := None; topK := None; categories := None;
     format := None |}.

Definition unavailable (now : Z) (msg : string) (rec : bool) (action : option string)
    : ContextResult :=
  {| cr_success := false;
     cr_data := None;
     cr_error := Some {| code := NOT_AVAILABLE; message := msg; recoverable := rec;
                         suggestedAction := action |};
     cr_metadata :=
       mkContextMetadata now
         {| ref_id := "none"; ref_name := "None"; ref_version := "0.0.0" |}
         emptyDataSource |}.

(** [getContext(client, options)]; the flag [isMockData] of the mock
    metadata is not represented. *)
Definition getContext (now : Z) (client : MemoryClient) (options : option ContextOptions)
    : Outcome ContextResult :=
  if __mockMode client then
    Returns
      {| cr_success := true;
         cr_data :=
           Some {| memories :=
                     [ {| text := "Mock memory for development"; relevance := 8 # 10;
                          timestamp := now; source := "mock"; metadata := None |} ] |};
         cr_error := None;
         cr_metadata :=
           mkContextMetadata now
             {| ref_id := "mock"; ref_name := "Mock Provider"; ref_version := "1.0.0" |}
             {| ds_timeRange :=
                  default (TimeUtils.lastDays now 7) (options_timeRange options);
                ds_categories := default ["mock"] (options_categories options) |} |}
  else if negb (available client) then
    Returns (unavailable now
               "Memory Protocol is not available. Please install a compatible extension."
               true (Some "Install a memory extension"))
  else
    match __protocol client with
    | None => Returns (unavailable now "Memory Protocol is not available" false None)
    | Some protocol =>
        AgentMemoryRegistry.getContext protocol (Some (default noOptions options))
          (preferredProvider (config client))
    end.

(** The context a caller hands to [provideContext]: a [WebAgentContext]
    without [agentId], [agentName], [timestamp] and [domain]. *)
Record PartialContext : Type := mkPartialContext {
  pc_agentType : option string;
  pc_memories : list Memory;
  pc_sessionId : option string;
  pc_contextType : string;
  pc_expiresAt : option Z;
  pc_source : SourceInfo
}.

Section provision.

(** [JSON.stringify(context).length] and [JSON.stringify(memories).length] *)
Variable contextLength : PartialContext -> Z.
Variable memoriesLength : list Memory -> Z.

Definition mockResult (now : Z) (accepted : nat) (ms size : Z) : ContextProvisionResult :=
  {| cp_success := true; cp_processed := true; cp_acknowledged := true;
     memoriesAccepted := Z.of_nat accepted; memoriesRejected := 0;
     rejectionReasons := None; cp_error := None;
     cp_contextId := Some ("mock_" ++ pretty now);
     storedUntil := Some (now + 24 * 60 * 60 * 1000);
     storageLocation := Some "memory";
     processingTimeMs := Some ms; sizeBytes := Some size;
     cp_metadata := Some {| pm_providerId := "mock"; pm_timestamp := now;
                            pm_version := "1.0.0" |} |}.

Definition refused (rejected : nat) (err : ProtocolError) : ContextProvisionResult :=
  {| cp_success := false; cp_processed := false; cp_acknowledged := false;
     memoriesAccepted := 0; memoriesRejected := Z.of_nat rejected;
     rejectionReasons := None; cp_error := Some err;
     cp_contextId := None; storedUntil := None; storageLocation := None;
     processingTimeMs := None; sizeBytes := None; cp_metadata := None |}.

Definition protocolMissing : ProtocolError :=
  {| code := NOT_AVAILABLE; message := "Memory Protocol is not available";
     recoverable := true; suggestedAction := Some "Install a compatible extension" |}.

Definition providerError (error : Exn) : ProtocolError :=
  {| code := PROVIDER_ERROR; message := message_or error "Unknown error occurred";
     recoverable := false; suggestedAction := None |}.

(** The full context: the fields of [context] override those taken from
    the configuration ([None] is a key that [context] does not have).
    [window.location.hostname] throws when the window has no location. *)
Definition webAgentContext (env : Env) (now : Z) (client : MemoryClient)
    (context : PartialContext) : Outcome WebAgentContext :=
  domain ← match window env with
           | Some w =>
               match hostname w with
               | Some h => Returns h
               | None => Throws (ErrorObj "Cannot read properties of undefined")
               end
           | None => Returns "localhost"
           end;
  Returns
    (mkWebAgentContext
       (* agentId *) (appId (config client))
       (* agentName *) (appName (config client))
       (* agentType *)
       (match pc_agentType context with
        | Some t => Some t
        | None => Some (str_or (agentType (config client)) "assistant")
        end)
       (* memories *) (pc_memories context)
       (* sessionId *)
       (match pc_sessionId context with
        | Some s => Some s
        | None => sessionId (config client)
        end)
       (* contextType *) (pc_contextType context)
       (* timestamp *) now
       (* domain *) domain
       (* expiresAt *) (pc_expiresAt context)
       (* source *) (pc_source context)).

Definition provideContext (env : Env) (now : Z) (client : MemoryClient)
    (context : PartialContext) (options : option WebAgentContextOptions)
    : Outcome ContextProvisionResult :=
  if __mockMode client then
    Returns (mockResult now (length (pc_memories context)) 10 (contextLength context))
  else
    match available client, __protocol client with
    | true, Some protocol =>
        full ← webAgentContext env now client context;
        Returns
          (try_catch
             (AgentMemoryRegistry.provideContext protocol full options
                (preferredProvider (config client)))
             (fun error => refused (length (pc_memories context)) (providerError error)))
    | _, _ => Returns (refused (length (pc_memories context)) protocolMissing)
    end.

Definition contributeMemory (now : Z) (client : MemoryClient)
    (mems : list Memory) (source : option string) : ContextProvisionResult :=
  if __mockMode client then mockResult now (length mems) 5 (memoriesLength mems)
  else
    match available client, __protocol client with
    | true, Some protocol =>
        try_catch
          (AgentMemoryRegistry.contributeMemory protocol mems
             (str_or source (appName (config client)))
             (preferredProvider (config client)))
          (fun error => refused (length mems) (providerError error))
    | _, _ => refused (length mems) protocolMissing
    end.

End provision.

(** The options of [createMemories]. *)
Record MemoryOptions : Type := mkMemoryOptions {
  opt_source : option string;
  opt_relevance : option Q;
  opt_timestamp : option Z;
  opt_metadata : option Metadata
}.

(** [createMemories(content, options)]: [content] is one string or an
    array of strings. *)
Definition createMemories (now : Z) (content : string + list string)
    (options : option MemoryOptions) : list Memory :=
  let contents :=
    match content with
    | inl one => [one]
    | inr many => many
    end in
  (fun t =>
     {| text := trim t;
        relevance := default (8 # 10) (options ≫= opt_relevance);
        timestamp := default now (options ≫= opt_timestamp);
        source := default "user-input" (options ≫= opt_source);
        metadata := Some (default [] (options ≫= opt_metadata)) |})
  <$> contents.

End ClientSDK.

(* ===================================================================== *)
(** * Vocabulary of the statements *)
(* ===================================================================== *)

(** [a] may stay before [b] in an array sorted with [cmp]. *)
Definition before {A : Type} (cmp : A -> A -> Q) (a b : A) : Prop := (cmp a b <= 0)%Q.

(** [m] is the memory kept for its key among [l]: it occurs in [l], every
    memory of the same key before it has a strictly lower relevance, and
    every memory of the same key after it has at most its relevance. *)
Definition winner (l : list Memory) (m : Memory) : Prop :=
  exists l1 l2,
    l = (l1 ++ m :: l2)%list
    /\ (forall x, x ∈ l1 -> dedupKey x = dedupKey m -> (relevance x < relevance m)%Q)
    /\ (forall x, x ∈ l2 -> dedupKey x = dedupKey m -> (relevance x <= relevance m)%Q).


(** The invariant of the [forEach] loop over the memories seen so far. *)
Definition dedupInv (seen : list Memory) (memoryMap : OMap Memory) : Prop :=
  NoDup (keys memoryMap)
  /\ (forall k m, (k, m) ∈ memoryMap -> dedupKey m = k /\ winner seen m)
  /\ (forall x, x ∈ seen -> dedupKey x ∈ keys memoryMap).

(** A registry built by [registerProvider] and [unregisterProvider]: the
    keys are distinct and each is the [providerId] of its provider. *)
Definition wfProviders (providers : Registry.Providers) : Prop :=
  NoDup (keys providers)
  /\ forall k p, (k, p) ∈ providers -> MemoryProvider.providerId p = k.

(** The call that the registry forwards to the provider [p]. *)
Definition routedTo (now : Z) (options : option ContextOptions) (p : MemoryProvider.t)
    : Outcome ContextResult :=
  providerResult ← MemoryProvider.getContext p options;
  Returns (convertToContextResult now providerResult (MemoryProvider.providerId p)).

(** Sample values used to run the operations. *)
Definition sampleMemory (t : string) (r : Q) : Memory :=
  {| text := t; relevance := r; timestamp := 0; source := "browsing"; metadata := None |}.

Definition sampleResult (mems : list Memory) : ProviderContextResult :=
  {| pr_success := true; pr_data := Some {| memories := mems |}; pr_error := None;
     pr_metadata := None |}.

Definition deniedResult : ProviderContextResult :=
  {| pr_success := false; pr_data := None;
     pr_error := Some "Permission required to access memory data";
     pr_metadata := None |}.

(** A provider whose methods give fixed answers. *)
Definition staticProvider (pid : string) (permitted : bool)
    (answer : Outcome ProviderContextResult) : MemoryProvider.t :=
  {| MemoryProvider.providerId := pid;
     MemoryProvider.providerName := pid;
     MemoryProvider.version := "1.0.0";
     MemoryProvider.isPermissionGranted := fun _ => permitted;
     MemoryProvider.requestPermission :=
       fun _ => Returns {| res_granted := permitted; isFirstTime := false;
                           res_permissions := []; res_capabilities := None;
                           res_domain := None |};
     MemoryProvider.getContext := fun _ => answer;
     MemoryProvider.provideContext := None;
     MemoryProvider.contributeMemory := None |}.

Definition p1 : MemoryProvider.t :=
  staticProvider "p1" true (Returns (sampleResult [sampleMemory "alpha" (9 # 10)])).

Definition p2 : MemoryProvider.t :=
  staticProvider "p2" false (Returns deniedResult).

Definition p3 : MemoryProvider.t :=
  staticProvider "p3" true (Returns (sampleResult [sampleMemory "beta" (1 # 2)])).

Definition topK_only (k : Z) : option ContextOptions :=
  Some {| relevanceQuery := None; timeRange := None; topK := Some k;
          categories := None; format := None |}.

(** A record as [requestPermission] of index.ts stores it after a grant. *)
Definition grantedRecord (r w : bool) : PermissionRecord :=
  {| granted := true; grantedAt := 1; permissions := [];
     capabilities := Some {| read := Some r; write := Some w |};
     rec_appInfo := None; revokedAt := None; lastUsed := None |}.

(** A page of [example.com] whose user declines every prompt, with the
    given items in [localStorage]. *)
Definition browser (perms : option PermissionStorage)
    (contexts : option WebAgentContextStorage) : Env :=
  {| window := Some {| hostname := Some "example.com"; confirm := fun _ => false |};
     localStorage := Some {| permissionsItem := perms; webAgentContextItem := contexts |};
     chromeStorageLocal := None |}.

Definition sampleConfig (limit : option Z) : Provider.ProviderConfig :=
  {| Provider.providerId := "demo"; Provider.providerName := "Demo";
     Provider.version := "1.0.0"; Provider.supportsContextProvision := None;
     Provider.maxWebAgentContextSize := None; Provider.webAgentStorageLimit := limit;
     Provider.allowedAgentTypes := None |}.

(** Memories as a context source may return them: a blank text, a
    relevance above 1, and not in order of relevance. *)
Definition rawMemories : list Memory :=
  [ {| text := "  "; relevance := 1 # 2; timestamp := 1; source := "tab"; metadata := None |};
    {| text := " low "; relevance := 1 # 10; timestamp := 2; source := "tab"; metadata := None |};
    {| text := "high"; relevance := 2; timestamp := 3; source := "tab"; metadata := None |} ].

Definition sampleBaseProvider : BaseProvider.BaseProvider :=
  {| BaseProvider.info := {| ref_id := "demo"; ref_name := "Demo"; ref_version := "1.0.0" |};
     BaseProvider._permissionManager :=
       Some {| PermissionManager.cfg_autoShowUI := None;
               PermissionManager.cfg_defaultPermissions := None |};
     BaseProvider._contextBuilder :=
       Some {| ContextBuilder.cfg_topK := None;
               ContextBuilder.cfg_defaultTimeRange := None |} |}.

(** [revokedAt] counts as unset for the access check when it is absent
    (or holds the falsy number 0). *)
Definition notRevoked (r : PermissionRecord) : Prop :=
  revokedAt r = None \/ revokedAt r = Some 0.

(** A record as the PermissionManager stores it after a grant: it has no
    capability map. *)
Definition managerRecord : PermissionRecord :=
  {| granted := true; grantedAt := 1; permissions := ["context"];
     capabilities := None; rec_appInfo := None; revokedAt := None; lastUsed := None |}.

(** The entry's [expiresAt] has passed at time [now]. *)
Definition expired (now : Z) (d : StoredContext) : Prop :=
  exists e, expiresAt d = Some e /\ e ≠ 0 /\ e <= now.

(** The persisted write-back collection ([{}] when the item is not set). *)
Definition persistedContexts (env : Env) : WebAgentContextStorage :=
  default [] (localStorage env ≫= webAgentContextItem).

Definition persistedPermissions (env : Env) : PermissionStorage :=
  default ∅ (localStorage env ≫= permissionsItem).

(** The environment [env] with the write-back item set to [s]. *)
Definition withContexts (env : Env) (s : WebAgentContextStorage) : Env :=
  {| window := window env;
     localStorage := Some {| permissionsItem := localStorage env ≫= permissionsItem;
                             webAgentContextItem := Some s |};
     chromeStorageLocal := chromeStorageLocal env |}.

(** A page with a window and [localStorage]. *)
Definition inBrowser (env : Env) : Prop :=
  is_Some (window env) /\ is_Some (localStorage env).

(** The domain a permission request is about. *)
Definition requestDomain (env : Env) (appInfo : AppInfo) : string :=
  str_or (app_domain appInfo) (currentDomain env).

Definition deniedRecord (now : Z) (appInfo : AppInfo) : PermissionRecord :=
  {| granted := false; grantedAt := now; permissions := [];
     capabilities := Some {| read := Some false; write := Some false |};
     rec_appInfo := Some appInfo; revokedAt := None; lastUsed := None |}.

Definition sampleApp : AppInfo :=
  {| appName := "Notes"; appId := "notes"; app_domain := None;
     requestedCapabilities := None |}.

(** What the user (or the automatic grant without a window) answers. *)
Definition userResponse (env : Env) (appInfo : AppInfo) (firstTime : bool)
    : bool * Capabilities * list string :=
  match window env with
  | Some w => Provider.askUser w appInfo firstTime
  | None => Provider.autoGrant appInfo
  end.

Definition grantedList (c : Capabilities) : list string :=
  ((if truthy_obool (read c) then ["context.read"] else [])
   ++ (if truthy_obool (write c) then ["context.write"] else []))%list.

(** The domain a request to the PermissionManager is about. *)
Definition managerDomain (env : Env) (appInfo : AppInfo) : string :=
  str_or (app_domain appInfo) (PermissionManager.getCurrentDomain env).

Definition managerDenied (now : Z) (appInfo : AppInfo) : PermissionRecord :=
  {| granted := false; grantedAt := now; permissions := []; capabilities := None;
     rec_appInfo := Some appInfo; revokedAt := None; lastUsed := None |}.

Definition defaultManager : PermissionManager.PermissionManagerConfig :=
  {| PermissionManager.cfg_autoShowUI := None;
     PermissionManager.cfg_defaultPermissions := None |}.

(** The provider was built by [createProvider]. *)
Definition sdkBuilt (p : MemoryProvider.t) : Prop :=
  exists config getContextData handler stringifiedLength env now,
    p = Provider.createProvider config getContextData handler stringifiedLength env now.

(** A provider object, not built by the SDK, whose calls all throw. *)
Definition throwingProvider : MemoryProvider.t :=
  {| MemoryProvider.providerId := "broken";
     MemoryProvider.providerName := "Broken";
     MemoryProvider.version := "1.0.0";
     MemoryProvider.isPermissionGranted := fun _ => true;
     MemoryProvider.requestPermission := fun _ => Throws (ErrorObj "boom");
     MemoryProvider.getContext := fun _ => Throws (ErrorObj "boom");
     MemoryProvider.provideContext := Some (fun _ _ => Throws (ErrorObj "boom"));
     MemoryProvider.contributeMemory := Some (fun _ _ => Throws (ErrorObj "boom")) |}.

Definition sampleContext (agent : string) (t : Z) : WebAgentContext :=
  {| agentId := agent; agentName := agent; agentType := None;
     wac_memories := [sampleMemory "note" (1 # 2)]; sessionId := None;
     contextType := "other"; wac_timestamp := t; wac_domain := "example.com";
     wac_expiresAt := None;
     wac_source := {| source_type := "other"; source_description := None;
                      source_confidence := None |} |}.

(** A [JSON.stringify] that succeeds. *)
Definition sizeOk (c : WebAgentContext) : Outcome Z := Returns 100.

(** A custom handler that throws. *)
Definition throwingHandler : Provider.WebAgentContextHandler :=
  fun _ _ => Throws (ErrorObj "handler failed").

Definition writable : Env :=
  browser (Some {[ "example.com" := grantedRecord true true ]}) None.

(** The entry stored for the context [c] received at [now]. *)
Definition freshEntry (now : Z) (c : WebAgentContext)
    (options : option WebAgentContextOptions) (contextSize : Z) (done : bool)
    : StoredContext :=
  {| context := c; receivedAt := now; processed := done;
     expiresAt := Some (Provider.expiryOf now c options); size := contextSize |}.

(** The stored entries that have not expired at [now]. *)
Definition liveContexts (now : Z) (s : WebAgentContextStorage) : WebAgentContextStorage :=
  base.filter (fun e => Provider.notExpired now e.2 = true) s.

(** The context [c] passes the checks that precede the storing. *)
Definition admissible (config : Provider.ProviderConfig)
    (stringifiedLength : WebAgentContext -> Outcome Z) (env : Env)
    (c : WebAgentContext) (contextSize : Z) : Prop :=
  Provider.isPermissionGranted env (Some (wac_domain c)) (Some CapWrite) = Returns true
  /\ Provider.agentTypeRefused config c = false
  /\ stringifiedLength c = Returns contextSize
  /\ Provider.tooLarge config contextSize = false.

(** A granted provider whose context source has nothing for the caller. *)
Definition p4 : MemoryProvider.t := staticProvider "p4" true (Returns deniedResult).

(** A [JSON.stringify] that throws. *)
Definition sizeFails (c : WebAgentContext) : Outcome Z := Throws (ErrorObj "cyclic value").

(** A granted record that was revoked afterwards. *)
Definition revokedRecord : PermissionRecord :=
  {| granted := true; grantedAt := 1; permissions := [];
     capabilities := Some {| read := Some true; write := Some true |};
     rec_appInfo := None; revokedAt := Some 9; lastUsed := None |}.

(** A granted record whose capability map has no flag. *)
Definition emptyMapRecord : PermissionRecord :=
  {| granted := true; grantedAt := 1; permissions := [];
     capabilities := Some {| read := None; write := None |};
     rec_appInfo := None; revokedAt := None; lastUsed := None |}.

(** A string of white space only. *)
Fixpoint blank (s : string) : bool :=
  match s with
  | EmptyString => true
  | String c r => Ascii.is_space c && blank r
  end.

(** A memory that [validateContextData] accepts. *)
Definition validMemory (m : Memory) : Prop :=
  (0 <= relevance m <= 1)%Q /\ blank (text m) = false /\ blank (source m) = false.

(** A ContextBuilder with the default configuration. *)
Definition defaultBuilder : ContextBuilder.ContextBuilderConfig :=
  {| ContextBuilder.cfg_topK := None; ContextBuilder.cfg_defaultTimeRange := None |}.

(** Memories that [validateContextData] accepts, not in order of
    relevance and with text to trim. *)
Definition validMemories : list Memory :=
  [ {| text := " low "; relevance := 1 # 10; timestamp := 2; source := "tab"; metadata := None |};
    {| text := "high"; relevance := 1; timestamp := 3; source := " tab"; metadata := None |} ].

(** No window, as in a worker or under Node, with a [localStorage]. *)
Definition headless (perms : option PermissionStorage) : Env :=
  {| window := None;
     localStorage := Some {| permissionsItem := perms; webAgentContextItem := None |};
     chromeStorageLocal := None |}.

(** The error of a write that the permission check refuses. *)
Definition writeDenied (domain : string) : ProtocolError :=
  {| code := PERMISSION_DENIED;
     message := "Permission required for domain: " ++ domain;
     recoverable := true;
     suggestedAction := Some "Request permission from user" |}.

(** A page of [example.com] whose user accepts every prompt. *)
Definition agreeing (perms : option PermissionStorage) : Env :=
  {| window := Some {| hostname := Some "example.com"; confirm := fun _ => true |};
     localStorage := Some {| permissionsItem := perms; webAgentContextItem := None |};
     chromeStorageLocal := None |}.

(** The same page inside an extension: [chrome.storage.local] exists. *)
Definition inExtension (perms : option PermissionStorage) : Env :=
  {| window := Some {| hostname := Some "example.com"; confirm := fun _ => true |};
     localStorage := Some {| permissionsItem := perms; webAgentContextItem := None |};
     chromeStorageLocal := Some None |}.

(** The result of a read that the permission check refuses. *)
Definition readDenied (now : Z) (info : ProviderRef) : ProviderContextResult :=
  {| pr_success := false; pr_data := None;
     pr_error := Some "Permission required to access memory data";
     pr_metadata := Some {| p_generatedAt := Some now; p_provider := Some info;
                            p_dataSource := Some emptyDataSource |} |}.

(** The shape of the listeners of a registry: one entry per event type,
    each with a non-empty set of distinct callbacks. *)
Definition wfListeners {Callback : Type} (listeners : OMap (list Callback)) : Prop :=
  NoDup (keys listeners)
  /\ forall event callbacks, (event, callbacks) ∈ listeners ->
       callbacks ≠ [] /\ NoDup callbacks.

(** The callbacks that [dispatchEvent] runs for an event type. *)
Definition listenersOf {Callback : Type} (listeners : OMap (list Callback))
    (event : string) : list Callback :=
  default [] (Js.get event listeners).

(** The provider has every feature of the list. *)
Definition hasFeatures (features : MemoryProvider.t -> list string)
    (required : list string) (p : MemoryProvider.t) : Prop :=
  Forall (fun feature => feature ∈ features p) required.

(** The answer recorded for a provider whose [requestPermission] throws. *)
Definition requestFailed : PermissionResult :=
  {| res_granted := false; isFirstTime := false; res_permissions := [];
     res_capabilities := None; res_domain := None |}.

(** The check of a provider as a call: the provider "broken" throws, the
    others report. *)
Definition throwingCheck (p : MemoryProvider.t) (domain : option string) : Outcome bool :=
  if String.eqb (MemoryProvider.providerId p) "broken" then Throws (ErrorObj "boom")
  else Returns (MemoryProvider.isPermissionGranted p domain).

(** The features of the sample providers. *)
Definition sampleFeatures (p : MemoryProvider.t) : list string :=
  if String.eqb (MemoryProvider.providerId p) "p3" then ["context-retrieval"; "search"]
  else ["context-retrieval"].

(** A configuration that [initMemoryClient] accepts. *)
Definition validConfig (config : ClientSDK.MemorySDKConfig) : Prop :=
  ClientSDK.appName config ≠ "" /\ (3 <= String.length (ClientSDK.appId config))%nat.

Definition sampleClientConfig (preferred : option string) : ClientSDK.MemorySDKConfig :=
  {| ClientSDK.appName := "Notes"; ClientSDK.appId := "notes";
     ClientSDK.mockMode := None; ClientSDK.showInstallPrompt := None;
     ClientSDK.preferredProvider := preferred; ClientSDK.debug := None;
     ClientSDK.agentType := None; ClientSDK.enableWrite := None;
     ClientSDK.sessionId := None |}.




(* ===================================================================== *)
(** * Facts about the JavaScript primitives *)
(* ===================================================================== *)

Section SortFacts.

Context {A : Type} (cmp : A -> A -> Q).

Local Abbreviation before := (before cmp).

Hypothesis cmp_total : forall a b, ~ before a b -> before b a.
Hypothesis cmp_trans : forall a b c, before a b -> before b c -> before a c.

Lemma sort_insert_perm (x : A) (l : list A) : sort_insert cmp x l ≡ₚ x :: l.
Proof.
  induction l as [|y r IH]; simpl; [done|].
  destruct (Qle_bool (cmp x y) 0); [done|].
  rewrite IH. apply Permutation_swap.
Qed.

Lemma sort_perm (l : list A) : sort cmp l ≡ₚ l.
Proof.
  induction l as [|x r IH]; simpl; [done|].
  rewrite sort_insert_perm. by rewrite IH.
Qed.

Lemma sort_length (l : list A) : length (sort cmp l) = length l.
Proof. apply Permutation_length, sort_perm. Qed.

Lemma sort_insert_sorted (x : A) (l : list A) :
  StronglySorted before l -> StronglySorted before (sort_insert cmp x l).
Proof.
  induction 1 as [|y r Hr IH Hy]; simpl.
  - repeat constructor.
  - destruct (Qle_bool (cmp x y) 0) eqn:E.
    + apply Qle_bool_iff in E.
      constructor; [by constructor|].
      constructor; [done|].
      eapply Forall_impl; [exact Hy|]. intros z Hz. by eapply cmp_trans.
    + assert (before y x) as Hyx.
      { apply cmp_total. intros H. apply Qle_bool_iff in H. congruence. }
      constructor; [done|].
      rewrite sort_insert_perm. by constructor.
Qed.

Lemma sort_sorted (l : list A) : StronglySorted before (sort cmp l).
Proof.
  induction l as [|x r IH]; simpl; [constructor|].
  by apply sort_insert_sorted.
Qed.

(** A list that is already in order is left as it is. *)
Lemma sort_of_sorted (l : list A) : Sorted before l -> sort cmp l = l.
Proof.
  induction 1 as [|x r Hr IH Hx]; simpl; [done|].
  rewrite IH. destruct Hx as [|y r' Hxy]; simpl; [done|].
  apply Qle_bool_iff in Hxy. by rewrite Hxy.
Qed.

(** Stability: elements that compare equal with everything they are moved
    past keep their order; stated for the elements selected by [P] when
    two selected elements always compare as equal. *)
Lemma sort_insert_stable (P : A -> bool) (x : A) (l : list A) :
  (forall a b, P a = true -> P b = true -> before a b) ->
  base.filter (fun a => P a = true) (sort_insert cmp x l)
  = base.filter (fun a => P a = true) (x :: l).
Proof.
  intros HP. induction l as [|y r IH]; simpl; [done|].
  destruct (Qle_bool (cmp x y) 0) eqn:E; [done|].
  rewrite !filter_cons in *.
  destruct (decide (P y = true)) as [Hy|Hy];
    destruct (decide (P x = true)) as [Hx|Hx]; try (by rewrite IH).
  exfalso. specialize (HP x y Hx Hy). apply Qle_bool_iff in HP. congruence.
Qed.

Lemma sort_stable (P : A -> bool) (l : list A) :
  (forall a b, P a = true -> P b = true -> before a b) ->
  base.filter (fun a => P a = true) (sort cmp l) = base.filter (fun a => P a = true) l.
Proof.
  intros HP. induction l as [|x r IH]; simpl; [done|].
  rewrite sort_insert_stable by done.
  rewrite !filter_cons. by rewrite IH.
Qed.

End SortFacts.

Lemma byRelevanceDesc_before (a b : Memory) :
  before byRelevanceDesc a b <-> (relevance b <= relevance a)%Q.
Proof. unfold before, byRelevanceDesc. split; intros H; lra. Qed.

Lemma byRelevanceDesc_total (a b : Memory) :
  ~ before byRelevanceDesc a b -> before byRelevanceDesc b a.
Proof. rewrite !byRelevanceDesc_before. intros H. lra. Qed.

Lemma byRelevanceDesc_trans (a b c : Memory) :
  before byRelevanceDesc a b -> before byRelevanceDesc b c -> before byRelevanceDesc a c.
Proof. rewrite !byRelevanceDesc_before. intros. lra. Qed.

Section SliceFacts.

Context {A : Type}.

Lemma slice0_nonneg (l : list A) (e : Z) :
  0 <= e -> slice0 l e = take (Z.to_nat e) l.
Proof.
  intros He. unfold slice0.
  destruct (Z.ltb_spec e 0) as [?|_]; [lia|].
  destruct (Z.le_gt_cases e (Z.of_nat (length l))) as [H|H].
  - by rewrite Z.min_l.
  - rewrite Z.min_r by lia. rewrite Nat2Z.id.
    rewrite firstn_all. symmetry. apply firstn_all2. lia.
Qed.

Lemma slice0_length (l : list A) (e : Z) :
  0 <= e -> Z.of_nat (length (slice0 l e)) = Z.min e (Z.of_nat (length l)).
Proof. intros He. rewrite slice0_nonneg by done. rewrite length_take. lia. Qed.

Lemma slice0_prefix (l : list A) (e : Z) : slice0 l e `prefix_of` l.
Proof. unfold slice0. apply prefix_take. Qed.

End SliceFacts.

Section OMapFacts.

Context {V : Type}.
Implicit Types (m : OMap V) (k : string) (v : V).

Lemma get_None_keys k m : Js.get k m = None <-> k ∉ keys m.
Proof.
  induction m as [|[k' v'] r IH]; simpl.
  - split; [intros _; apply not_elem_of_nil|done].
  - rewrite not_elem_of_cons.
    destruct (String.eqb_spec k k') as [->|Hne].
    + split; [done|]. intros [H _]. by destruct H.
    + rewrite IH. tauto.
Qed.

Lemma get_Some_elem k v m : Js.get k m = Some v -> (k, v) ∈ m.
Proof.
  induction m as [|[k' v'] r IH]; simpl; [done|].
  destruct (String.eqb_spec k k') as [->|Hne].
  - intros [= ->]. apply elem_of_cons. by left.
  - intros H. apply elem_of_cons. right. by apply IH.
Qed.

Lemma elem_get_Some k v m : NoDup (keys m) -> (k, v) ∈ m -> Js.get k m = Some v.
Proof.
  induction m as [|[k' v'] r IH]; simpl.
  - intros _ H. by apply elem_of_nil in H.
  - intros Hnd Hin. apply NoDup_cons in Hnd as [Hk Hnd].
    apply elem_of_cons in Hin as [[= -> ->]|Hin].
    + by rewrite String.eqb_refl.
    + destruct (String.eqb_spec k k') as [->|Hne]; [|by apply IH].
      exfalso. apply Hk. apply list_elem_of_fmap. by exists (k', v).
Qed.

Lemma get_set_eq k v m : Js.get k (Js.set k v m) = Some v.
Proof.
  induction m as [|[k' v'] r IH]; simpl.
  - by rewrite String.eqb_refl.
  - destruct (String.eqb_spec k k') as [->|Hne]; simpl.
    + by rewrite String.eqb_refl.
    + by destruct (String.eqb_spec k k').
Qed.

Lemma get_set_ne k k' v m : k ≠ k' -> Js.get k' (Js.set k v m) = Js.get k' m.
Proof.
  intros Hne. induction m as [|[k0 v0] r IH]; simpl.
  - by destruct (String.eqb_spec k' k) as [->|].
  - destruct (String.eqb_spec k k0) as [->|Hne0]; simpl.
    + by destruct (String.eqb_spec k' k0) as [->|].
    + by destruct (String.eqb_spec k' k0).
Qed.

(** Setting a key that is not there appends the entry. *)
Lemma set_absent k v m : Js.get k m = None -> Js.set k v m = (m ++ [(k, v)])%list.
Proof.
  induction m as [|[k' v'] r IH]; simpl; [done|].
  destruct (String.eqb_spec k k'); [done|]. intros H. by rewrite IH.
Qed.

(** Setting a key that is there keeps every key at its place. *)
Lemma keys_set_present k v m : k ∈ keys m -> keys (Js.set k v m) = keys m.
Proof.
  induction m as [|[k' v'] r IH]; simpl.
  - intros H. by apply elem_of_nil in H.
  - destruct (String.eqb_spec k k') as [->|Hne]; [done|].
    intros H. apply elem_of_cons in H as [?|H]; [done|].
    simpl. f_equal. by apply IH.
Qed.

Lemma keys_set k v m :
  keys (Js.set k v m) = if decide (k ∈ keys m) then keys m else (keys m ++ [k])%list.
Proof.
  destruct (decide (k ∈ keys m)) as [Hin|Hnin].
  - by apply keys_set_present.
  - apply get_None_keys in Hnin. rewrite set_absent by done.
    unfold keys. by rewrite fmap_app.
Qed.

Lemma NoDup_keys_set k v m : NoDup (keys m) -> NoDup (keys (Js.set k v m)).
Proof.
  intros Hnd. rewrite keys_set. destruct (decide (k ∈ keys m)); [done|].
  apply NoDup_app. split_and!; [done| |apply NoDup_singleton].
  intros x Hx Hx'. apply list_elem_of_singleton in Hx'. by subst.
Qed.

Lemma filter_all {B : Type} (P : B -> Prop) `{!forall x, Decision (P x)} (l : list B) :
  Forall P l -> base.filter P l = l.
Proof.
  induction 1 as [|x r Hx Hr IH]; [done|].
  rewrite filter_cons_True by done. by rewrite IH.
Qed.

Lemma delete_filter k m :
  NoDup (keys m) -> Js.delete k m = base.filter (fun e => e.1 ≠ k) m.
Proof.
  induction m as [|[k' v'] r IH]; [done|].
  intros Hnd. apply NoDup_cons in Hnd as [Hk Hnd].
  rewrite filter_cons. cbn [Js.delete fst].
  destruct (String.eqb_spec k k') as [->|Hne].
  - rewrite decide_False by naive_solver.
    symmetry. apply filter_all. apply Forall_forall.
    intros [k0 v0] Hin; simpl; intros ->. apply Hk. apply list_elem_of_fmap. by exists (k', v0).
  - rewrite decide_True by naive_solver. f_equal. by apply IH.
Qed.

Lemma keys_filter_sublist (P : string * V -> Prop) `{!forall x, Decision (P x)} m :
  keys (base.filter P m) `sublist_of` keys m.
Proof. unfold keys. apply fmap_sublist, sublist_filter. Qed.

Lemma NoDup_keys_filter (P : string * V -> Prop) `{!forall x, Decision (P x)} m :
  NoDup (keys m) -> NoDup (keys (base.filter P m)).
Proof. intros Hnd. exact (sublist_NoDup _ _ Hnd (keys_filter_sublist P m)). Qed.

Lemma NoDup_keys_delete k m : NoDup (keys m) -> NoDup (keys (Js.delete k m)).
Proof. intros Hnd. rewrite delete_filter by done. by apply NoDup_keys_filter. Qed.

(** Deleting a list of keys keeps the other entries, in their order. *)
Lemma delete_all_filter (rm : list (string * V)) m :
  NoDup (keys m) ->
  fold_left (fun acc entry => Js.delete entry.1 acc) rm m
  = base.filter (fun e => e.1 ∉ keys rm) m.
Proof.
  revert m. induction rm as [|[k v] rm IH]; intros m Hnd; simpl.
  - symmetry. apply filter_all, Forall_forall. intros x _. apply not_elem_of_nil.
  - rewrite IH by by apply NoDup_keys_delete.
    rewrite delete_filter by done. rewrite list_filter_filter.
    apply list_filter_iff. intros [k0 v0]. simpl.
    rewrite not_elem_of_cons. tauto.
Qed.

(** Copying the selected entries one by one into an object gives the
    selected entries, in their order. *)
Lemma copy_selected_filter (P : V -> bool) (l acc : OMap V) :
  NoDup (keys (acc ++ l)) ->
  fold_left (fun cleaned entry =>
               if P entry.2 then Js.set entry.1 entry.2 cleaned else cleaned) l acc
  = (acc ++ base.filter (fun e => P e.2 = true) l)%list.
Proof.
  revert acc. induction l as [|[k v] r IH]; intros acc Hnd; simpl.
  - by rewrite app_nil_r.
  - rewrite filter_cons. simpl.
    assert (Js.get k acc = None) as Hk.
    { apply get_None_keys. unfold keys in Hnd. rewrite fmap_app in Hnd.
      apply NoDup_app in Hnd as (_ & Hd & _). intros Hin.
      apply (Hd k Hin). simpl. apply elem_of_cons. by left. }
    destruct (P v) eqn:E.
    + rewrite decide_True by done. rewrite set_absent by done.
      rewrite IH; [by rewrite <- app_assoc|].
      by rewrite <- app_assoc.
    + rewrite decide_False by congruence. apply IH.
      unfold keys in *. rewrite fmap_app in *. simpl in Hnd.
      apply NoDup_app in Hnd as (H1 & H2 & H3). apply NoDup_cons in H3 as [_ H3].
      apply NoDup_app. split_and!; [done| |done].
      intros x Hx Hx'. apply (H2 x Hx). apply elem_of_cons. by right.
Qed.

End OMapFacts.



(* ===================================================================== *)
(** * The merge engine *)
(* ===================================================================== *)

Lemma Qgtb_true (x y : Q) : Qgtb x y = true <-> (y < x)%Q.
Proof.
  unfold Qgtb. rewrite negb_true_iff. split.
  - intros H. apply Qnot_le_lt. intros Hle. apply Qle_bool_iff in Hle. congruence.
  - intros H. destruct (Qle_bool x y) eqn:E; [|done].
    apply Qle_bool_iff in E. lra.
Qed.

Lemma Qgtb_false (x y : Q) : Qgtb x y = false <-> (x <= y)%Q.
Proof.
  unfold Qgtb. rewrite negb_false_iff. apply Qle_bool_iff.
Qed.

Lemma winner_bound l m x :
  winner l m -> x ∈ l -> dedupKey x = dedupKey m -> (relevance x <= relevance m)%Q.
Proof.
  intros (l1 & l2 & -> & H1 & H2) Hx Hk.
  apply elem_of_app in Hx as [Hx|Hx].
  - apply Qlt_le_weak. by apply H1.
  - apply elem_of_cons in Hx as [->|Hx]; [lra|by apply H2].
Qed.

Lemma winner_snoc_other l m x :
  winner l m -> dedupKey x ≠ dedupKey m -> winner (l ++ [x]) m.
Proof.
  intros (l1 & l2 & -> & H1 & H2) Hne.
  exists l1, (l2 ++ [x])%list. split_and!.
  - by rewrite <- app_assoc.
  - done.
  - intros y Hy Hk. apply elem_of_app in Hy as [Hy|Hy]; [by apply H2|].
    apply list_elem_of_singleton in Hy. subst. congruence.
Qed.

Lemma winner_snoc_lower l m x :
  winner l m -> (relevance x <= relevance m)%Q -> winner (l ++ [x]) m.
Proof.
  intros (l1 & l2 & -> & H1 & H2) Hle.
  exists l1, (l2 ++ [x])%list. split_and!.
  - by rewrite <- app_assoc.
  - done.
  - intros y Hy Hk. apply elem_of_app in Hy as [Hy|Hy]; [by apply H2|].
    apply list_elem_of_singleton in Hy. by subst.
Qed.

Lemma elem_of_set {V : Type} (k : string) (v : V) (m : OMap V) k' v' :
  NoDup (keys m) -> (k', v') ∈ Js.set k v m ->
  (k' = k /\ v' = v) \/ (k' ≠ k /\ (k', v') ∈ m).
Proof.
  intros Hnd Hin.
  apply elem_get_Some in Hin; [|by apply NoDup_keys_set].
  destruct (decide (k' = k)) as [->|Hne].
  - rewrite get_set_eq in Hin. left. by inversion Hin.
  - rewrite get_set_ne in Hin by done. right. split; [done|].
    by apply get_Some_elem.
Qed.

Lemma dedupInv_nil : dedupInv [] [].
Proof.
  split_and!.
  - constructor.
  - intros k m H. by apply elem_of_nil in H.
  - intros x H. by apply elem_of_nil in H.
Qed.

Lemma dedupInv_step seen memoryMap x :
  dedupInv seen memoryMap -> dedupInv (seen ++ [x]) (mergeStep memoryMap x).
Proof.
  intros (Hnd & Hwin & Hcov). unfold mergeStep.
  destruct (Js.get (dedupKey x) memoryMap) as [existing|] eqn:Hget.
  - pose proof (get_Some_elem _ _ _ Hget) as Hex.
    destruct (Hwin _ _ Hex) as [Hkey Hw].
    assert (dedupKey x ∈ keys memoryMap) as Hkin.
    { apply list_elem_of_fmap. by exists (dedupKey x, existing). }
    destruct (Qgtb (relevance x) (relevance existing)) eqn:Hgt.
    + apply Qgtb_true in Hgt. split_and!.
      * by apply NoDup_keys_set.
      * intros k m Hin. apply elem_of_set in Hin as [[-> ->]|[Hne Hin]]; [| |done].
        -- split; [done|]. exists seen, []. split_and!; [done| |].
           ++ intros y Hy Hk.
              assert (dedupKey y = dedupKey existing) as Hke by congruence.
              pose proof (winner_bound _ _ _ Hw Hy Hke). lra.
           ++ intros y Hy. by apply elem_of_nil in Hy.
        -- destruct (Hwin _ _ Hin) as [Hk Hm]. split; [done|].
           apply winner_snoc_other; [done|congruence].
      * intros y Hy. rewrite keys_set_present by done.
        apply elem_of_app in Hy as [Hy|Hy]; [by apply Hcov|].
        apply list_elem_of_singleton in Hy. by subst.
    + apply Qgtb_false in Hgt. split_and!.
      * done.
      * intros k m Hin. destruct (Hwin _ _ Hin) as [Hk Hm]. split; [done|].
        destruct (decide (k = dedupKey x)) as [->|Hne].
        -- assert (m = existing) as ->.
           { apply elem_get_Some in Hin; [|done]. congruence. }
           by apply winner_snoc_lower.
        -- apply winner_snoc_other; [done|congruence].
      * intros y Hy.
        apply elem_of_app in Hy as [Hy|Hy]; [by apply Hcov|].
        apply list_elem_of_singleton in Hy. by subst.
  - pose proof Hget as Hnin. apply get_None_keys in Hnin. split_and!.
    + by apply NoDup_keys_set.
    + intros k m Hin. apply elem_of_set in Hin as [[-> ->]|[Hne Hin]]; [| |done].
      * split; [done|]. exists seen, []. split_and!; [done| |].
        -- intros y Hy Hk. exfalso. apply Hnin. rewrite <- Hk. by apply Hcov.
        -- intros y Hy. by apply elem_of_nil in Hy.
      * destruct (Hwin _ _ Hin) as [Hk Hm]. split; [done|].
        apply winner_snoc_other; [done|congruence].
    + intros y Hy. rewrite keys_set. rewrite decide_False by done.
      apply elem_of_app in Hy as [Hy|Hy].
      * apply elem_of_app. left. by apply Hcov.
      * apply list_elem_of_singleton in Hy. subst. apply elem_of_app. right.
        by apply list_elem_of_singleton.
Qed.

Lemma dedupInv_fold l seen memoryMap :
  dedupInv seen memoryMap -> dedupInv (seen ++ l) (fold_left mergeStep l memoryMap).
Proof.
  revert seen memoryMap. induction l as [|x r IH]; intros seen memoryMap H; simpl.
  - by rewrite app_nil_r.
  - replace (seen ++ x :: r)%list with ((seen ++ [x]) ++ r)%list
      by by rewrite <- app_assoc.
    by apply IH, dedupInv_step.
Qed.

Lemma dedup_inv l : dedupInv l (dedup l).
Proof. apply (dedupInv_fold l [] []), dedupInv_nil. Qed.

(** What the deduplication keeps: one memory per key, the winner of its
    key, and a memory for the key of every input. *)
Lemma dedup_spec (l : list Memory) :
  let kept := values (dedup l) in
  NoDup (dedupKey <$> kept)
  /\ (forall m, m ∈ kept -> winner l m)
  /\ (forall x, x ∈ l -> exists m, m ∈ kept /\ dedupKey m = dedupKey x).
Proof.
  destruct (dedup_inv l) as (Hnd & Hwin & Hcov). simpl.
  assert (dedupKey <$> values (dedup l) = keys (dedup l)) as Hkeys.
  { unfold values, keys. rewrite <- list_fmap_compose.
    apply list_fmap_ext. intros i [k m] Hi. simpl.
    apply (Hwin k m). by eapply list_elem_of_lookup_2. }
  split_and!.
  - by rewrite Hkeys.
  - intros m Hm. apply list_elem_of_fmap in Hm as ([k m'] & -> & Hin).
    by apply (Hwin k m').
  - intros x Hx. apply Hcov in Hx. apply list_elem_of_fmap in Hx as ([k m] & Hk & Hin).
    exists m. split.
    + apply list_elem_of_fmap. by exists (k, m).
    + simpl in Hk. subst. by apply (Hwin _ m).
Qed.

(** Lower-casing and trimming commute, so the key is also
    [lowercase(trim(text))]. *)
Lemma is_space_lower (c : ascii) : Ascii.is_space (lower_ascii c) = Ascii.is_space c.
Proof. by destruct c as [[] [] [] [] [] [] [] []]. Qed.

Lemma trimStart_toLowerCase (s : string) :
  trimStart (toLowerCase s) = toLowerCase (trimStart s).
Proof.
  induction s as [|c r IH]; simpl; [done|].
  rewrite is_space_lower. by destruct (Ascii.is_space c).
Qed.

Lemma rev_app_toLowerCase (s1 s2 : string) :
  String.rev_app (toLowerCase s1) (toLowerCase s2) = toLowerCase (String.rev_app s1 s2).
Proof.
  revert s2. induction s1 as [|c r IH]; intros s2; simpl; [done|].
  by rewrite <- IH.
Qed.

Lemma rev_toLowerCase (s : string) :
  String.rev (toLowerCase s) = toLowerCase (String.rev s).
Proof. apply (rev_app_toLowerCase s ""). Qed.

Lemma trim_toLowerCase (s : string) : trim (toLowerCase s) = toLowerCase (trim s).
Proof.
  unfold trim, trimEnd.
  by rewrite trimStart_toLowerCase, !rev_toLowerCase, trimStart_toLowerCase,
    rev_toLowerCase.
Qed.

Lemma dedupKey_lower_trim (m : Memory) : dedupKey m = toLowerCase (trim (text m)).
Proof. apply trim_toLowerCase. Qed.

Lemma StronglySorted_weaken {A : Type} (R R' : A -> A -> Prop) (l : list A) :
  (forall a b, R a b -> R' a b) -> StronglySorted R l -> StronglySorted R' l.
Proof.
  intros HR. induction 1 as [|x r Hr IH Hx]; constructor; [done|].
  eapply Forall_impl; [exact Hx|]. intros y. apply HR.
Qed.

(** X27.  The merge of the RegistryManager: the empty context for no input, the
    input itself for one input, and for more inputs the first [topK]
    (50 without a [topK]) of the kept memories in descending order of
    relevance. *)
Theorem RegistryManager_mergeContexts_spec
    (contexts : list MemoryContext) (options : option ContextOptions) :
  let limit := default 50 (options_topK options) in
  let all := flatMemories contexts in
  (contexts = [] -> RegistryManager.mergeContexts contexts options = {| memories := [] |})
  /\ (forall c, contexts = [c] -> RegistryManager.mergeContexts contexts options = c)
  /\ ((2 <= length contexts)%nat -> 0 <= limit ->
      exists kept ordered,
        NoDup (dedupKey <$> kept)
        /\ (forall m, m ∈ kept -> winner all m)
        /\ (forall x, x ∈ all -> exists m, m ∈ kept /\ dedupKey m = dedupKey x)
        /\ ordered ≡ₚ kept
        /\ StronglySorted (fun a b => (relevance b <= relevance a)%Q) ordered
        /\ memories (RegistryManager.mergeContexts contexts options)
           = take (Z.to_nat limit) ordered).
Proof.
  intros limit all. split_and!.
  - by intros ->.
  - by intros c ->.
  - intros Hlen Hlimit.
    exists (values (dedup all)), (sort byRelevanceDesc (values (dedup all))).
    destruct (dedup_spec all) as (H1 & H2 & H3).
    split_and!; try done.
    + apply sort_perm.
    + eapply StronglySorted_weaken; [|apply sort_sorted].
      * intros a b. apply byRelevanceDesc_before.
      * apply byRelevanceDesc_total.
      * apply byRelevanceDesc_trans.
    + destruct contexts as [|c1 [|c2 rest]]; simpl in Hlen; [lia|lia|].
      unfold RegistryManager.mergeContexts, RegistryManager_merge.mergeContexts,
        mergeWithLimit.
      cbn [memories]. by rewrite slice0_nonneg.
Qed.

Lemma RegistryManager_mergeContexts_spec_witness :
  exists ordered,
    StronglySorted (fun a b => (relevance b <= relevance a)%Q) ordered
    /\ memories (RegistryManager.mergeContexts
                   [ {| memories := [sampleMemory "alpha" (1 # 2)] |};
                     {| memories := [sampleMemory " Alpha" (9 # 10);
                                     sampleMemory "beta" (7 # 10)] |} ]
                   (topK_only 1))
       = take 1 ordered.
Proof.
  destruct (proj2 (proj2 (RegistryManager_mergeContexts_spec
                            [ {| memories := [sampleMemory "alpha" (1 # 2)] |};
                              {| memories := [sampleMemory " Alpha" (9 # 10);
                                              sampleMemory "beta" (7 # 10)] |} ]
                            (topK_only 1))))
    as (kept & ordered & _ & _ & _ & _ & Hsorted & Hout).
  - simpl. lia.
  - vm_compute. discriminate.
  - exists ordered. split; [exact Hsorted|exact Hout].
Defined.

(* ===================================================================== *)
(** * The registry *)
(* ===================================================================== *)

Lemma wfProviders_nil : wfProviders [].
Proof.
  split; [constructor|]. intros k p H. by apply elem_of_nil in H.
Qed.

Lemma wfProviders_register providers p :
  wfProviders providers -> wfProviders (Registry.registerProvider providers p).
Proof.
  intros [Hnd Hid]. split.
  - by apply NoDup_keys_set.
  - intros k q Hin. apply elem_of_set in Hin as [[-> ->]|[_ Hin]]; [done| |done].
    by apply Hid.
Qed.

Lemma wfProviders_unregister providers pid :
  wfProviders providers -> wfProviders (Registry.unregisterProvider providers pid).2.
Proof.
  intros [Hnd Hid]. unfold Registry.unregisterProvider. simpl.
  destruct (Js.has pid providers); [|done]. split.
  - by apply NoDup_keys_delete.
  - intros k q Hin. rewrite delete_filter in Hin by done.
    apply list_elem_of_filter in Hin as [_ Hin]. by apply Hid.
Qed.

(** Registering a provider under a new id leaves the first provider first;
    registering under a present id replaces the provider where it is. *)
Lemma register_keeps_first providers k p q :
  Registry.registerProvider ((k, p) :: providers) q
  = if String.eqb (MemoryProvider.providerId q) k
    then (MemoryProvider.providerId q, q) :: providers
    else (k, p) :: Registry.registerProvider providers q.
Proof. done. Qed.

Lemma selectProvider_falsy providers pid :
  truthy_ostr pid = false -> Registry.selectProvider providers pid = head (values providers).
Proof.
  destruct pid as [s|]; simpl; [|done]. by intros ->.
Qed.

Lemma selectProvider_truthy providers pid :
  truthy_str pid = true -> Registry.selectProvider providers (Some pid) = Js.get pid providers.
Proof. simpl. by intros ->. Qed.

(** C4.  [getContext] without a (non-empty) [providerId] forwards the call
    to the provider registered first, whatever that provider answers to
    [isPermissionGranted]; with a [providerId] it forwards the call to the
    provider of that id only; with no provider to forward to, it returns
    a failure with code [NOT_AVAILABLE]. *)
Theorem C4_getContext_routing (now : Z) (options : option ContextOptions) :
  (forall k p rest pid,
      truthy_ostr pid = false ->
      Registry.getContext ((k, p) :: rest) now options pid = routedTo now options p)
  /\ (forall k p rest q,
      MemoryProvider.providerId q ≠ k ->
      Registry.getContext (Registry.registerProvider ((k, p) :: rest) q) now options None
      = routedTo now options p)
  /\ (forall providers pid p,
      truthy_str pid = true -> Js.get pid providers = Some p ->
      Registry.getContext providers now options (Some pid) = routedTo now options p)
  /\ (forall providers pid,
      truthy_str pid = true -> Js.get pid providers = None ->
      Registry.getContext providers now options (Some pid)
      = Returns (Registry.notAvailable now))
  /\ (forall pid, Registry.getContext [] now options pid
                  = Returns (Registry.notAvailable now))
  /\ cr_success (Registry.notAvailable now) = false
  /\ code <$> cr_error (Registry.notAvailable now) = Some NOT_AVAILABLE.
Proof.
  split_and!; try done.
  - intros k p rest pid Hpid. unfold Registry.getContext.
    by rewrite selectProvider_falsy.
  - intros k p rest q Hne. rewrite register_keeps_first.
    destruct (String.eqb_spec (MemoryProvider.providerId q) k); done.
  - intros providers pid p Hpid Hget. unfold Registry.getContext.
    by rewrite selectProvider_truthy, Hget.
  - intros providers pid Hpid Hget. unfold Registry.getContext.
    by rewrite selectProvider_truthy, Hget.
  - intros [pid|]; unfold Registry.getContext; simpl; [|done].
    by destruct (truthy_str pid).
Qed.

(** The scenario of the specification: [p2] (not granted) registered
    first, then [p1] (granted); the call without a [providerId] gives the
    denied response of [p2]. *)
Lemma C4_getContext_routing_witness :
  Registry.getContext
    (Registry.registerProvider (Registry.registerProvider [] p2) p1) 0 None None
  = Returns (convertToContextResult 0 deniedResult "p2")
  /\ Registry.getContext (Registry.registerProvider [("p2", p2)] p1) 0 None None
     = routedTo 0 None p2
  /\ Registry.getContext [("p2", p2); ("p1", p1)] 0 None (Some "p1") = routedTo 0 None p1
  /\ Registry.getContext [("p2", p2); ("p1", p1)] 0 None (Some "p9")
     = Returns (Registry.notAvailable 0).
Proof.
  destruct (C4_getContext_routing 0 None) as (Hfirst & Hkeep & Hid & Hnone & _).
  split; [|split; [|split]].
  - exact (Hfirst "p2" p2 [("p1", p1)] None eq_refl).
  - apply (Hkeep "p2" p2 [] p1). discriminate.
  - exact (Hid [("p2", p2); ("p1", p1)] "p1" p1 eq_refl eq_refl).
  - exact (Hnone [("p2", p2); ("p1", p1)] "p9" eq_refl eq_refl).
Defined.

(** C10.  [isPermissionGranted] of the registry without a (non-empty)
    [providerId] holds exactly when some registered provider reports the
    permission for the domain; with a [providerId] it is the answer of
    that provider, and [false] when no provider has that id. *)
Theorem C10_registry_isPermissionGranted
    (providers : Registry.Providers) (domain : option string) :
  (forall pid,
      truthy_ostr pid = false ->
      (Registry.isPermissionGranted providers pid domain = true
       <-> exists p, p ∈ Registry.getProviders providers
                     /\ MemoryProvider.isPermissionGranted p domain = true))
  /\ (forall pid, Registry.isPermissionGranted [] pid domain = false)
  /\ (forall pid p,
      truthy_str pid = true -> Js.get pid providers = Some p ->
      Registry.isPermissionGranted providers (Some pid) domain
      = MemoryProvider.isPermissionGranted p domain)
  /\ (forall pid,
      truthy_str pid = true -> Js.get pid providers = None ->
      Registry.isPermissionGranted providers (Some pid) domain = false).
Proof.
  split_and!.
  - intros pid Hpid. unfold Registry.isPermissionGranted. rewrite Hpid.
    rewrite existsb_exists. unfold Registry.getProviders.
    split; intros (p & Hin & Hp); exists p; split; try done;
      by apply list_elem_of_In.
  - intros pid. unfold Registry.isPermissionGranted.
    by destruct (truthy_ostr pid).
  - intros pid p Hpid Hget. unfold Registry.isPermissionGranted. simpl.
    by rewrite Hpid, Hget.
  - intros pid Hpid Hget. unfold Registry.isPermissionGranted. simpl.
    by rewrite Hpid, Hget.
Qed.

Lemma C10_registry_isPermissionGranted_witness :
  Registry.isPermissionGranted [("p2", p2); ("p1", p1)] None (Some "example.com") = true
  /\ Registry.isPermissionGranted [("p2", p2); ("p1", p1)] (Some "p2") None = false
  /\ Registry.isPermissionGranted [("p2", p2); ("p1", p1)] (Some "nobody") None = false.
Proof.
  destruct (C10_registry_isPermissionGranted [("p2", p2); ("p1", p1)] (Some "example.com"))
    as (Hany & _ & _ & _).
  destruct (C10_registry_isPermissionGranted [("p2", p2); ("p1", p1)] None)
    as (_ & _ & Hone & Hnone).
  split_and!.
  - apply (Hany None eq_refl). exists p1. split; [|reflexivity].
    apply elem_of_cons. right. apply elem_of_cons. by left.
  - exact (Hone "p2" p2 eq_refl eq_refl).
  - exact (Hnone "nobody" eq_refl eq_refl).
Defined.

(** [Promise.all] resolves when every call resolves, with one result per
    call, in the order of the calls. *)
Lemma all_Returns {A : Type} (l : list (Outcome A)) (rs : list A) :
  Js.all l = Returns rs <-> l = Returns <$> rs.
Proof.
  revert rs. induction l as [|m r IH]; intros rs; simpl.
  - split.
    + intros [= <-]. done.
    + intros H. symmetry in H. apply fmap_nil_inv in H. by subst.
  - destruct m as [a|e].
    + destruct (Js.all r) as [s|e] eqn:E.
      * split.
        -- intros [= <-]. simpl. f_equal. by apply IH.
        -- destruct rs as [|a' rs']; [done|]. simpl. intros [= <- Hr].
           f_equal. f_equal. apply IH in Hr. congruence.
      * split; [done|]. destruct rs as [|a' rs']; [done|]. simpl.
        intros [= <- Hr]. apply IH in Hr. congruence.
    + split; [done|]. destruct rs as [|a' rs']; [done|]. simpl. intros [= ? ?].
Qed.

Lemma all_Throws {A : Type} (l : list (Outcome A)) :
  (exists e, Js.all l = Throws e) <-> exists e, Throws e ∈ l.
Proof.
  induction l as [|m r IH]; simpl.
  - split; intros [e H]; [done|]. by apply elem_of_nil in H.
  - destruct m as [a|e].
    + destruct (Js.all r) as [s|e'] eqn:E.
      * split; intros [e H]; [done|].
        apply elem_of_cons in H as [H|H]; [done|].
        assert (exists e, Throws (A:=A) e ∈ r) as Hex by eauto.
        apply IH in Hex as [? ?]. done.
      * split; intros _; [|by eauto].
        destruct (proj1 IH) as [e1 He1]; [by eauto|].
        exists e1. apply elem_of_cons. by right.
    + split; intros _; [|by eauto]. exists e. apply elem_of_cons. by left.
Qed.



Lemma wfProviders_ids providers :
  wfProviders providers -> MemoryProvider.providerId <$> values providers = keys providers.
Proof.
  intros [_ Hid]. unfold values, keys. rewrite <- list_fmap_compose.
  apply list_fmap_ext. intros i [k p] Hi. simpl.
  apply Hid. by eapply list_elem_of_lookup_2.
Qed.



Lemma getAggregatedContextWith_spec
    (merge : list MemoryContext -> option ContextOptions -> MemoryContext)
    (providers : Registry.Providers) (now : Z) (options : option ContextOptions) :
  let available := Registry.availableProviders providers in
  (available = [] ->
   Registry.getAggregatedContextWith merge providers now options
   = Returns (Registry.permissionDenied now))
  /\ (forall results,
      available ≠ [] ->
      (fun p => MemoryProvider.getContext p options) <$> available = Returns <$> results ->
      let successful := base.filter (fun r => Registry.successfulWithData r = true) results in
      (successful = [] ->
       Registry.getAggregatedContextWith merge providers now options
       = Returns (Registry.noData now available results))
      /\ (successful ≠ [] ->
          Registry.getAggregatedContextWith merge providers now options
          = Returns (Registry.aggregated now options available results successful
                       (merge (Registry.successfulData successful) options)))).
Proof.
  intros available. subst available. unfold Registry.getAggregatedContextWith.
  split.
  - intros Hnil. by rewrite Hnil.
  - intros results Hne Hall.
    rewrite bool_decide_eq_false_2
      by (by destruct (Registry.availableProviders providers)).
    apply all_Returns in Hall. rewrite Hall. simpl. split.
    + intros Hs. by rewrite Hs.
    + intros Hs. by rewrite bool_decide_eq_false_2
        by (by destruct (base.filter _ results)).
Qed.





(** C1.  The merge of index.ts does not take the [topK] of the caller:
    with two contexts of one memory each and [topK = 1], the
    RegistryManager returns one memory, while index.ts, directly and
    through [getAggregatedContext], returns both. *)
Theorem C1_mergeContexts_topK_ignored :
  let alpha := sampleMemory "alpha" (9 # 10) in
  let beta := sampleMemory "beta" (1 # 2) in
  let contexts := [ {| memories := [alpha] |}; {| memories := [beta] |} ] in
  RegistryManager.mergeContexts contexts (topK_only 1) = {| memories := [alpha] |}
  /\ ExtensionSDK.mergeContexts contexts = {| memories := [alpha; beta] |}
  /\ (r ← ExtensionSDK.getAggregatedContext [("p1", p1); ("p3", p3)] 0 (topK_only 1);
      Returns (ag_data r))
     = Returns (Some {| memories := [alpha; beta] |})
  /\ (r ← RegistryManager.getAggregatedContext [("p1", p1); ("p3", p3)] 0 (topK_only 1);
      Returns (ag_data r))
     = Returns (Some {| memories := [alpha] |}).
Proof. vm_compute. done. Qed.

(* ===================================================================== *)
(** * The read path of a provider *)
(* ===================================================================== *)

Lemma StronglySorted_take {A : Type} (R : A -> A -> Prop) (l : list A) (n : nat) :
  StronglySorted R l -> StronglySorted R (take n l).
Proof.
  intros H. rewrite <- (take_drop n l) in H. by apply StronglySorted_app_1_l in H.
Qed.

Lemma clamp_range (r : Q) : (0 <= Qmax 0 (Qmin 1 r) <= 1)%Q.
Proof.
  split.
  - apply Q.le_max_l.
  - apply Q.max_lub; [lra|]. apply Q.le_min_l.
Qed.

Lemma truthy_str_nonempty (s : string) : truthy_str s = true <-> s ≠ "".
Proof.
  unfold truthy_str. rewrite negb_true_iff.
  destruct (String.eqb_spec s ""); split; congruence.
Qed.

(** X28.  [processMemories] of the ContextBuilder: every memory returned is the
    normal form of a valid input (trimmed non-blank text and source,
    relevance within [0,1]); the memories are in descending order of
    relevance, and there are at most [topK] of them (the builder's own
    [topK], 50 by default, when the options give none). *)
Theorem ContextBuilder_processMemories_spec
    (config : ContextBuilder.ContextBuilderConfig)
    (mems : list Memory) (options : option ContextOptions) :
  let limit := default (ContextBuilder.config_topK config) (options_topK options) in
  let out := ContextBuilder.processMemories config mems options in
  0 <= limit ->
  (forall m, m ∈ out ->
     text m ≠ "" /\ source m ≠ "" /\ (0 <= relevance m <= 1)%Q
     /\ exists m0, m0 ∈ mems /\ trim (text m0) ≠ "" /\ trim (source m0) ≠ ""
                   /\ m = ContextBuilder.normalize m0)
  /\ StronglySorted (fun a b => (relevance b <= relevance a)%Q) out
  /\ Z.of_nat (length out) <= limit
  /\ exists ordered,
       ordered ≡ₚ ContextBuilder.normalize <$> base.filter ContextBuilder.keep mems
       /\ StronglySorted (fun a b => (relevance b <= relevance a)%Q) ordered
       /\ out = take (Z.to_nat limit) ordered.
Proof.
  intros limit out Hlimit.
  set (valid := ContextBuilder.normalize <$> base.filter ContextBuilder.keep mems).
  assert (out = take (Z.to_nat limit) (sort byRelevanceDesc valid)) as Hout.
  { unfold out, ContextBuilder.processMemories. fold limit. by rewrite slice0_nonneg. }
  assert (StronglySorted (fun a b => (relevance b <= relevance a)%Q)
            (sort byRelevanceDesc valid)) as Hsorted.
  { eapply StronglySorted_weaken; [|apply sort_sorted].
    - intros a b. apply byRelevanceDesc_before.
    - apply byRelevanceDesc_total.
    - apply byRelevanceDesc_trans. }
  split_and!.
  - intros m Hm. rewrite Hout in Hm.
    pose proof (elem_of_sublist _ _ _ Hm (sublist_take _ _)) as Hm'.
    clear Hm. rewrite (sort_perm byRelevanceDesc valid) in Hm'.
    apply list_elem_of_fmap in Hm' as (m0 & -> & Hm0).
    apply list_elem_of_filter in Hm0 as [Hkeep Hm0].
    unfold ContextBuilder.keep in Hkeep.
    apply Is_true_true, andb_true_iff in Hkeep as [Ht Hs].
    apply truthy_str_nonempty in Ht. apply truthy_str_nonempty in Hs.
    split_and!; try done.
    + apply clamp_range.
    + apply clamp_range.
    + by exists m0.
  - rewrite Hout. by apply StronglySorted_take.
  - rewrite Hout, length_take. lia.
  - exists (sort byRelevanceDesc valid). split_and!; [apply sort_perm|done|done].
Qed.

Lemma ContextBuilder_processMemories_spec_witness :
  StronglySorted (fun a b => (relevance b <= relevance a)%Q)
    (ContextBuilder.processMemories defaultBuilder rawMemories None)
  /\ Z.of_nat (length (ContextBuilder.processMemories defaultBuilder rawMemories
                         (topK_only 1))) <= 1.
Proof.
  split.
  - apply (ContextBuilder_processMemories_spec defaultBuilder rawMemories None).
    vm_compute. discriminate.
  - apply (ContextBuilder_processMemories_spec defaultBuilder rawMemories (topK_only 1)).
    vm_compute. discriminate.
Defined.

(** C9.  On the read path of [createProvider] (index.ts) the memories of
    the context source are returned as they are, cut to 50: a blank text
    stays, a relevance of 2 stays, the order stays and the [topK] of the
    caller is not applied.  The BaseProvider, through the ContextBuilder,
    returns for the same source and options the single valid memory of
    highest relevance, clamped to 1. *)
Theorem C9_createProvider_returns_raw_memories :
  let env := browser (Some {[ "example.com" := grantedRecord true false ]}) None in
  let source := fun _ : option ContextOptions => Returns {| memories := rawMemories |} in
  pr_data (Provider.getContext (sampleConfig None) source env 0 (topK_only 1))
  = Some {| memories := rawMemories |}
  /\ pr_data (BaseProvider.getContext sampleBaseProvider source env 0 (topK_only 1))
     = Some {| memories :=
                 [ {| text := "high"; relevance := 1; timestamp := 3; source := "tab";
                      metadata := Some [] |} ] |}.
Proof. vm_compute. done. Qed.

(* ===================================================================== *)
(** * The permission store *)
(* ===================================================================== *)

Lemma truthy_onum_false (z : option Z) :
  truthy_onum z = false <-> z = None \/ z = Some 0.
Proof.
  destruct z as [v|]; simpl; [|naive_solver].
  unfold truthy_num. rewrite negb_false_iff, Z.eqb_eq.
  split; [intros ->; by right|]. intros [?|[= ?]]; done.
Qed.

(** The check without a capability never throws. *)
Lemma isPermissionGranted_general env domain :
  Provider.isPermissionGranted env domain None
  = Returns (match Provider.getStoredPermissions env
                     !! str_or domain (currentDomain env) with
             | Some r => granted r && negb (truthy_onum (revokedAt r))
             | None => false
             end).
Proof.
  unfold Provider.isPermissionGranted.
  destruct (Provider.getStoredPermissions env !! _) as [r|]; [|done].
  by destruct (granted r), (truthy_onum (revokedAt r)).
Qed.

Lemma PermissionManager_revoke_lookup env now domain :
  chromeStorageLocal env = None ->
  PermissionManager.getStoredPermissions
    (PermissionManager.revokePermission env now domain) !! domain
  = (fun r => {| granted := false; grantedAt := grantedAt r;
                 permissions := permissions r; capabilities := capabilities r;
                 rec_appInfo := rec_appInfo r; revokedAt := Some now;
                 lastUsed := lastUsed r |})
    <$> PermissionManager.getStoredPermissions env !! domain.
Proof.
  intros Hchrome. unfold PermissionManager.revokePermission.
  destruct (PermissionManager.getStoredPermissions env !! domain) as [r|] eqn:Hr.
  - unfold PermissionManager.storePermissions. rewrite Hchrome.
    unfold PermissionManager.getStoredPermissions, setPermissionsItem in *.
    destruct (window env) as [w|]; [|by rewrite lookup_empty in Hr].
    destruct (localStorage env) as [ls|] eqn:Hls; simpl;
      [|by rewrite lookup_empty in Hr].
    by rewrite lookup_insert_eq.
  - case_bool_decide; [|by rewrite Hr].
    unfold PermissionManager.storePermissions. rewrite Hchrome.
    unfold PermissionManager.getStoredPermissions, setPermissionsItem in *.
    destruct (window env) as [w|] eqn:Hw; destruct (localStorage env) as [ls|] eqn:Hls;
      simpl; rewrite ?Hls, ?Hw; simpl; done.
Qed.


(* ===================================================================== *)
(** * The write-back store: lazy expiry *)
(* ===================================================================== *)

Lemma notExpired_spec now d : Provider.notExpired now d = true <-> ~ expired now d.
Proof.
  unfold Provider.notExpired, expired.
  rewrite orb_true_iff, negb_true_iff, truthy_onum_false, bool_decide_eq_true.
  destruct (expiresAt d) as [e|]; simpl.
  - split.
    + intros [[?|[= ->]]|H] (e' & [= <-] & Hne & Hle); try done. lia.
    + intros H. destruct (decide (e = 0)) as [->|Hne]; [left; by right|].
      right. destruct (Z.lt_ge_cases now e) as [?|Hle]; [done|].
      exfalso. apply H. by exists e.
  - split; [|by left; left]. intros _ (e' & ? & _). done.
Qed.

Lemma filter_length_eq {A : Type} (P : A -> Prop) `{!forall x, Decision (P x)}
    (l : list A) :
  length (base.filter P l) = length l -> base.filter P l = l.
Proof.
  induction l as [|x r IH]; [done|]. rewrite filter_cons.
  destruct (decide (P x)); simpl.
  - intros [= Hlen]. by rewrite IH.
  - intros Hlen. pose proof (length_filter P r). lia.
Qed.

Lemma cleanContexts_filter now (contexts : WebAgentContextStorage) :
  NoDup (keys contexts) ->
  Provider.cleanContexts now contexts
  = base.filter (fun e => Provider.notExpired now e.2 = true) contexts.
Proof.
  intros Hnd. unfold Provider.cleanContexts, entries.
  by rewrite (copy_selected_filter (Provider.notExpired now) contexts []).
Qed.

(** A read in a browser: what is returned and what is persisted. *)
Lemma getStoredWebAgentContexts_browser env now :
  inBrowser env -> NoDup (keys (persistedContexts env)) ->
  let live := base.filter (fun e => Provider.notExpired now e.2 = true)
                          (persistedContexts env) in
  (Provider.getStoredWebAgentContexts env now).1 = live
  /\ persistedContexts (Provider.getStoredWebAgentContexts env now).2 = live
  /\ window (Provider.getStoredWebAgentContexts env now).2 = window env
  /\ chromeStorageLocal (Provider.getStoredWebAgentContexts env now).2
     = chromeStorageLocal env
  /\ (localStorage (Provider.getStoredWebAgentContexts env now).2 ≫= permissionsItem)
     = (localStorage env ≫= permissionsItem)
  /\ is_Some (localStorage (Provider.getStoredWebAgentContexts env now).2).
Proof.
  intros [[w Hw] [ls Hls]] Hnd. cbv zeta.
  unfold Provider.getStoredWebAgentContexts, persistedContexts in *.
  rewrite Hw, Hls in *. simpl in *.
  rewrite cleanContexts_filter by done.
  set (live := base.filter _ _).
  split; [done|]. unfold keys. rewrite !length_fmap.
  case_bool_decide as Hlen.
  - unfold setWebAgentContextItem. rewrite Hls. simpl. by eauto.
  - rewrite Hw, Hls. simpl. split_and!; [|done|done|done|by eauto].
    symmetry. by apply filter_length_eq.
Qed.


(* ===================================================================== *)
(** * Objects indexed by a string of the caller *)
(* ===================================================================== *)

Lemma assign_ordinary {V : Type} (k : string) (v : V) (obj : gmap string V) :
  k ≠ "__proto__" -> assign k v obj = <[k := v]> obj.
Proof.
  intros Hk. unfold assign. by rewrite (bool_decide_eq_false_2 _ Hk).
Qed.

Lemma assign_own {V : Type} (k : string) (v : V) (obj : gmap string V) :
  is_Some (obj !! k) -> assign k v obj = <[k := v]> obj.
Proof.
  intros [x Hx]. unfold assign.
  rewrite (bool_decide_eq_false_2 (obj !! k = None)) by (by rewrite Hx).
  by rewrite andb_false_r.
Qed.

Lemma assign_proto {V : Type} (v : V) (obj : gmap string V) :
  obj !! "__proto__" = None -> assign "__proto__" v obj = obj.
Proof. intros Hk. unfold assign. by rewrite !bool_decide_eq_true_2. Qed.

Lemma assign_cases {V : Type} (k : string) (v : V) (obj : gmap string V) :
  assign k v obj = <[k := v]> obj
  \/ (k = "__proto__" /\ obj !! k = None /\ assign k v obj = obj).
Proof.
  unfold assign. case_bool_decide as Hk; [|by left].
  case_bool_decide as Hown; [|by left]. by right.
Qed.

Lemma assign_lookup_ne {V : Type} (k d : string) (v : V) (obj : gmap string V) :
  d ≠ k -> assign k v obj !! d = obj !! d.
Proof.
  intros Hd. destruct (assign_cases k v obj) as [->|(_ & _ & ->)]; [|done].
  by rewrite lookup_insert_ne.
Qed.

Lemma assign_lookup_Some {V : Type} (k d : string) (v x : V) (obj : gmap string V) :
  assign k v obj !! d = Some x -> (d = k /\ x = v) \/ obj !! d = Some x.
Proof.
  destruct (assign_cases k v obj) as [->|(_ & _ & ->)]; [|by right].
  destruct (decide (d = k)) as [->|Hd].
  - rewrite lookup_insert_eq. intros [= <-]. by left.
  - rewrite lookup_insert_ne by done. by right.
Qed.

Lemma truthy_at_assign {V : Type} (k : string) (v : V) (obj : gmap string V) :
  truthy_at (assign k v obj) k = true.
Proof.
  unfold truthy_at.
  destruct (assign_cases k v obj) as [->|(-> & _ & ->)].
  - rewrite lookup_insert_eq. by rewrite bool_decide_eq_true_2 by eauto.
  - rewrite orb_true_iff. right. apply bool_decide_eq_true_2.
    unfold objectPrototypeKeys. apply elem_of_cons. by left.
Qed.

Lemma truthy_at_ordinary {V : Type} (obj : gmap string V) (k : string) :
  k ∉ objectPrototypeKeys -> truthy_at obj k = bool_decide (is_Some (obj !! k)).
Proof.
  intros Hk. unfold truthy_at. rewrite (bool_decide_eq_false_2 _ Hk).
  by rewrite orb_false_r.
Qed.

Lemma proto_is_prototype_key : "__proto__" ∈ objectPrototypeKeys.
Proof. unfold objectPrototypeKeys. apply elem_of_cons. by left. Qed.

(* ===================================================================== *)
(** * Permission requests *)
(* ===================================================================== *)

Lemma str_or_nonempty s d : d ≠ "" -> str_or s d ≠ "".
Proof.
  intros Hd. destruct s as [v|]; simpl; [|done].
  destruct (truthy_str v) eqn:E; [|done]. by apply truthy_str_nonempty.
Qed.

Lemma currentDomain_nonempty env : currentDomain env ≠ "".
Proof. by apply str_or_nonempty. Qed.

Lemma requestDomain_nonempty env appInfo : requestDomain env appInfo ≠ "".
Proof. apply str_or_nonempty, currentDomain_nonempty. Qed.

Lemma str_or_Some_nonempty s d : s ≠ "" -> str_or (Some s) d = s.
Proof. intros Hs. simpl. apply truthy_str_nonempty in Hs. by rewrite Hs. Qed.

(** [requestPermission] when the permission is already granted. *)
Lemma requestPermission_granted env now appInfo r :
  Provider.getStoredPermissions env !! requestDomain env appInfo = Some r ->
  granted r = true -> notRevoked r ->
  Provider.requestPermission env now appInfo
  = Returns ({| res_granted := true; isFirstTime := false;
                res_permissions := permissions r;
                res_capabilities := capabilities r;
                res_domain := Some (requestDomain env appInfo) |}, env, []).
Proof.
  intros Hr Hg Hrev. apply truthy_onum_false in Hrev.
  pose proof (requestDomain_nonempty env appInfo) as Hne.
  unfold Provider.requestPermission, requestDomain in *.
  set (domain := str_or (app_domain appInfo) (currentDomain env)) in *.
  rewrite isPermissionGranted_general.
  rewrite str_or_Some_nonempty by done.
  by rewrite Hr, Hg, Hrev.
Qed.

(** [requestPermission] when it is not: the user is asked and the answer
    is stored. *)
Lemma requestPermission_asks env now appInfo :
  let domain := requestDomain env appInfo in
  let perms := Provider.getStoredPermissions env in
  let firstTime := negb (truthy_at perms domain) in
  (forall r, perms !! domain = Some r -> granted r = true -> ~ notRevoked r) ->
  Provider.requestPermission env now appInfo
  = Returns
      (let '(userGranted, c, shown) := userResponse env appInfo firstTime in
       if (userGranted : bool) then
         ({| res_granted := true; isFirstTime := firstTime;
             res_permissions := grantedList c; res_capabilities := Some c;
             res_domain := Some domain |},
          Provider.storePermissions env
            (assign domain
               {| granted := true; grantedAt := now;
                  permissions := grantedList c; capabilities := Some c;
                  rec_appInfo := Some appInfo; revokedAt := None;
                  lastUsed := Some now |} perms),
          shown)
       else
         ({| res_granted := false; isFirstTime := firstTime;
             res_permissions := [];
             res_capabilities := Some {| read := Some false; write := Some false |};
             res_domain := Some domain |},
          Provider.storePermissions env (assign domain (deniedRecord now appInfo) perms),
          shown)).
Proof.
  intros domain perms firstTime Hnot.
  pose proof (requestDomain_nonempty env appInfo) as Hne.
  unfold Provider.requestPermission. subst firstTime perms domain.
  unfold requestDomain in *.
  set (domain := str_or (app_domain appInfo) (currentDomain env)) in *.
  set (perms := Provider.getStoredPermissions env) in *.
  rewrite isPermissionGranted_general.
  rewrite str_or_Some_nonempty by done.
  fold perms.
  assert (match perms !! domain with
          | Some r => granted r && negb (truthy_onum (revokedAt r))
          | None => false
          end = false) as ->.
  { destruct (perms !! domain) as [r|] eqn:Hr; [|done].
    destruct (granted r) eqn:Hg; [|done]. simpl.
    apply negb_false_iff. destruct (truthy_onum (revokedAt r)) eqn:Hrev; [done|].
    exfalso. apply (Hnot r eq_refl Hg). by apply truthy_onum_false. }
  simpl. unfold userResponse, grantedList.
  destruct (match window env with Some _ => _ | None => _ end) as [[g c] shown].
  by destruct g.
Qed.

Lemma storePermissions_contexts env p :
  persistedContexts (Provider.storePermissions env p) = persistedContexts env.
Proof.
  unfold Provider.storePermissions, setPermissionsItem, persistedContexts.
  destruct (localStorage env) eqn:E; simpl; by rewrite ?E.
Qed.

Lemma requestPermission_keeps_contexts env now appInfo r env' shown :
  Provider.requestPermission env now appInfo = Returns (r, env', shown) ->
  persistedContexts env' = persistedContexts env.
Proof.
  destruct (Provider.getStoredPermissions env !! requestDomain env appInfo)
    as [rec|] eqn:Hrec.
  - destruct (decide (granted rec = true /\ notRevoked rec)) as [[Hg Hrev]|Hno].
    + rewrite (requestPermission_granted env now appInfo rec) by done.
      by intros [= _ <- _].
    + rewrite requestPermission_asks.
      * destruct (userResponse _ _ _) as [[g c] s].
        destruct g; intros [= _ <- _]; apply storePermissions_contexts.
      * intros r0 Hr0 Hg Hrev. rewrite Hrec in Hr0. inversion Hr0; subst. tauto.
  - rewrite requestPermission_asks.
    + destruct (userResponse _ _ _) as [[g c] s].
      destruct g; intros [= _ <- _]; apply storePermissions_contexts.
    + intros r0 Hr0. rewrite Hrec in Hr0. done.
Qed.

(** C7.  A read of the write-back store (in a page with [localStorage])
    returns the stored entries whose [expiresAt] has not passed, in their
    stored state, and leaves exactly these entries persisted: after the
    read no persisted entry is expired and no live entry is lost.  The
    purge is part of the read ([handleWebAgentContext] starts from this
    read); asking for or checking a permission leaves the persisted
    collection as it is. *)
Theorem C7_lazy_expiry (env : Env) (now : Z) :
  inBrowser env -> NoDup (keys (persistedContexts env)) ->
  let returned := (Provider.getStoredWebAgentContexts env now).1 in
  let after := (Provider.getStoredWebAgentContexts env now).2 in
  (forall entry, entry ∈ returned <-> entry ∈ persistedContexts env /\ ~ expired now entry.2)
  /\ returned `sublist_of` persistedContexts env
  /\ persistedContexts after = returned
  /\ (forall entry, entry ∈ persistedContexts after -> ~ expired now entry.2)
  /\ persistedPermissions after = persistedPermissions env
  /\ (forall now' appInfo r env' shown,
        Provider.requestPermission env now' appInfo = Returns (r, env', shown) ->
        persistedContexts env' = persistedContexts env).
Proof.
  intros Hb Hnd returned after.
  destruct (getStoredWebAgentContexts_browser env now Hb Hnd)
    as (Hret & Hafter & _ & _ & Hperm & _).
  fold returned in Hret. fold after in Hafter, Hperm.
  assert (forall entry, entry ∈ returned
                        <-> entry ∈ persistedContexts env /\ ~ expired now entry.2) as Hin.
  { intros entry. rewrite Hret, list_elem_of_filter, notExpired_spec. tauto. }
  split_and!.
  - done.
  - rewrite Hret. apply sublist_filter.
  - by rewrite Hafter.
  - intros entry. rewrite Hafter, <- Hret. by intros [_ ?]%Hin.
  - unfold persistedPermissions. by rewrite Hperm.
  - intros now' appInfo r env' shown Hreq.
    by eapply requestPermission_keeps_contexts.
Qed.

Lemma C7_lazy_expiry_witness :
  let stale := {| context := {| agentId := "a"; agentName := "a"; agentType := None;
                                wac_memories := []; sessionId := None;
                                contextType := "other"; wac_timestamp := 1;
                                wac_domain := "example.com"; wac_expiresAt := None;
                                wac_source := {| source_type := "other";
                                                 source_description := None;
                                                 source_confidence := None |} |};
                  receivedAt := 1; processed := true; expiresAt := Some 10; size := 0 |} in
  let env := browser None (Some [("a_default_1", stale)]) in
  persistedContexts (Provider.getStoredWebAgentContexts env 10).2 = [].
Proof.
  intros stale env.
  destruct (C7_lazy_expiry env 10) as (_ & _ & Hafter & _).
  - split; eexists; reflexivity.
  - repeat constructor. apply not_elem_of_nil.
  - rewrite Hafter. reflexivity.
Defined.

Lemma getStoredPermissions_store env p :
  inBrowser env -> Provider.getStoredPermissions (Provider.storePermissions env p) = p.
Proof.
  intros [[w Hw] [ls Hls]].
  unfold Provider.getStoredPermissions, Provider.storePermissions, setPermissionsItem.
  rewrite Hls. simpl. by rewrite Hw.
Qed.

Lemma window_store env p : window (Provider.storePermissions env p) = window env.
Proof.
  unfold Provider.storePermissions, setPermissionsItem.
  by destruct (localStorage env).
Qed.

Lemma requestDomain_store env p appInfo :
  requestDomain (Provider.storePermissions env p) appInfo = requestDomain env appInfo.
Proof. unfold requestDomain, currentDomain. by rewrite window_store. Qed.

Lemma isPermissionGranted_true env domain :
  domain ≠ "" ->
  Provider.isPermissionGranted env (Some domain) None = Returns true ->
  exists r, Provider.getStoredPermissions env !! domain = Some r
            /\ granted r = true /\ notRevoked r.
Proof.
  intros Hne. rewrite isPermissionGranted_general, str_or_Some_nonempty by done.
  destruct (Provider.getStoredPermissions env !! domain) as [r|]; [|done].
  intros [= H]. apply andb_true_iff in H as [Hg Hr].
  exists r. split_and!; [done|done|].
  apply truthy_onum_false. by apply negb_true_iff.
Qed.

(** The two ways a request ends. *)
Lemma requestPermission_cases env appInfo :
  (exists r, Provider.getStoredPermissions env !! requestDomain env appInfo = Some r
             /\ granted r = true /\ notRevoked r)
  \/ (forall r, Provider.getStoredPermissions env !! requestDomain env appInfo = Some r ->
                granted r = true -> ~ notRevoked r).
Proof.
  destruct (Provider.getStoredPermissions env !! requestDomain env appInfo) as [r|];
    [|by right].
  destruct (decide (granted r = true /\ notRevoked r)) as [[Hg Hr]|Hno].
  - left. by exists r.
  - right. intros r0 [= <-]. tauto.
Qed.

(** The user declines only in a window, at the first question. *)
Lemma userResponse_denied env appInfo firstTime c shown :
  userResponse env appInfo firstTime = (false, c, shown) -> is_Some (window env).
Proof.
  unfold userResponse. destruct (window env); [by eauto|]. by intros [= ? ?].
Qed.

(** What a request leaves in the store: nothing new, or the record of the
    answer under the domain of the request (read back only in a page with
    [localStorage]). *)
Lemma requestPermission_stores env now appInfo r env' shown :
  Provider.requestPermission env now appInfo = Returns (r, env', shown) ->
  env' = env
  \/ exists record,
       is_Some (capabilities record)
       /\ (Provider.getStoredPermissions env'
           = assign (requestDomain env appInfo) record (Provider.getStoredPermissions env)
           \/ Provider.getStoredPermissions env' = ∅).
Proof.
  assert (forall p, Provider.getStoredPermissions (Provider.storePermissions env p) = p
                    \/ Provider.getStoredPermissions (Provider.storePermissions env p) = ∅)
    as Hstore.
  { intros p. unfold Provider.getStoredPermissions, Provider.storePermissions,
      setPermissionsItem.
    destruct (localStorage env) as [ls|] eqn:Hls; simpl.
    - destruct (window env); [by left|by right].
    - rewrite Hls. destruct (window env); by right. }
  destruct (requestPermission_cases env appInfo) as [(r0 & Hr & Hg & Hrev)|Hno].
  - rewrite (requestPermission_granted env now appInfo r0) by done.
    intros [= _ <- _]. by left.
  - rewrite requestPermission_asks by done.
    destruct (userResponse _ _ _) as [[g c] s].
    destruct g; intros [= _ <- _]; right; eexists; (split; [|apply Hstore]);
      simpl; by eauto.
Qed.

(** C2 (as amended).  [isPermissionGranted] of a provider returns true
    only for a stored record of the domain with [granted] true and
    [revokedAt] unset and, when a capability is given, with that
    capability's flag true in the record's capability map; for such a
    record it returns true without a capability, and with one it tells
    whether the flag is true (a flag missing from the map counts as
    false).  Without a record it returns false for every capability and
    without one; a record with [revokedAt] set gives false whatever its
    [granted] flag.  After [revokePermission(domain)] of the
    PermissionManager (writing to [localStorage]) its
    [isPermissionGranted(domain)] is false.  The capability map is always
    there in the records of a provider: [requestPermission] stores no
    record without one. *)
Theorem C2_isPermissionGranted
    (env : Env) (domain : option string) :
  let stored := Provider.getStoredPermissions env !! str_or domain (currentDomain env) in
  (forall capability,
      Provider.isPermissionGranted env domain capability = Returns true ->
      exists r, stored = Some r /\ granted r = true /\ notRevoked r
                /\ forall cap, capability = Some cap ->
                     exists c, capabilities r = Some c
                               /\ capability_flag c cap = Some true)
  /\ (forall r, stored = Some r -> granted r = true -> notRevoked r ->
        Provider.isPermissionGranted env domain None = Returns true
        /\ (forall cap c, capabilities r = Some c ->
              Provider.isPermissionGranted env domain (Some cap)
              = Returns (bool_decide (capability_flag c cap = Some true)))
        /\ (forall cap c, capabilities r = Some c -> capability_flag c cap = None ->
              Provider.isPermissionGranted env domain (Some cap) = Returns false))
  /\ (stored = None ->
      forall capability, Provider.isPermissionGranted env domain capability = Returns false)
  /\ (forall r, stored = Some r -> ~ notRevoked r ->
        forall capability,
          Provider.isPermissionGranted env domain capability = Returns false)
  /\ (forall d,
        PermissionManager.isPermissionGranted env d = true
        <-> exists r, PermissionManager.getStoredPermissions env !! d = Some r
                      /\ granted r = true /\ notRevoked r)
  /\ (chromeStorageLocal env = None ->
      forall now d,
        PermissionManager.isPermissionGranted
          (PermissionManager.revokePermission env now d) d = false)
  /\ (forall now appInfo r env' shown,
        (forall d rec, Provider.getStoredPermissions env !! d = Some rec ->
                       is_Some (capabilities rec)) ->
        Provider.requestPermission env now appInfo = Returns (r, env', shown) ->
        forall d rec, Provider.getStoredPermissions env' !! d = Some rec ->
                      is_Some (capabilities rec)).
Proof.
  intros stored. unfold notRevoked. split_and!.
  - intros capability H. unfold Provider.isPermissionGranted in H. fold stored in H.
    destruct stored as [r|]; [|done]. exists r.
    destruct (granted r) eqn:Hg; [|done].
    destruct (truthy_onum (revokedAt r)) eqn:Hr; [done|].
    apply truthy_onum_false in Hr. split_and!; try done.
    intros cap ->. destruct (capabilities r) as [c|]; [|done].
    exists c. split; [done|]. simpl in H. inversion H as [Hb].
    rewrite Hb. by apply bool_decide_eq_true in Hb.
  - intros r Hstored Hg Hr. apply truthy_onum_false in Hr.
    unfold Provider.isPermissionGranted. fold stored. rewrite Hstored, Hg, Hr. simpl.
    split; [done|]. split.
    + by intros cap c ->.
    + intros cap c -> Hflag. by rewrite Hflag.
  - intros Hstored capability. unfold Provider.isPermissionGranted. fold stored.
    by rewrite Hstored.
  - intros r Hstored Hr capability. unfold Provider.isPermissionGranted. fold stored.
    rewrite Hstored. rewrite <- truthy_onum_false in Hr.
    destruct (truthy_onum (revokedAt r)); [|done].
    by rewrite orb_true_r.
  - intros d. unfold PermissionManager.isPermissionGranted.
    destruct (PermissionManager.getStoredPermissions env !! d) as [r|].
    + rewrite andb_true_iff, negb_true_iff, truthy_onum_false. split.
      * intros [Hg Hr]. by exists r.
      * intros (r0 & [= <-] & Hg & Hr). done.
    + split; [done|]. by intros (r0 & ? & _).
  - intros Hchrome now d. unfold PermissionManager.isPermissionGranted.
    rewrite PermissionManager_revoke_lookup by done.
    by destruct (PermissionManager.getStoredPermissions env !! d).
  - intros now appInfo r env' shown Hall Hreq d rec Hrec.
    destruct (requestPermission_stores env now appInfo r env' shown Hreq)
      as [->|(record & Hcaps & [Hst|Hst])].
    + by eapply Hall.
    + rewrite Hst in Hrec.
      apply assign_lookup_Some in Hrec as [[_ ->]|Hrec]; [done|by eapply Hall].
    + by rewrite Hst, lookup_empty in Hrec.
Qed.

Lemma C2_isPermissionGranted_witness :
  let env := browser (Some {[ "example.com" := grantedRecord true false ]}) None in
  let revoked := browser (Some {[ "example.com" := revokedRecord ]}) None in
  let noFlags := browser (Some {[ "example.com" := emptyMapRecord ]}) None in
  Provider.isPermissionGranted env None (Some CapRead) = Returns true
  /\ Provider.isPermissionGranted noFlags None (Some CapRead) = Returns false
  /\ Provider.isPermissionGranted env None (Some CapWrite) = Returns false
  /\ Provider.isPermissionGranted env (Some "other.org") None = Returns false
  /\ Provider.isPermissionGranted revoked None (Some CapRead) = Returns false
  /\ (exists r, Provider.getStoredPermissions env !! "example.com" = Some r
                /\ granted r = true /\ notRevoked r)
  /\ PermissionManager.isPermissionGranted
       (PermissionManager.revokePermission env 5 "example.com") "example.com" = false
  /\ (forall r env' shown,
        Provider.requestPermission (browser None None) 7 sampleApp
        = Returns (r, env', shown) ->
        forall d rec, Provider.getStoredPermissions env' !! d = Some rec ->
                      is_Some (capabilities rec)).
Proof.
  intros env revoked noFlags.
  destruct (C2_isPermissionGranted env None) as (Honly & Hrec & _ & _ & _ & Hrevoke & _).
  destruct (C2_isPermissionGranted noFlags None) as (_ & Hflags & _).
  destruct (Hflags emptyMapRecord) as (_ & _ & Hmissing);
    [reflexivity|reflexivity|by left|].
  destruct (C2_isPermissionGranted env (Some "other.org")) as (_ & _ & Hnone & _).
  destruct (C2_isPermissionGranted revoked None) as (_ & _ & _ & Hrev & _).
  destruct (Hrec (grantedRecord true false)) as (_ & Hcap & _);
    [reflexivity|reflexivity|by left|].
  split_and!.
  - exact (Hcap CapRead {| read := Some true; write := Some false |} eq_refl).
  - exact (Hmissing CapRead {| read := None; write := None |} eq_refl eq_refl).
  - exact (Hcap CapWrite {| read := Some true; write := Some false |} eq_refl).
  - exact (Hnone eq_refl None).
  - apply (Hrev revokedRecord eq_refl). by intros [?|?].
  - destruct (Honly (Some CapRead)) as (r & Hr & Hg & Hn & _); [reflexivity|].
    by exists r.
  - exact (Hrevoke eq_refl 5 "example.com").
  - intros r env' shown Hreq.
    destruct (C2_isPermissionGranted (browser None None) None)
      as (_ & _ & _ & _ & _ & _ & Hmap).
    apply (Hmap 7 sampleApp r env' shown); [|exact Hreq].
    intros d rec Hlook. unfold Provider.getStoredPermissions in Hlook.
    simpl in Hlook. rewrite lookup_empty in Hlook. discriminate.
Defined.

(** C2 as stated fails in two places.  Where it speaks of a record
    without a capability map: for such a record (granted, not revoked) the
    check of a capability throws instead of returning false, while the
    check without a capability returns true.  And where it speaks of
    [revokePermission]: inside an extension the PermissionManager writes
    the revocation to [chrome.storage.local] and reads [localStorage], so
    that a granted domain still checks true after it was revoked. *)
Lemma C2_capability_map_absent :
  let env := browser (Some {[ "example.com" := managerRecord ]}) None in
  let extension := inExtension (Some {[ "example.com" := managerRecord ]}) in
  Provider.isPermissionGranted env (Some "example.com") (Some CapRead)
  = Throws (ErrorObj "Cannot read properties of undefined")
  /\ Provider.isPermissionGranted env (Some "example.com") (Some CapRead) ≠ Returns false
  /\ Provider.isPermissionGranted env (Some "example.com") None = Returns true
  /\ PermissionManager.isPermissionGranted extension "example.com" = true
  /\ PermissionManager.isPermissionGranted
       (PermissionManager.revokePermission extension 5 "example.com") "example.com"
     = true.
Proof. vm_compute. split_and!; done. Qed.

Lemma manager_store_read env p :
  inBrowser env -> chromeStorageLocal env = None ->
  PermissionManager.getStoredPermissions (PermissionManager.storePermissions env p) = p.
Proof.
  intros [[w Hw] [ls Hls]] Hc.
  unfold PermissionManager.storePermissions, PermissionManager.getStoredPermissions,
    setPermissionsItem.
  rewrite Hc, Hls. simpl. by rewrite Hw.
Qed.

(** C8 (as amended).  [requestPermission] returns a result.  Once the
    permission is granted for the resolved domain, a call returns the
    existing grant with [isFirstTime] false, shows nothing to the user and
    leaves the stored record as it is.  In a page with [localStorage] and
    for a resolved domain other than ["__proto__"], a call that follows a
    grant repeats the grant, and a denial stores a record with [granted]
    false and both capability flags false; after a denial a later request
    for the same domain has [isFirstTime] false.  The PermissionManager
    does the same with its records (which have no capability flags; a
    repeated grant carries the manager's default permissions) when it
    asks the user ([autoShowUI]) and writes to [localStorage] (there is no
    [chrome.storage.local]). *)
Theorem C8_requestPermission (env : Env) (now : Z) (appInfo : AppInfo) :
  let domain := requestDomain env appInfo in
  (exists out, Provider.requestPermission env now appInfo = Returns out)
  /\ (Provider.isPermissionGranted env (Some domain) None = Returns true ->
      exists existing,
        Provider.getStoredPermissions env !! domain = Some existing
        /\ Provider.requestPermission env now appInfo
           = Returns ({| res_granted := true; isFirstTime := false;
                         res_permissions := permissions existing;
                         res_capabilities := capabilities existing;
                         res_domain := Some domain |}, env, []))
  /\ (inBrowser env -> domain ≠ "__proto__" ->
      forall r env' shown,
        Provider.requestPermission env now appInfo = Returns (r, env', shown) ->
        res_granted r = true ->
        forall now',
          Provider.requestPermission env' now' appInfo
          = Returns ({| res_granted := true; isFirstTime := false;
                        res_permissions := res_permissions r;
                        res_capabilities := res_capabilities r;
                        res_domain := res_domain r |}, env', []))
  /\ (is_Some (localStorage env) ->
      forall r env' shown,
        Provider.requestPermission env now appInfo = Returns (r, env', shown) ->
        res_granted r = false ->
        (domain ≠ "__proto__" ->
         Provider.getStoredPermissions env' !! domain = Some (deniedRecord now appInfo))
        /\ forall now' appInfo' r' env'' shown',
             requestDomain env' appInfo' = domain ->
             Provider.requestPermission env' now' appInfo' = Returns (r', env'', shown') ->
             isFirstTime r' = false)
  /\ (forall config,
      PermissionManager.isPermissionGranted env (managerDomain env appInfo) = true ->
      PermissionManager.requestPermission config env now appInfo
      = ({| res_granted := true; isFirstTime := false;
            res_permissions := PermissionManager.defaultPermissions config;
            res_capabilities := None;
            res_domain := Some (managerDomain env appInfo) |}, env, []))
  /\ (forall config r env' shown,
      PermissionManager.autoShowUI config = true ->
      chromeStorageLocal env = None -> is_Some (localStorage env) ->
      PermissionManager.requestPermission config env now appInfo = (r, env', shown) ->
      res_granted r = false ->
      (managerDomain env appInfo ≠ "__proto__" ->
       PermissionManager.getStoredPermissions env' !! managerDomain env appInfo
       = Some (managerDenied now appInfo))
      /\ forall now' appInfo' r' env'' shown',
           managerDomain env' appInfo' = managerDomain env appInfo ->
           PermissionManager.requestPermission config env' now' appInfo'
           = (r', env'', shown') ->
           isFirstTime r' = false)
  /\ (forall config r env' shown,
      inBrowser env -> chromeStorageLocal env = None ->
      managerDomain env appInfo ≠ "__proto__" ->
      PermissionManager.requestPermission config env now appInfo = (r, env', shown) ->
      res_granted r = true ->
      forall now',
        PermissionManager.requestPermission config env' now' appInfo
        = ({| res_granted := true; isFirstTime := false;
              res_permissions := PermissionManager.defaultPermissions config;
              res_capabilities := None;
              res_domain := Some (managerDomain env appInfo) |}, env', [])).
Proof.
  intros domain. split_and!.
  - destruct (requestPermission_cases env appInfo) as [(r & Hr & Hg & Hrev)|Hno].
    + rewrite (requestPermission_granted env now appInfo r) by done. by eauto.
    + rewrite requestPermission_asks by done. by eauto.
  - intros Hgranted.
    apply isPermissionGranted_true in Hgranted as (r & Hr & Hg & Hrev);
      [|apply requestDomain_nonempty].
    exists r. split; [done|]. by apply requestPermission_granted.
  - intros Hb Hproto r env' shown Hreq Hres now'.
    destruct (requestPermission_cases env appInfo) as [(r0 & Hr & Hg & Hrev)|Hno].
    + rewrite (requestPermission_granted env now appInfo r0) in Hreq by done.
      inversion Hreq; subst. simpl.
      by apply requestPermission_granted.
    + rewrite requestPermission_asks in Hreq by done.
      destruct (userResponse _ _ _) as [[g c] s].
      destruct g; inversion Hreq; subst; [|done]. simpl.
      set (rec := {| granted := true; grantedAt := now;
                     permissions := grantedList c; capabilities := Some c;
                     rec_appInfo := Some appInfo; revokedAt := None;
                     lastUsed := Some now |}).
      set (env1 := Provider.storePermissions env _).
      assert (Provider.getStoredPermissions env1 !! requestDomain env1 appInfo
              = Some rec) as Hlook.
      { unfold env1. rewrite requestDomain_store, getStoredPermissions_store by done.
        rewrite assign_ordinary by done. by rewrite lookup_insert_eq. }
      rewrite (requestPermission_granted env1 now' appInfo rec Hlook eq_refl
                 (or_introl eq_refl)).
      unfold env1. by rewrite requestDomain_store.
  - intros Hls r env' shown Hreq Hres.
    destruct (requestPermission_cases env appInfo) as [(r0 & Hr & Hg & Hrev)|Hno].
    + rewrite (requestPermission_granted env now appInfo r0) in Hreq by done.
      inversion Hreq; subst. done.
    + rewrite requestPermission_asks in Hreq by done.
      destruct (userResponse _ _ _) as [[g c] s] eqn:Hresp.
      destruct g; inversion Hreq; subst; [done|].
      assert (inBrowser env) as Hb.
      { split; [|done]. by eapply userResponse_denied. }
      split.
      * intros Hproto. rewrite getStoredPermissions_store by done.
        rewrite assign_ordinary by done. by rewrite lookup_insert_eq.
      * intros now' appInfo' r' env'' shown' Hdom Hreq'.
        set (env' := Provider.storePermissions env _) in *.
        assert (truthy_at (Provider.getStoredPermissions env')
                  (requestDomain env' appInfo') = true) as Htruthy.
        { rewrite Hdom. unfold env'. rewrite getStoredPermissions_store by done.
          apply truthy_at_assign. }
        destruct (requestPermission_cases env' appInfo') as [(r0 & Hr & Hg & Hrev)|Hno'].
        -- rewrite (requestPermission_granted env' now' appInfo' r0) in Hreq' by done.
           by inversion Hreq'.
        -- rewrite requestPermission_asks in Hreq' by done.
           rewrite Htruthy in Hreq'. simpl in Hreq'.
           destruct (userResponse env' appInfo' false) as [[g' c'] s'].
           destruct g'; by inversion Hreq'.
  - intros config Hgranted. unfold PermissionManager.requestPermission.
    fold (managerDomain env appInfo). by rewrite Hgranted.
  - intros config r env' shown Hui Hchrome Hls Hreq Hres.
    unfold PermissionManager.requestPermission in Hreq.
    fold (managerDomain env appInfo) in Hreq. rewrite Hui in Hreq.
    destruct (PermissionManager.isPermissionGranted env (managerDomain env appInfo));
      [by inversion Hreq; subst|].
    unfold PermissionManager.showPermissionDialog in Hreq.
    destruct (window env) as [w|] eqn:Hw; [|by inversion Hreq; subst].
    destruct (confirm w _); inversion Hreq; subst; [done|]. clear Hreq.
    destruct Hls as [ls Hls].
    assert (PermissionManager.getStoredPermissions
              (PermissionManager.denyPermission env now (managerDomain env appInfo) appInfo)
            = assign (managerDomain env appInfo) (managerDenied now appInfo)
                (PermissionManager.getStoredPermissions env)) as Hstored.
    { unfold PermissionManager.denyPermission, PermissionManager.storePermissions.
      rewrite Hchrome. unfold setPermissionsItem. rewrite Hls.
      unfold PermissionManager.getStoredPermissions at 1. simpl. by rewrite Hw. }
    split.
    + intros Hproto. rewrite Hstored, assign_ordinary by done.
      by rewrite lookup_insert_eq.
    + intros now' appInfo' r' env'' shown' Hdom Hreq'.
      unfold PermissionManager.requestPermission in Hreq'.
      fold (managerDomain (PermissionManager.denyPermission env now
                             (managerDomain env appInfo) appInfo) appInfo') in Hreq'.
      rewrite Hdom in Hreq'.
      rewrite Hstored, truthy_at_assign in Hreq'. simpl in Hreq'.
      destruct (PermissionManager.isPermissionGranted _ _); [by inversion Hreq'|].
      rewrite Hui in Hreq'.
      destruct (PermissionManager.showPermissionDialog _ _ _) as [g s].
      destruct g; by inversion Hreq'.
  - intros config r env' shown Hb Hchrome Hord Hreq Hres now'.
    assert (forall env0,
              window env0 = window env ->
              PermissionManager.isPermissionGranted env0 (managerDomain env appInfo)
              = true ->
              PermissionManager.requestPermission config env0 now' appInfo
              = ({| res_granted := true; isFirstTime := false;
                    res_permissions := PermissionManager.defaultPermissions config;
                    res_capabilities := None;
                    res_domain := Some (managerDomain env appInfo) |}, env0, []))
      as Hagain.
    { intros env0 Hw0 Hcheck. unfold PermissionManager.requestPermission.
      fold (managerDomain env0 appInfo).
      assert (managerDomain env0 appInfo = managerDomain env appInfo) as ->.
      { unfold managerDomain, PermissionManager.getCurrentDomain. by rewrite Hw0. }
      by rewrite Hcheck. }
    unfold PermissionManager.requestPermission in Hreq.
    fold (managerDomain env appInfo) in Hreq.
    destruct (PermissionManager.isPermissionGranted env (managerDomain env appInfo))
      eqn:Hcheck.
    + injection Hreq as <- <- <-. by apply Hagain.
    + destruct (PermissionManager.autoShowUI config);
        [|injection Hreq as <- <- <-; done].
      destruct (PermissionManager.showPermissionDialog _ _ _) as [g sh].
      destruct g; injection Hreq as <- <- <-; [|done].
      apply Hagain.
      * unfold PermissionManager.grantPermission, PermissionManager.storePermissions,
          setPermissionsItem.
        rewrite Hchrome. by destruct (localStorage env).
      * unfold PermissionManager.grantPermission, PermissionManager.isPermissionGranted.
        rewrite assign_ordinary by done.
        by rewrite manager_store_read, lookup_insert_eq.
Qed.

Lemma C8_requestPermission_witness :
  let env := browser None None in
  let granted := browser (Some {[ "example.com" := grantedRecord true false ]}) None in
  (exists r env' shown,
      Provider.requestPermission env 7 sampleApp = Returns (r, env', shown)
      /\ res_granted r = false /\ isFirstTime r = true
      /\ Provider.getStoredPermissions env' !! "example.com"
         = Some (deniedRecord 7 sampleApp)
      /\ exists r' env'' shown',
           Provider.requestPermission env' 8 sampleApp = Returns (r', env'', shown')
           /\ isFirstTime r' = false)
  /\ Provider.requestPermission granted 7 sampleApp
     = Returns ({| res_granted := true; isFirstTime := false; res_permissions := [];
                   res_capabilities := Some {| read := Some true; write := Some false |};
                   res_domain := Some "example.com" |}, granted, [])
  /\ Provider.requestPermission granted 8 sampleApp
     = Returns ({| res_granted := true; isFirstTime := false; res_permissions := [];
                   res_capabilities := Some {| read := Some true; write := Some false |};
                   res_domain := Some "example.com" |}, granted, [])
  /\ PermissionManager.requestPermission defaultManager granted 7 sampleApp
     = ({| res_granted := true; isFirstTime := false; res_permissions := ["context"];
           res_capabilities := None; res_domain := Some "example.com" |}, granted, [])
  /\ (exists r env' shown,
        PermissionManager.requestPermission defaultManager env 7 sampleApp
        = (r, env', shown)
        /\ PermissionManager.getStoredPermissions env' !! "example.com"
           = Some (managerDenied 7 sampleApp)).
Proof.
  intros env granted. split_and!.
  - destruct (C8_requestPermission env 7 sampleApp)
      as ([[[r env'] shown] Hreq] & _ & _ & Hden & _).
    assert (res_granted r = false /\ isFirstTime r = true) as [Hg Hf].
    { vm_compute in Hreq. by inversion Hreq. }
    destruct (Hden ltac:(eexists; reflexivity) r env' shown Hreq Hg) as [Hrec Hnext].
    exists r, env', shown. split_and!; try done.
    { apply Hrec. discriminate. }
    destruct (C8_requestPermission env' 8 sampleApp) as ([[[r' env''] shown'] Hreq'] & _).
    exists r', env'', shown'. split; [done|].
    eapply (Hnext 8 sampleApp r' env'' shown'); [|done].
    vm_compute in Hreq. inversion Hreq; subst. reflexivity.
  - destruct (C8_requestPermission granted 7 sampleApp) as (_ & Hidem & _).
    destruct (Hidem eq_refl) as (existing & Hex & Hreq).
    rewrite Hreq. vm_compute in Hex. by inversion Hex.
  - destruct (C8_requestPermission granted 7 sampleApp) as (_ & Hidem & Hagain & _).
    destruct (Hidem eq_refl) as (existing & Hex & Hreq).
    assert (is_Some (window granted) /\ is_Some (localStorage granted)) as Hb
      by (split; eexists; reflexivity).
    rewrite (Hagain Hb ltac:(discriminate) _ granted [] Hreq eq_refl 8).
    vm_compute in Hex. by inversion Hex.
  - destruct (C8_requestPermission granted 7 sampleApp) as (_ & _ & _ & _ & Hpm & _).
    exact (Hpm defaultManager eq_refl).
  - destruct (PermissionManager.requestPermission defaultManager env 7 sampleApp)
      as [[r env'] shown] eqn:Hreq.
    exists r, env', shown. split; [done|].
    destruct (C8_requestPermission env 7 sampleApp) as (_ & _ & _ & _ & _ & Hpm & _).
    apply (Hpm defaultManager r env' shown eq_refl eq_refl
             ltac:(eexists; reflexivity) Hreq); [|discriminate].
    vm_compute in Hreq. by inversion Hreq.
Defined.

(** C8 as stated fails: a denial is not always persisted, and then a
    second request for the same domain does not find it.  A
    PermissionManager inside an extension writes the denial to
    [chrome.storage.local] and reads [localStorage], so the second request
    is a first time again; a PermissionManager that does not ask the user
    ([autoShowUI] false) denies without storing anything; and a provider
    of [createProvider] asked by a page for the domain ["__proto__"]
    stores no record of the denial. *)
Lemma C8_denial_not_always_persisted :
  let extension :=
    {| window := Some {| hostname := Some "example.com"; confirm := fun _ => false |};
       localStorage := Some {| permissionsItem := None; webAgentContextItem := None |};
       chromeStorageLocal := Some None |} in
  let silent := {| PermissionManager.cfg_autoShowUI := Some false;
                   PermissionManager.cfg_defaultPermissions := None |} in
  let page := browser None None in
  let app := {| appName := "Notes"; appId := "notes"; app_domain := Some "__proto__";
                requestedCapabilities := None |} in
  let first := PermissionManager.requestPermission defaultManager extension 7 sampleApp in
  let unasked := PermissionManager.requestPermission silent page 7 sampleApp in
  (res_granted first.1.1 = false /\ isFirstTime first.1.1 = true
   /\ PermissionManager.getStoredPermissions first.1.2 !! "example.com" = None
   /\ isFirstTime
        (PermissionManager.requestPermission defaultManager first.1.2 8 sampleApp).1.1
      = true)
  /\ (res_granted unasked.1.1 = false /\ isFirstTime unasked.1.1 = true
      /\ unasked.1.2 = page
      /\ isFirstTime (PermissionManager.requestPermission silent unasked.1.2 8 sampleApp).1.1
         = true)
  /\ (out ← Provider.requestPermission page 7 app;
      Returns (res_granted out.1.1,
               Provider.getStoredPermissions out.1.2 !! "__proto__"))
     = Returns (false, None).
Proof. vm_compute. split_and!; done. Qed.

(* ===================================================================== *)
(** * Exceptions *)
(* ===================================================================== *)

Lemma all_of_returns {A : Type} (l : list (Outcome A)) :
  (forall m, m ∈ l -> exists a, m = Returns a) -> exists rs, Js.all l = Returns rs.
Proof.
  induction l as [|m r IH]; intros H; simpl; [by eauto|].
  destruct (H m) as [a ->]; [apply elem_of_cons; by left|].
  destruct IH as [rs ->]; [|by eauto].
  intros m' Hm'. apply H. apply elem_of_cons. by right.
Qed.

Lemma selectProvider_elem providers pid p :
  Registry.selectProvider providers pid = Some p -> p ∈ values providers.
Proof.
  assert (head (values providers) = Some p -> p ∈ values providers) as Hhead.
  { destruct providers as [|[k q] rest]; simpl; [done|].
    intros [= ->]. apply elem_of_cons. by left. }
  assert (forall k, Js.get k providers = Some p -> p ∈ values providers) as Hget.
  { intros k Hk. apply get_Some_elem in Hk. apply list_elem_of_fmap. by exists (k, p). }
  destruct pid as [s|]; simpl; [|done].
  destruct (truthy_str s); [apply Hget|done].
Qed.

Lemma find_elem {A : Type} (f : A -> bool) (l : list A) (x : A) :
  find f l = Some x -> x ∈ l.
Proof.
  intros H. apply find_some in H as [H _]. by apply list_elem_of_In.
Qed.

Lemma find_first {A : Type} (f : A -> bool) (l1 l2 : list A) (x : A) :
  Forall (fun y => f y = false) l1 -> f x = true ->
  find f (l1 ++ x :: l2)%list = Some x.
Proof.
  induction 1 as [|y r Hy Hr IH]; intros Hx; simpl.
  - by rewrite Hx.
  - rewrite Hy. by apply IH.
Qed.

Lemma find_none_all {A : Type} (f : A -> bool) (l : list A) :
  Forall (fun y => f y = false) l -> find f l = None.
Proof. induction 1 as [|y r Hy Hr IH]; simpl; [done|]. by rewrite Hy. Qed.

Lemma writeTarget_elem providers (pid : option string) (f : MemoryProvider.t -> bool) p :
  (if truthy_ostr pid then Js.get (default "" pid) providers
   else find f (values providers)) = Some p ->
  p ∈ values providers.
Proof.
  destruct (truthy_ostr pid).
  - intros Hk. apply get_Some_elem in Hk. apply list_elem_of_fmap.
    by exists (default "" pid, p).
  - apply find_elem.
Qed.

(** Calls routed by a registry to providers built by [createProvider]
    return. *)
Lemma sdk_registry_returns (providers : Registry.Providers) :
  (forall p, p ∈ values providers -> sdkBuilt p) ->
  forall now options pid c o mems src,
    (exists r, Registry.getContext providers now options pid = Returns r)
    /\ (exists r, ExtensionSDK.getAggregatedContext providers now options = Returns r)
    /\ (exists r, RegistryManager.getAggregatedContext providers now options = Returns r)
    /\ (exists r, ExtensionSDK.provideContext providers c o pid = Returns r)
    /\ (exists r, ExtensionSDK.contributeMemory providers mems src pid = Returns r).
Proof.
  intros Hsdk now options pid c o mems src.
  assert (forall merge,
            exists r, Registry.getAggregatedContextWith merge providers now options
                      = Returns r) as Hagg.
  { intros merge. unfold Registry.getAggregatedContextWith.
    case_bool_decide; [by eauto|].
    destruct (all_of_returns
                ((fun p => MemoryProvider.getContext p options)
                   <$> Registry.availableProviders providers)) as [rs ->].
    - intros m Hm. apply list_elem_of_fmap in Hm as (p & -> & Hp).
      apply list_elem_of_filter in Hp as [_ Hp].
      destruct (Hsdk p Hp) as (cfg & gcd & h & sl & env & t & ->). simpl. by eauto.
    - simpl. case_bool_decide; by eauto. }
  split_and!.
  - unfold Registry.getContext.
    destruct (Registry.selectProvider providers pid) as [p|] eqn:Hp; [|by eauto].
    apply selectProvider_elem in Hp.
    destruct (Hsdk p Hp) as (cfg & gcd & h & sl & env & t & ->). simpl. by eauto.
  - apply Hagg.
  - apply Hagg.
  - unfold ExtensionSDK.provideContext.
    destruct (if truthy_ostr pid then _ else _) as [p|] eqn:Hp; simpl; [|by eauto].
    apply writeTarget_elem in Hp.
    destruct (Hsdk p Hp) as (cfg & gcd & h & sl & env & t & ->). simpl.
    destruct (negb _); simpl; by eauto.
  - unfold ExtensionSDK.contributeMemory.
    destruct (if truthy_ostr pid then _ else _) as [p|] eqn:Hp; simpl; [|by eauto].
    apply writeTarget_elem in Hp.
    destruct (Hsdk p Hp) as (cfg & gcd & h & sl & env & t & ->). simpl.
    destruct (negb _); simpl; by eauto.
Qed.

(** The registry of the RegistryManager turns an exception of any
    provider's write methods into a [PROVIDER_ERROR] result. *)
Lemma RegistryManager_write_returns (providers : Registry.Providers) c o mems src pid :
  (exists r, RegistryManager.provideContext providers c o pid = Returns r
             /\ forall p provide e,
                  (if truthy_ostr pid then Js.get (default "" pid) providers
                   else find exposesProvideContext (values providers)) = Some p ->
                  MemoryProvider.provideContext p = Some provide ->
                  provide c o = Throws e ->
                  cp_success r = false /\ code <$> cp_error r = Some PROVIDER_ERROR)
  /\ (exists r, RegistryManager.contributeMemory providers mems src pid = Returns r
                /\ forall p contribute e,
                     (if truthy_ostr pid then Js.get (default "" pid) providers
                      else find exposesContributeMemory (values providers)) = Some p ->
                     MemoryProvider.contributeMemory p = Some contribute ->
                     contribute mems src = Throws e ->
                     cp_success r = false /\ code <$> cp_error r = Some PROVIDER_ERROR).
Proof.
  split.
  - unfold RegistryManager.provideContext.
    destruct (if truthy_ostr pid then _ else _) as [p|]; simpl.
    + destruct (MemoryProvider.provideContext p) as [provide|] eqn:Hprov.
      * eexists. split; [reflexivity|].
        intros p' provide' e [= <-]. rewrite Hprov. intros [= <-] He.
        by rewrite He.
      * eexists. split; [reflexivity|].
        intros p' provide' e [= <-]. by rewrite Hprov.
    + eexists. split; [reflexivity|]. done.
  - unfold RegistryManager.contributeMemory.
    destruct (if truthy_ostr pid then _ else _) as [p|]; simpl.
    + destruct (MemoryProvider.contributeMemory p) as [contribute|] eqn:Hcon.
      * eexists. split; [reflexivity|].
        intros p' contribute' e [= <-]. rewrite Hcon. intros [= <-] He.
        by rewrite He.
      * eexists. split; [reflexivity|].
        intros p' contribute' e [= <-]. by rewrite Hcon.
    + eexists. split; [reflexivity|]. done.
Qed.

(** The read path of [createProvider]: an exception of the context source
    or of the permission check becomes a failed result that carries the
    message. *)
Lemma getContext_source_throws config getContextData env now options e :
  Provider.isPermissionGranted env (Some (currentDomain env)) (Some CapRead)
  = Returns true ->
  getContextData options = Throws e ->
  Provider.getContext config getContextData env now options
  = Provider.failed config now (message_or e "Unknown provider error").
Proof.
  intros Hperm Hsrc. unfold Provider.getContext. rewrite Hperm. simpl.
  by rewrite Hsrc.
Qed.

Lemma getContext_check_throws config getContextData env now options e :
  Provider.isPermissionGranted env (Some (currentDomain env)) (Some CapRead)
  = Throws e ->
  Provider.getContext config getContextData env now options
  = Provider.failed config now (message_or e "Unknown provider error").
Proof. intros Hperm. unfold Provider.getContext. by rewrite Hperm. Qed.

Lemma convert_failed now config msg pid :
  let r := convertToContextResult now (Provider.failed config now msg) pid in
  cr_success r = false
  /\ cr_data r = None
  /\ (msg ≠ "" -> code <$> cr_error r = Some PROVIDER_ERROR
                  /\ message <$> cr_error r = Some msg).
Proof.
  simpl. split_and!; [done|done|].
  intros Hmsg. apply truthy_str_nonempty in Hmsg.
  unfold convertToContextResult. simpl. by rewrite Hmsg.
Qed.

(** The write path: an exception of the custom handler is swallowed. *)
Lemma handler_exception_swallowed config handler stringifiedLength env now c options e :
  handler c options = Throws e ->
  Provider.handleWebAgentContext config (Some handler) stringifiedLength env now c options
  = Provider.handleWebAgentContext config None stringifiedLength env now c options.
Proof.
  intros Hh. unfold Provider.handleWebAgentContext, Provider.runHandler.
  by rewrite Hh.
Qed.

(** The write path: any other exception becomes a [PROVIDER_ERROR]
    result and nothing is stored. *)
Lemma handle_body_throws config handler stringifiedLength env now c options :
  (forall e,
      Provider.isPermissionGranted env (Some (wac_domain c)) (Some CapWrite) = Throws e ->
      Provider.handleWebAgentContext config handler stringifiedLength env now c options
      = (Provider.rejection now c None
           {| code := PROVIDER_ERROR; message := message_or e "Unknown error occurred";
              recoverable := false; suggestedAction := None |}, env))
  /\ (forall e,
      Provider.isPermissionGranted env (Some (wac_domain c)) (Some CapWrite)
      = Returns true ->
      Provider.agentTypeRefused config c = false ->
      stringifiedLength c = Throws e ->
      Provider.handleWebAgentContext config handler stringifiedLength env now c options
      = (Provider.rejection now c None
           {| code := PROVIDER_ERROR; message := message_or e "Unknown error occurred";
              recoverable := false; suggestedAction := None |}, env)).
Proof.
  split.
  - intros e Hperm. unfold Provider.handleWebAgentContext. by rewrite Hperm.
  - intros e Hperm Hagent Hsize. unfold Provider.handleWebAgentContext.
    rewrite Hperm. simpl. by rewrite Hagent, Hsize.
Qed.

(** C5 (as amended).  A provider built by [createProvider] turns every
    exception into a result, and so do the registry calls routed to such
    providers.  On the read path an exception of the context source, or
    of the permission check, gives [success] false with the exception's
    message, which the registry's [getContext] reports under the code
    [PROVIDER_ERROR] (when the message is not empty).  On the write path
    an exception of the custom handler is swallowed: the call ends as it
    does without a handler; any other exception of the body (of the
    permission check, or of [JSON.stringify]) gives [success] false with
    code [PROVIDER_ERROR] and the exception's message, and stores nothing.
    [provideContext] and [contributeMemory] of the RegistryManager always
    return, and turn an exception of the provider they call (the one
    named by the id, or without an id the first that has the method) into
    a result with code [PROVIDER_ERROR]. *)
Theorem C5_exceptions_become_results :
  (forall providers,
      (forall p, p ∈ values providers -> sdkBuilt p) ->
      forall now options pid c o mems src,
        (exists r, Registry.getContext providers now options pid = Returns r)
        /\ (exists r, ExtensionSDK.getAggregatedContext providers now options = Returns r)
        /\ (exists r, RegistryManager.getAggregatedContext providers now options
                      = Returns r)
        /\ (exists r, ExtensionSDK.provideContext providers c o pid = Returns r)
        /\ (exists r, ExtensionSDK.contributeMemory providers mems src pid = Returns r)
        /\ (exists r, RegistryManager.provideContext providers c o pid = Returns r)
        /\ (exists r, RegistryManager.contributeMemory providers mems src pid = Returns r))
  /\ (forall config getContextData handler stringifiedLength env now options e rest,
      Provider.isPermissionGranted env (Some (currentDomain env)) (Some CapRead) = Throws e
      \/ (Provider.isPermissionGranted env (Some (currentDomain env)) (Some CapRead)
          = Returns true
          /\ getContextData options = Throws e) ->
      let msg := message_or e "Unknown provider error" in
      let p := Provider.createProvider config getContextData handler stringifiedLength
                 env now in
      Provider.getContext config getContextData env now options
      = Provider.failed config now msg
      /\ pr_success (Provider.failed config now msg) = false
      /\ pr_error (Provider.failed config now msg) = Some msg
      /\ exists r,
           Registry.getContext ((Provider.providerId config, p) :: rest) now options None
           = Returns r
           /\ cr_success r = false
           /\ (msg ≠ "" -> code <$> cr_error r = Some PROVIDER_ERROR
                           /\ message <$> cr_error r = Some msg))
  /\ (forall config handler stringifiedLength env now c options e,
      handler c options = Throws e ->
      Provider.handleWebAgentContext config (Some handler) stringifiedLength env now c
        options
      = Provider.handleWebAgentContext config None stringifiedLength env now c options)
  /\ (forall config handler stringifiedLength env now c options e,
      Provider.isPermissionGranted env (Some (wac_domain c)) (Some CapWrite) = Throws e
      \/ (Provider.isPermissionGranted env (Some (wac_domain c)) (Some CapWrite)
          = Returns true
          /\ Provider.agentTypeRefused config c = false
          /\ stringifiedLength c = Throws e) ->
      let out := Provider.handleWebAgentContext config handler stringifiedLength env now
                   c options in
      cp_success out.1 = false
      /\ code <$> cp_error out.1 = Some PROVIDER_ERROR
      /\ message <$> cp_error out.1 = Some (message_or e "Unknown error occurred")
      /\ out.2 = env)
  /\ (forall providers c o mems src,
      (forall pid,
          (exists r, RegistryManager.provideContext providers c o pid = Returns r)
          /\ (exists r, RegistryManager.contributeMemory providers mems src pid
                        = Returns r))
      /\ (forall id p provide e,
            id ≠ "" -> Registry.getProvider providers id = Some p ->
            MemoryProvider.provideContext p = Some provide ->
            provide c o = Throws e ->
            exists r, RegistryManager.provideContext providers c o (Some id) = Returns r
                      /\ cp_success r = false
                      /\ code <$> cp_error r = Some PROVIDER_ERROR)
      /\ (forall id p contribute e,
            id ≠ "" -> Registry.getProvider providers id = Some p ->
            MemoryProvider.contributeMemory p = Some contribute ->
            contribute mems src = Throws e ->
            exists r, RegistryManager.contributeMemory providers mems src (Some id)
                      = Returns r
                      /\ cp_success r = false
                      /\ code <$> cp_error r = Some PROVIDER_ERROR)
      /\ (forall earlier p later provide e,
            values providers = (earlier ++ p :: later)%list ->
            Forall (fun q => exposesProvideContext q = false) earlier ->
            MemoryProvider.provideContext p = Some provide ->
            provide c o = Throws e ->
            exists r, RegistryManager.provideContext providers c o None = Returns r
                      /\ cp_success r = false
                      /\ code <$> cp_error r = Some PROVIDER_ERROR)
      /\ (forall earlier p later contribute e,
            values providers = (earlier ++ p :: later)%list ->
            Forall (fun q => exposesContributeMemory q = false) earlier ->
            MemoryProvider.contributeMemory p = Some contribute ->
            contribute mems src = Throws e ->
            exists r, RegistryManager.contributeMemory providers mems src None = Returns r
                      /\ cp_success r = false
                      /\ code <$> cp_error r = Some PROVIDER_ERROR)).
Proof.
  split_and!.
  - intros providers Hsdk now options pid c o mems src.
    destruct (sdk_registry_returns providers Hsdk now options pid c o mems src)
      as (H1 & H2 & H3 & H4 & H5).
    destruct (RegistryManager_write_returns providers c o mems src pid)
      as [(r6 & H6 & _) (r7 & H7 & _)].
    split_and!; by eauto.
  - intros config getContextData handler stringifiedLength env now options e rest
      Hthrow msg p.
    assert (Provider.getContext config getContextData env now options
            = Provider.failed config now msg) as Hget.
    { destruct Hthrow as [Hcheck|[Hperm Hsrc]].
      - by apply getContext_check_throws.
      - by apply getContext_source_throws. }
    split_and!; [done|done|done|].
    exists (convertToContextResult now (Provider.failed config now msg)
              (Provider.providerId config)).
    split.
    + unfold Registry.getContext. simpl. by rewrite Hget.
    + destruct (convert_failed now config msg (Provider.providerId config))
        as (Hs & _ & Hc).
      split; [done|]. intros Hmsg. by apply Hc.
  - intros. by eapply handler_exception_swallowed.
  - intros config handler stringifiedLength env now c options e Hthrow out.
    unfold out.
    destruct (handle_body_throws config handler stringifiedLength env now c options)
      as [Hcheck Hsize].
    destruct Hthrow as [Hperm|(Hperm & Hagent & Hlen)].
    + by rewrite (Hcheck e Hperm).
    + by rewrite (Hsize e Hperm Hagent Hlen).
  - intros providers c o mems src. split_and!.
    + intros pid.
      destruct (RegistryManager_write_returns providers c o mems src pid)
        as [(r & Hr & _) (r' & Hr' & _)].
      split; by eauto.
    + intros id p provide e Hid Hp Hprov He.
      destruct (RegistryManager_write_returns providers c o mems src (Some id))
        as [(r & Hr & Hrs) _].
      exists r. split; [done|]. eapply (Hrs p provide e); [|done|done].
      simpl. by rewrite (proj2 (truthy_str_nonempty id) Hid).
    + intros id p contribute e Hid Hp Hcon He.
      destruct (RegistryManager_write_returns providers c o mems src (Some id))
        as [_ (r & Hr & Hrs)].
      exists r. split; [done|]. eapply (Hrs p contribute e); [|done|done].
      simpl. by rewrite (proj2 (truthy_str_nonempty id) Hid).
    + intros earlier p later provide e Hsplit Hearlier Hprov He.
      destruct (RegistryManager_write_returns providers c o mems src None)
        as [(r & Hr & Hrs) _].
      exists r. split; [done|]. eapply (Hrs p provide e); [|done|done].
      simpl. rewrite Hsplit. apply find_first; [done|].
      unfold exposesProvideContext. rewrite Hprov. by apply bool_decide_eq_true_2.
    + intros earlier p later contribute e Hsplit Hearlier Hcon He.
      destruct (RegistryManager_write_returns providers c o mems src None)
        as [_ (r & Hr & Hrs)].
      exists r. split; [done|]. eapply (Hrs p contribute e); [|done|done].
      simpl. rewrite Hsplit. apply find_first; [done|].
      unfold exposesContributeMemory. rewrite Hcon. by apply bool_decide_eq_true_2.
Qed.

Lemma C5_exceptions_become_results_witness :
  let source := fun _ : option ContextOptions =>
                  Throws (A:=ContextData) (ErrorObj "source failed") in
  let env := browser (Some {[ "example.com" := grantedRecord true false ]}) None in
  let noMap := browser (Some {[ "example.com" := managerRecord ]}) None in
  let p := Provider.createProvider (sampleConfig None) source None sizeOk env 0 in
  (exists r,
      Registry.getContext [("demo", p)] 0 None None = Returns r
      /\ cr_success r = false
      /\ code <$> cr_error r = Some PROVIDER_ERROR)
  /\ Provider.getContext (sampleConfig None) source noMap 0 None
     = Provider.failed (sampleConfig None) 0 "Cannot read properties of undefined"
  /\ (exists r, ExtensionSDK.provideContext [("demo", p)] (sampleContext "agent" 1)
                  None None = Returns r)
  /\ Provider.handleWebAgentContext (sampleConfig None) (Some throwingHandler) sizeOk
       writable 5 (sampleContext "agent" 1) None
     = Provider.handleWebAgentContext (sampleConfig None) None sizeOk
         writable 5 (sampleContext "agent" 1) None
  /\ code <$> cp_error
               (Provider.handleWebAgentContext (sampleConfig None) None sizeFails
                  writable 5 (sampleContext "agent" 1) None).1
     = Some PROVIDER_ERROR
  /\ code <$> cp_error
               (Provider.handleWebAgentContext (sampleConfig None) None sizeOk
                  noMap 5 (sampleContext "agent" 1) None).1
     = Some PROVIDER_ERROR
  /\ (exists r,
        RegistryManager.provideContext [("p1", p1); ("broken", throwingProvider)]
          (sampleContext "agent" 1) None (Some "broken") = Returns r
        /\ code <$> cp_error r = Some PROVIDER_ERROR)
  /\ (exists r,
        RegistryManager.contributeMemory [("broken", throwingProvider)]
          [] "notes" None = Returns r
        /\ code <$> cp_error r = Some PROVIDER_ERROR).
Proof.
  intros source env noMap p.
  destruct C5_exceptions_become_results as (Hsdk & Hread & Hhandler & Hbody & Hmanager).
  split_and!.
  - destruct (Hread (sampleConfig None) source None sizeOk env 0 None
                (ErrorObj "source failed") [] (or_intror (conj eq_refl eq_refl)))
      as (_ & _ & _ & r & Hr & Hs & Hc).
    exists r. split_and!; [exact Hr|exact Hs|]. by apply Hc.
  - exact (proj1 (Hread (sampleConfig None) source None sizeOk noMap 0 None
                    (ErrorObj "Cannot read properties of undefined") []
                    (or_introl eq_refl))).
  - destruct (Hsdk [("demo", p)]) with (now := 0) (options := @None ContextOptions)
      (pid := @None string) (c := sampleContext "agent" 1)
      (o := @None WebAgentContextOptions) (mems := @nil Memory) (src := "")
      as (_ & _ & _ & Hprovide & _).
    + intros q Hq. apply list_elem_of_singleton in Hq. subst q.
      by exists (sampleConfig None), source, None, sizeOk, env, 0.
    + exact Hprovide.
  - exact (Hhandler (sampleConfig None) throwingHandler sizeOk writable 5
             (sampleContext "agent" 1) None (ErrorObj "handler failed") eq_refl).
  - exact (proj1 (proj2 (Hbody (sampleConfig None) None sizeFails writable 5
                           (sampleContext "agent" 1) None (ErrorObj "cyclic value")
                           (or_intror (conj eq_refl (conj eq_refl eq_refl)))))).
  - exact (proj1 (proj2 (Hbody (sampleConfig None) None sizeOk noMap 5
                           (sampleContext "agent" 1) None
                           (ErrorObj "Cannot read properties of undefined")
                           (or_introl eq_refl)))).
  - destruct (Hmanager [("p1", p1); ("broken", throwingProvider)]
                (sampleContext "agent" 1) None [] "")
      as (_ & Hid & _).
    destruct (Hid "broken" throwingProvider (fun _ _ => Throws (ErrorObj "boom"))
                (ErrorObj "boom") ltac:(discriminate) eq_refl eq_refl eq_refl)
      as (r & Hr & _ & Hc).
    exists r. by split.
  - destruct (Hmanager [("broken", throwingProvider)] (sampleContext "agent" 1) None
                [] "notes")
      as (_ & _ & _ & _ & Hfirst).
    destruct (Hfirst [] throwingProvider [] (fun _ _ => Throws (ErrorObj "boom"))
                (ErrorObj "boom") eq_refl ltac:(constructor) eq_refl eq_refl)
      as (r & Hr & _ & Hc).
    exists r. by split.
Defined.

(** C5 as stated fails: a handler that throws on the write path gives a
    successful result, and a registered provider whose [getContext] (or
    [provideContext], in the registry of index.ts) throws lets the
    exception reach the caller of the registry. *)
Lemma C5_exceptions_not_all_converted :
  cp_success
    (Provider.handleWebAgentContext (sampleConfig None) (Some throwingHandler) sizeOk
       writable 5 (sampleContext "agent" 1) None).1 = true
  /\ Registry.getContext [("broken", throwingProvider)] 0 None None
     = Throws (ErrorObj "boom")
  /\ ExtensionSDK.provideContext [("broken", throwingProvider)]
       (sampleContext "agent" 1) None None
     = Throws (ErrorObj "boom").
Proof. vm_compute. done. Qed.

(* ===================================================================== *)
(** * The write-back store: eviction *)
(* ===================================================================== *)

Lemma withContexts_set env s :
  is_Some (localStorage env) -> setWebAgentContextItem env s = withContexts env s.
Proof.
  intros [ls Hls]. unfold setWebAgentContextItem, withContexts. by rewrite Hls.
Qed.

Lemma withContexts_agree env env' s :
  window env' = window env -> chromeStorageLocal env' = chromeStorageLocal env ->
  (localStorage env' ≫= permissionsItem) = (localStorage env ≫= permissionsItem) ->
  withContexts env' s = withContexts env s.
Proof. unfold withContexts. by intros -> -> ->. Qed.

Lemma withContexts_twice env s s' :
  withContexts (withContexts env s) s' = withContexts env s'.
Proof. done. Qed.

Lemma inBrowser_withContexts env s : inBrowser env -> inBrowser (withContexts env s).
Proof. intros [Hw _]. split; [done|]. simpl. by eauto. Qed.

Lemma persistedContexts_withContexts env s : persistedContexts (withContexts env s) = s.
Proof. done. Qed.

Lemma storedPermissions_withContexts env s :
  inBrowser env ->
  Provider.getStoredPermissions (withContexts env s) = Provider.getStoredPermissions env.
Proof.
  intros [[w Hw] [ls Hls]]. unfold Provider.getStoredPermissions, withContexts. simpl.
  by rewrite Hw, Hls.
Qed.

Lemma isPermissionGranted_withContexts env s domain capability :
  inBrowser env ->
  Provider.isPermissionGranted (withContexts env s) domain capability
  = Provider.isPermissionGranted env domain capability.
Proof.
  intros Hb. unfold Provider.isPermissionGranted.
  by rewrite storedPermissions_withContexts.
Qed.

Lemma admissible_withContexts config sl env s c sz :
  inBrowser env -> admissible config sl env c sz ->
  admissible config sl (withContexts env s) c sz.
Proof.
  intros Hb (H1 & H2 & H3 & H4). split_and!; try done.
  by rewrite isPermissionGranted_withContexts.
Qed.

(** One accepted [provideContext]: the entries that have not expired are
    read, the oldest are evicted when the limit is reached, the new entry
    is stored under its id and marked as processed. *)
Lemma handleWebAgentContext_stores config handler sl env now c options sz :
  inBrowser env -> NoDup (keys (persistedContexts env)) ->
  admissible config sl env c sz ->
  let contextId := Provider.makeContextId c in
  Provider.handleWebAgentContext config handler sl env now c options
  = (default (Provider.accepted config now c contextId
                (Provider.expiryOf now c options) sz)
             (Provider.runHandler handler c options),
     withContexts env
       (Provider.markProcessed contextId
          (Js.set contextId (freshEntry now c options sz false)
             (Provider.evictOldest config (liveContexts now (persistedContexts env)))))).
Proof.
  intros Hb Hnd (Hperm & Hagent & Hsize & Hlarge) contextId.
  destruct (getStoredWebAgentContexts_browser env now Hb Hnd)
    as (Hret & _ & Hw & Hc & Hp & Hls).
  unfold Provider.handleWebAgentContext.
  rewrite Hperm. simpl. rewrite Hagent, Hsize. simpl. rewrite Hlarge.
  destruct (Provider.getStoredWebAgentContexts env now) as [stored env1].
  simpl in *. subst stored. fold contextId.
  f_equal. unfold Provider.storeWebAgentContexts.
  rewrite (withContexts_set env1) by done.
  rewrite withContexts_set by (simpl; by eauto).
  rewrite withContexts_twice. by apply withContexts_agree.
Qed.

Lemma byReceivedAt_before a b :
  before Provider.byReceivedAt a b <-> receivedAt a.2 <= receivedAt b.2.
Proof.
  unfold before, Provider.byReceivedAt.
  change 0%Q with (inject_Z 0). rewrite <- Zle_Qle. lia.
Qed.

Lemma byReceivedAt_total a b :
  ~ before Provider.byReceivedAt a b -> before Provider.byReceivedAt b a.
Proof. rewrite !byReceivedAt_before. lia. Qed.

Lemma byReceivedAt_trans a b c :
  before Provider.byReceivedAt a b -> before Provider.byReceivedAt b c ->
  before Provider.byReceivedAt a c.
Proof. rewrite !byReceivedAt_before. lia. Qed.

Lemma filter_none {A : Type} (P : A -> Prop) `{!forall x, Decision (P x)} (l : list A) :
  Forall (fun x => ~ P x) l -> base.filter P l = [].
Proof.
  induction 1 as [|x r Hx Hr IH]; [done|]. by rewrite filter_cons_False.
Qed.

(** In a list with distinct keys, dropping the entries whose key is among
    the first [k] keys leaves the entries after the first [k]. *)
Lemma filter_notin_take {V : Type} (l : OMap V) (k : nat) :
  NoDup (keys l) ->
  base.filter (fun e => e.1 ∉ keys (take k l)) l = drop k l.
Proof.
  intros Hnd.
  rewrite <- (take_drop k l) in Hnd. unfold keys in Hnd. rewrite fmap_app in Hnd.
  apply NoDup_app in Hnd as (_ & Hdisj & _).
  transitivity (base.filter (fun e => e.1 ∉ keys (take k l)) (take k l ++ drop k l)%list);
    [by rewrite take_drop|].
  rewrite filter_app.
  rewrite filter_none, filter_all; [done| |].
  - apply Forall_forall. intros e He Hin. apply (Hdisj e.1 Hin).
    apply list_elem_of_fmap. by exists e.
  - apply Forall_forall. intros e He Hnin. apply Hnin.
    apply list_elem_of_fmap. by exists e.
Qed.

(** Below the limit nothing is evicted. *)
Lemma evictOldest_below config (s : WebAgentContextStorage) :
  Z.of_nat (length s) < Provider.storageLimit config ->
  Provider.evictOldest config s = s.
Proof.
  intros Hlt. unfold Provider.evictOldest, entries.
  by rewrite bool_decide_eq_false_2 by lia.
Qed.

(** At or beyond the limit the oldest entries are evicted until one slot
    is free: [limit - 1] entries stay, in their order, and no evicted
    entry was received after an entry that stays. *)
Lemma evictOldest_at_limit config (s : WebAgentContextStorage) :
  NoDup (keys s) ->
  1 <= Provider.storageLimit config <= Z.of_nat (length s) ->
  let kept := Provider.evictOldest config s in
  Z.of_nat (length kept) = Provider.storageLimit config - 1
  /\ kept `sublist_of` s
  /\ (forall evicted stays,
        evicted ∈ s -> evicted ∉ kept -> stays ∈ kept ->
        receivedAt evicted.2 <= receivedAt stays.2).
Proof.
  intros Hnd [Hlim1 Hlim2]. cbv zeta.
  unfold Provider.evictOldest, entries.
  rewrite bool_decide_eq_true_2 by lia.
  set (sorted := sort Provider.byReceivedAt s).
  set (k := Z.of_nat (length s) - Provider.storageLimit config + 1).
  assert (sorted ≡ₚ s) as Hperm by apply sort_perm.
  assert (NoDup (keys sorted)) as Hnds.
  { unfold keys. by rewrite Hperm. }
  rewrite slice0_nonneg by lia.
  rewrite delete_all_filter by done.
  set (removed := take (Z.to_nat k) sorted).
  assert (base.filter (fun e => e.1 ∉ keys removed) s ≡ₚ drop (Z.to_nat k) sorted)
    as Hkept.
  { rewrite <- (filter_notin_take sorted) by done. fold removed. by rewrite Hperm. }
  split_and!.
  - rewrite Hkept, length_drop. unfold sorted. rewrite sort_length. lia.
  - apply sublist_filter.
  - intros evicted stays He Hne Hs.
    rewrite Hkept in Hne, Hs. rewrite <- Hperm in He.
    rewrite <- (take_drop (Z.to_nat k) sorted) in He.
    apply elem_of_app in He as [He|He]; [|done].
    apply byReceivedAt_before.
    eapply (StronglySorted_app_1_elem_of _ (take (Z.to_nat k) sorted)
              (drop (Z.to_nat k) sorted)); [|done|done].
    rewrite take_drop. apply sort_sorted.
    + apply byReceivedAt_total.
    + apply byReceivedAt_trans.
Qed.

Lemma get_snoc {V : Type} (m : OMap V) k v :
  Js.get k m = None -> Js.get k (m ++ [(k, v)])%list = Some v.
Proof.
  induction m as [|[k' v'] r IH]; simpl.
  - by rewrite String.eqb_refl.
  - destruct (String.eqb_spec k k'); [done|]. apply IH.
Qed.

Lemma set_snoc {V : Type} (m : OMap V) k v v' :
  Js.get k m = None -> Js.set k v' (m ++ [(k, v)])%list = (m ++ [(k, v')])%list.
Proof.
  induction m as [|[k0 v0] r IH]; simpl.
  - by rewrite String.eqb_refl.
  - destruct (String.eqb_spec k k0); [done|]. intros H. by rewrite IH.
Qed.

Lemma notExpired_fresh t now c options sz done :
  t < Provider.expiryOf now c options ->
  Provider.notExpired t (freshEntry now c options sz done) = true.
Proof.
  intros Ht. unfold Provider.notExpired. simpl.
  rewrite bool_decide_eq_true_2 by done. apply orb_true_r.
Qed.

(** An accepted [provideContext] under a new id, when nothing stored has
    expired: the store after the call is what the eviction leaves,
    followed by the new entry. *)
Lemma put_step config handler sl env now c options sz (s : WebAgentContextStorage) :
  inBrowser env -> persistedContexts env = s -> NoDup (keys s) ->
  admissible config sl env c sz ->
  Forall (fun e => Provider.notExpired now e.2 = true) s ->
  Provider.makeContextId c ∉ keys (Provider.evictOldest config s) ->
  (Provider.handleWebAgentContext config handler sl env now c options).2
  = withContexts env
      (Provider.evictOldest config s
       ++ [(Provider.makeContextId c, freshEntry now c options sz true)])%list.
Proof.
  intros Hb Hs Hnd Hadm Hlive Hnew.
  rewrite (handleWebAgentContext_stores config handler sl env now c options sz)
    by (by rewrite ?Hs).
  simpl. f_equal. rewrite Hs. unfold liveContexts. rewrite filter_all by done.
  apply get_None_keys in Hnew.
  rewrite set_absent by done. unfold Provider.markProcessed.
  rewrite get_snoc by done. simpl. by rewrite set_snoc.
Qed.

(** With three stored entries received in this order and a limit of 3,
    the eviction removes the first. *)
Lemma evictOldest_three config k1 k2 k3 (d1 d2 d3 : StoredContext) :
  Provider.storageLimit config = 3 ->
  receivedAt d1 <= receivedAt d2 -> receivedAt d2 <= receivedAt d3 ->
  Provider.evictOldest config [(k1, d1); (k2, d2); (k3, d3)]
  = Js.delete k1 [(k1, d1); (k2, d2); (k3, d3)].
Proof.
  intros Hlimit H12 H23. unfold Provider.evictOldest, entries. rewrite Hlimit.
  rewrite bool_decide_eq_true_2 by (simpl; lia).
  rewrite sort_of_sorted; [done|].
  repeat constructor; by apply byReceivedAt_before.
Qed.

(** C6.  On an accepted [provideContext] the entries that have not expired
    are counted; when there are as many as the storage limit or more, the
    oldest by [receivedAt] are evicted until one slot is free, and then the
    new entry is stored: below the limit nothing is evicted; at the limit
    [limit - 1] entries stay, in their order and unchanged, and no evicted
    entry was received after one that stays.  With a limit of 3 and four
    calls under distinct ids, none expiring meanwhile, the store holds the
    entries of the last three calls and not that of the first, and a later
    read returns them. *)
Theorem C6_write_back_eviction
    (config : Provider.ProviderConfig)
    (handler : option Provider.WebAgentContextHandler)
    (sl : WebAgentContext -> Outcome Z) :
  (forall env now c options sz,
      inBrowser env -> NoDup (keys (persistedContexts env)) ->
      admissible config sl env c sz ->
      1 <= Provider.storageLimit config ->
      let live := liveContexts now (persistedContexts env) in
      let kept := Provider.evictOldest config live in
      let contextId := Provider.makeContextId c in
      let after :=
        persistedContexts
          (Provider.handleWebAgentContext config handler sl env now c options).2 in
      after = Provider.markProcessed contextId
                (Js.set contextId (freshEntry now c options sz false) kept)
      /\ Js.get contextId after = Some (freshEntry now c options sz true)
      /\ (forall k, k ≠ contextId -> Js.get k after = Js.get k kept)
      /\ (Z.of_nat (length live) < Provider.storageLimit config -> kept = live)
      /\ (Provider.storageLimit config <= Z.of_nat (length live) ->
          Z.of_nat (length kept) = Provider.storageLimit config - 1
          /\ kept `sublist_of` live
          /\ forall evicted stays,
               evicted ∈ live -> evicted ∉ kept -> stays ∈ kept ->
               receivedAt evicted.2 <= receivedAt stays.2))
  /\ (forall env c1 c2 c3 c4 o1 o2 o3 o4 sz1 sz2 sz3 sz4 t1 t2 t3 t4,
      Provider.storageLimit config = 3 ->
      inBrowser env -> persistedContexts env = [] ->
      admissible config sl env c1 sz1 -> admissible config sl env c2 sz2 ->
      admissible config sl env c3 sz3 -> admissible config sl env c4 sz4 ->
      NoDup [Provider.makeContextId c1; Provider.makeContextId c2;
             Provider.makeContextId c3; Provider.makeContextId c4] ->
      t1 <= t2 <= t3 -> t3 <= t4 ->
      t4 < Provider.expiryOf t1 c1 o1 -> t4 < Provider.expiryOf t2 c2 o2 ->
      t4 < Provider.expiryOf t3 c3 o3 ->
      let put := fun e t c o =>
                   (Provider.handleWebAgentContext config handler sl e t c o).2 in
      let env4 := put (put (put (put env t1 c1 o1) t2 c2 o2) t3 c3 o3) t4 c4 o4 in
      let last3 := [ (Provider.makeContextId c2, freshEntry t2 c2 o2 sz2 true);
                     (Provider.makeContextId c3, freshEntry t3 c3 o3 sz3 true);
                     (Provider.makeContextId c4, freshEntry t4 c4 o4 sz4 true) ] in
      persistedContexts env4 = last3
      /\ Js.get (Provider.makeContextId c1) (persistedContexts env4) = None
      /\ forall t,
           t < Provider.expiryOf t2 c2 o2 -> t < Provider.expiryOf t3 c3 o3 ->
           t < Provider.expiryOf t4 c4 o4 ->
           (Provider.getStoredWebAgentContexts env4 t).1 = last3).
Proof.
  split.
  - intros env now c options sz Hb Hnd Hadm Hlimit live kept contextId after.
    assert (NoDup (keys live)) as Hndl by by apply NoDup_keys_filter.
    assert (NoDup (keys kept)) as Hndk.
    { unfold kept, Provider.evictOldest, entries. case_bool_decide; [|done].
      rewrite delete_all_filter by done. by apply NoDup_keys_filter. }
    assert (after = Provider.markProcessed contextId
                      (Js.set contextId (freshEntry now c options sz false) kept))
      as Hafter.
    { unfold after.
      by rewrite (handleWebAgentContext_stores config handler sl env now c options sz). }
    split_and!.
    + done.
    + rewrite Hafter. unfold Provider.markProcessed.
      rewrite get_set_eq. simpl. by rewrite get_set_eq.
    + intros k Hk. rewrite Hafter. unfold Provider.markProcessed.
      rewrite get_set_eq. by rewrite !get_set_ne.
    + apply evictOldest_below.
    + intros Hfull. by apply evictOldest_at_limit.
  - intros env c1 c2 c3 c4 o1 o2 o3 o4 sz1 sz2 sz3 sz4 t1 t2 t3 t4
      Hlimit Hb Hempty Ha1 Ha2 Ha3 Ha4 Hids [H12 H23] H34 He1 He2 He3 put env4 last3.
    set (id1 := Provider.makeContextId c1) in *.
    set (id2 := Provider.makeContextId c2) in *.
    set (id3 := Provider.makeContextId c3) in *.
    set (id4 := Provider.makeContextId c4) in *.
    set (E1 := freshEntry t1 c1 o1 sz1 true).
    set (E2 := freshEntry t2 c2 o2 sz2 true).
    set (E3 := freshEntry t3 c3 o3 sz3 true).
    set (E4 := freshEntry t4 c4 o4 sz4 true).
    apply NoDup_cons in Hids as [Hn1 Hids].
    apply NoDup_cons in Hids as [Hn2 Hids].
    apply NoDup_cons in Hids as [Hn3 _].
    repeat rewrite not_elem_of_cons in Hn1.
    repeat rewrite not_elem_of_cons in Hn2.
    repeat rewrite not_elem_of_cons in Hn3.
    destruct Hn1 as (N12 & N13 & N14 & _), Hn2 as (N23 & N24 & _), Hn3 as (N34 & _).
    (* first call *)
    assert (put env t1 c1 o1 = withContexts env [(id1, E1)]) as H1.
    { unfold put.
      rewrite (put_step config handler sl env t1 c1 o1 sz1 []); try done.
      - by rewrite evictOldest_below by (rewrite Hlimit; simpl; lia).
      - constructor.
      - rewrite evictOldest_below by (rewrite Hlimit; simpl; lia). apply not_elem_of_nil. }
    (* second call *)
    assert (put (put env t1 c1 o1) t2 c2 o2 = withContexts env [(id1, E1); (id2, E2)])
      as H2.
    { rewrite H1. unfold put.
      rewrite (put_step config handler sl _ t2 c2 o2 sz2 [(id1, E1)]).
      - by rewrite evictOldest_below by (rewrite Hlimit; simpl; lia).
      - by apply inBrowser_withContexts.
      - done.
      - repeat constructor. apply not_elem_of_nil.
      - by apply admissible_withContexts.
      - repeat constructor. apply notExpired_fresh. lia.
      - rewrite evictOldest_below by (rewrite Hlimit; simpl; lia).
        simpl. rewrite not_elem_of_cons. split; [by apply not_eq_sym|apply not_elem_of_nil]. }
    (* third call *)
    assert (put (put (put env t1 c1 o1) t2 c2 o2) t3 c3 o3
            = withContexts env [(id1, E1); (id2, E2); (id3, E3)]) as H3.
    { rewrite H2. unfold put.
      rewrite (put_step config handler sl _ t3 c3 o3 sz3 [(id1, E1); (id2, E2)]).
      - by rewrite evictOldest_below by (rewrite Hlimit; simpl; lia).
      - by apply inBrowser_withContexts.
      - done.
      - simpl. repeat constructor; rewrite ?not_elem_of_cons;
          try apply not_elem_of_nil. split; [done|apply not_elem_of_nil].
      - by apply admissible_withContexts.
      - repeat constructor; apply notExpired_fresh; lia.
      - rewrite evictOldest_below by (rewrite Hlimit; simpl; lia).
        simpl. rewrite !not_elem_of_cons.
        split_and!; [by apply not_eq_sym|by apply not_eq_sym|apply not_elem_of_nil]. }
    (* fourth call: the store is full *)
    assert (Provider.evictOldest config [(id1, E1); (id2, E2); (id3, E3)]
            = [(id2, E2); (id3, E3)]) as Hevict.
    { rewrite evictOldest_three by (simpl; done || lia).
      simpl. by rewrite String.eqb_refl. }
    assert (env4 = withContexts env last3) as H4.
    { unfold env4. rewrite H3. unfold put.
      rewrite (put_step config handler sl _ t4 c4 o4 sz4
                 [(id1, E1); (id2, E2); (id3, E3)]).
      - by rewrite Hevict.
      - by apply inBrowser_withContexts.
      - done.
      - simpl. repeat constructor; rewrite ?not_elem_of_cons;
          try apply not_elem_of_nil.
        + split_and!; [done|done|apply not_elem_of_nil].
        + split; [done|apply not_elem_of_nil].
      - by apply admissible_withContexts.
      - repeat constructor; apply notExpired_fresh; lia.
      - rewrite Hevict. simpl. rewrite !not_elem_of_cons.
        split_and!; [by apply not_eq_sym|by apply not_eq_sym|apply not_elem_of_nil]. }
    rewrite H4. rewrite persistedContexts_withContexts. split_and!.
    + done.
    + apply get_None_keys. simpl. rewrite !not_elem_of_cons.
      split_and!; [done|done|done|apply not_elem_of_nil].
    + intros t Ht2 Ht3 Ht4.
      destruct (getStoredWebAgentContexts_browser (withContexts env last3) t) as [-> _].
      * by apply inBrowser_withContexts.
      * simpl. repeat constructor; rewrite ?not_elem_of_cons;
          try apply not_elem_of_nil.
        -- split_and!; [done|done|apply not_elem_of_nil].
        -- split; [done|apply not_elem_of_nil].
      * rewrite persistedContexts_withContexts. apply filter_all.
        repeat constructor; by apply notExpired_fresh.
Qed.

Lemma C6_write_back_eviction_witness :
  let config := sampleConfig (Some 3) in
  let put := fun e t c =>
               (Provider.handleWebAgentContext config None sizeOk e t c None).2 in
  let env4 :=
    put (put (put (put writable 1 (sampleContext "a" 1)) 2 (sampleContext "b" 2))
           3 (sampleContext "c" 3)) 4 (sampleContext "d" 4) in
  Js.get "a_default_1" (persistedContexts (put writable 1 (sampleContext "a" 1)))
  = Some (freshEntry 1 (sampleContext "a" 1) None 100 true)
  /\ keys (persistedContexts env4) = ["b_default_2"; "c_default_3"; "d_default_4"]
  /\ Js.get "a_default_1" (persistedContexts env4) = None.
Proof.
  intros config put env4.
  destruct (C6_write_back_eviction config None sizeOk) as [Hone H].
  split.
  { destruct (Hone writable 1 (sampleContext "a" 1) None 100) as (_ & Hget & _).
    - split; eexists; reflexivity.
    - constructor.
    - by vm_compute.
    - by vm_compute.
    - exact Hget. }
  destruct (H writable
              (sampleContext "a" 1) (sampleContext "b" 2)
              (sampleContext "c" 3) (sampleContext "d" 4)
              None None None None 100 100 100 100 1 2 3 4)
    as (Hstore & Hgone & _).
  - reflexivity.
  - split; eexists; reflexivity.
  - reflexivity.
  - by vm_compute.
  - by vm_compute.
  - by vm_compute.
  - by vm_compute.
  - apply (bool_decide_unpack _). by vm_compute.
  - lia.
  - lia.
  - by vm_compute.
  - by vm_compute.
  - by vm_compute.
  - split; [|exact Hgone]. fold config in Hstore.
    change (persistedContexts env4) with
      (persistedContexts
         (put (put (put (put writable 1 (sampleContext "a" 1)) 2 (sampleContext "b" 2))
                 3 (sampleContext "c" 3)) 4 (sampleContext "d" 4))).
    unfold put. rewrite Hstore. reflexivity.
Defined.

(* ===================================================================== *)
(** * Facts about [trim] *)
(* ===================================================================== *)

Lemma append_cons (c : ascii) (r s : string) : String c r ++ s = String c (r ++ s).
Proof. done. Qed.

Lemma append_assoc (s1 s2 s3 : string) : (s1 ++ s2) ++ s3 = s1 ++ (s2 ++ s3).
Proof. induction s1 as [|c r IH]; [done|]. rewrite !append_cons. by f_equal. Qed.

Lemma rev_app_app (s1 s2 : string) : String.rev_app s1 s2 = String.rev s1 ++ s2.
Proof.
  unfold String.rev. revert s2. induction s1 as [|c r IH]; intros s2; simpl; [done|].
  rewrite (IH (String c "")), IH. by rewrite append_assoc.
Qed.

Lemma rev_cons (c : ascii) (s : string) : String.rev (String c s) = String.rev s ++ String c "".
Proof. unfold String.rev at 1. simpl. apply rev_app_app. Qed.

Lemma rev_snoc (c : ascii) (s : string) : String.rev (s ++ String c "") = String c (String.rev s).
Proof.
  induction s as [|d r IH]; [done|].
  rewrite append_cons, !rev_cons, IH. done.
Qed.

Lemma trimStart_snoc (s : string) (c : ascii) :
  trimStart (s ++ String c "")
  = if String.eqb (trimStart s) "" then (if Ascii.is_space c then "" else String c "")
    else trimStart s ++ String c "".
Proof.
  induction s as [|d r IH]; [done|].
  rewrite append_cons. simpl.
  destruct (Ascii.is_space d); [apply IH|done].
Qed.

(** [trimEnd], read from the front. *)
Lemma trimEnd_cons (c : ascii) (s : string) :
  trimEnd (String c s)
  = if String.eqb (trimEnd s) "" then (if Ascii.is_space c then "" else String c "")
    else String c (trimEnd s).
Proof.
  unfold trimEnd. rewrite rev_cons, trimStart_snoc.
  destruct (trimStart (String.rev s)) as [|d r] eqn:E; simpl.
  - by destruct (Ascii.is_space c).
  - rewrite rev_snoc.
    destruct (String.rev (String d r)) as [|e t] eqn:E2; [|done].
    rewrite rev_cons in E2. by destruct (String.rev r).
Qed.

Lemma trimStart_blank (s : string) : trimStart s = "" <-> blank s = true.
Proof.
  induction s as [|c r IH]; simpl; [done|].
  destruct (Ascii.is_space c); simpl; [done|]. split; done.
Qed.

Lemma trimEnd_blank (s : string) : trimEnd s = "" <-> blank s = true.
Proof.
  induction s as [|c r IH]; [done|].
  rewrite trimEnd_cons. simpl.
  destruct (String.eqb_spec (trimEnd r) "") as [E|E].
  - apply IH in E. rewrite E, andb_true_r. by destruct (Ascii.is_space c).
  - split; [done|]. intros [_ H]%andb_true_iff. by apply IH in H.
Qed.

Lemma blank_trimStart (s : string) : blank (trimStart s) = blank s.
Proof.
  induction s as [|c r IH]; simpl; [done|].
  destruct (Ascii.is_space c) eqn:E; simpl; [done|]. by rewrite E.
Qed.

(** [s.trim()] is empty exactly when [s] is blank. *)
Lemma trim_blank (s : string) : trim s = "" <-> blank s = true.
Proof. unfold trim. by rewrite trimEnd_blank, blank_trimStart. Qed.

Lemma trimStart_idemp (s : string) : trimStart (trimStart s) = trimStart s.
Proof.
  induction s as [|c r IH]; simpl; [done|].
  destruct (Ascii.is_space c) eqn:E; [done|]. simpl. by rewrite E.
Qed.

Lemma trimEnd_idemp (s : string) : trimEnd (trimEnd s) = trimEnd s.
Proof.
  induction s as [|c r IH]; [done|].
  rewrite trimEnd_cons.
  destruct (String.eqb_spec (trimEnd r) "") as [E|E].
  - destruct (Ascii.is_space c) eqn:Ec; [done|].
    rewrite trimEnd_cons. simpl. by rewrite Ec.
  - rewrite trimEnd_cons, IH. by destruct (String.eqb_spec (trimEnd r) "").
Qed.

Lemma trimStart_trimEnd (s : string) : trimStart (trimEnd s) = trimEnd (trimStart s).
Proof.
  induction s as [|c r IH]; [done|].
  rewrite trimEnd_cons. simpl trimStart at 2.
  destruct (Ascii.is_space c) eqn:Ec.
  - destruct (String.eqb_spec (trimEnd r) "") as [E|E].
    + simpl. symmetry. apply trimEnd_blank. rewrite blank_trimStart.
      by apply trimEnd_blank.
    + simpl. by rewrite Ec.
  - rewrite trimEnd_cons.
    destruct (String.eqb_spec (trimEnd r) "") as [E|E]; simpl; by rewrite Ec.
Qed.

(** Trimming twice is trimming once. *)
Lemma trim_idemp (s : string) : trim (trim s) = trim s.
Proof.
  unfold trim. by rewrite trimStart_trimEnd, trimStart_idemp, trimEnd_idemp.
Qed.

(* ===================================================================== *)
(** * Validation and the ContextBuilder *)
(* ===================================================================== *)

Lemma truthy_trim (s : string) : truthy_str (trim s) = negb (blank s).
Proof.
  unfold truthy_str. destruct (String.eqb_spec (trim s) "") as [E|E].
  - apply trim_blank in E. by rewrite E.
  - destruct (blank s) eqn:Hb; [|done]. by apply trim_blank in Hb.
Qed.

Lemma validateMemories_Forall (mems : list Memory) :
  validateMemories mems = true <-> Forall validMemory mems.
Proof.
  induction mems as [|m r IH]; simpl.
  - split; [constructor|done].
  - rewrite !truthy_trim, !negb_involutive, Forall_cons, <- IH.
    unfold validMemory.
    destruct (Qgtb 0 (relevance m)) eqn:E0; simpl.
    { apply Qgtb_true in E0. split; [done|]. intros [[[H _] _] _]. lra. }
    destruct (Qgtb (relevance m) 1) eqn:E1; simpl.
    { apply Qgtb_true in E1. split; [done|]. intros [[[_ H] _] _]. lra. }
    apply Qgtb_false in E0, E1.
    destruct (blank (text m)); simpl; [split; [done|]; by intros [(_ & ? & _) _]|].
    destruct (blank (source m)); simpl; [split; [done|]; by intros [(_ & _ & ?) _]|].
    tauto.
Qed.

Lemma keep_blank (m : Memory) :
  ContextBuilder.keep m = negb (blank (text m)) && negb (blank (source m)).
Proof. unfold ContextBuilder.keep. by rewrite !truthy_trim. Qed.

Lemma blank_trim (s : string) : blank (trim s) = blank s.
Proof.
  destruct (blank s) eqn:E.
  - apply trim_blank in E. by rewrite E.
  - destruct (blank (trim s)) eqn:E'; [|done].
    apply trim_blank in E'. rewrite trim_idemp in E'. apply trim_blank in E'. congruence.
Qed.

Lemma normalize_valid (m : Memory) :
  ContextBuilder.keep m = true -> validMemory (ContextBuilder.normalize m).
Proof.
  rewrite keep_blank, andb_true_iff, !negb_true_iff. intros [Ht Hs].
  unfold validMemory. simpl. rewrite !blank_trim. split_and!; try done; apply clamp_range.
Qed.

Lemma processMemories_valid config mems options :
  Forall validMemory (ContextBuilder.processMemories config mems options).
Proof.
  unfold ContextBuilder.processMemories.
  eapply Forall_forall. intros m Hm.
  eapply elem_of_prefix in Hm; [|apply slice0_prefix].
  rewrite (sort_perm byRelevanceDesc) in Hm.
  apply list_elem_of_fmap in Hm as (m0 & -> & Hm0).
  apply list_elem_of_filter in Hm0 as [Hkeep _].
  apply normalize_valid. by apply Is_true_true.
Qed.

(** X1.  Whatever the context source returns and whatever the options,
    a context built by the ContextBuilder passes [validateContextData];
    so does the context in any result of [BaseProvider.getContext]. *)
Theorem ContextBuilder_output_passes_validation
    (config : ContextBuilder.ContextBuilderConfig) (data : ContextData)
    (options : option ContextOptions) :
  validateContextData (ContextBuilder.buildContext config data options) = true
  /\ forall this source env now context,
       pr_data (BaseProvider.getContext this source env now options) = Some context ->
       validateContextData context = true.
Proof.
  split.
  - apply validateMemories_Forall, processMemories_valid.
  - intros this source env now context.
    unfold BaseProvider.getContext.
    destruct (negb _); [done|].
    destruct (source options) as [d|e]; [|done]. simpl.
    destruct (BaseProvider._contextBuilder this) as [b|]; [|done]. simpl.
    intros [= <-]. apply validateMemories_Forall, processMemories_valid.
Qed.

Lemma ContextBuilder_output_passes_validation_witness :
  validateContextData
    {| memories := [ {| text := "high"; relevance := 1; timestamp := 3; source := "tab";
                        metadata := Some [] |} ] |} = true.
Proof.
  apply (proj2 (ContextBuilder_output_passes_validation defaultBuilder
                  {| memories := rawMemories |} (topK_only 1))
               sampleBaseProvider (fun _ => Returns {| memories := rawMemories |})
               (browser (Some {[ "example.com" := grantedRecord true false ]}) None) 0).
  vm_compute. reflexivity.
Defined.

Lemma clamp_id (r : Q) : (0 <= r <= 1)%Q -> (Qmax 0 (Qmin 1 r) == r)%Q.
Proof. intros [H0 H1]. rewrite Q.min_r by done. by rewrite Q.max_r. Qed.

Lemma clamp_idemp (r : Q) :
  Qmax 0 (Qmin 1 (Qmax 0 (Qmin 1 r))) = Qmax 0 (Qmin 1 r).
Proof.
  unfold Qmax, Qmin, GenericMinMax.gmax, GenericMinMax.gmin.
  destruct (1 ?= r)%Q eqn:E1; try reflexivity.
  destruct (0 ?= r)%Q eqn:E0; try reflexivity.
  by rewrite E1, E0.
Qed.

Lemma normalize_idemp (m : Memory) :
  ContextBuilder.normalize (ContextBuilder.normalize m) = ContextBuilder.normalize m.
Proof.
  unfold ContextBuilder.normalize. simpl. by rewrite !trim_idemp, clamp_idemp.
Qed.

Lemma keep_normalize (m : Memory) :
  ContextBuilder.keep (ContextBuilder.normalize m) = ContextBuilder.keep m.
Proof. rewrite !keep_blank. simpl. by rewrite !blank_trim. Qed.

Lemma validMemory_keep (m : Memory) : validMemory m -> ContextBuilder.keep m = true.
Proof. intros (_ & Ht & Hs). by rewrite keep_blank, Ht, Hs. Qed.

Lemma sorted_byRelevance (l : list Memory) :
  StronglySorted (before byRelevanceDesc) (sort byRelevanceDesc l).
Proof.
  apply sort_sorted; [apply byRelevanceDesc_total|apply byRelevanceDesc_trans].
Qed.

(** X2.  [processMemories] drops nothing from data that
    [validateContextData] accepts: each memory is kept with its relevance,
    its text and source trimmed, and the result is the first [topK] of
    them in descending order of relevance. *)
Theorem ContextBuilder_keeps_validated_data
    (config : ContextBuilder.ContextBuilderConfig) (data : ContextData)
    (options : option ContextOptions) :
  let limit := default (ContextBuilder.config_topK config) (options_topK options) in
  let out := ContextBuilder.processMemories config (memories data) options in
  validateContextData data = true -> 0 <= limit ->
  Z.of_nat (length out) = Z.min limit (Z.of_nat (length (memories data)))
  /\ (forall m, m ∈ memories data ->
        (relevance (ContextBuilder.normalize m) == relevance m)%Q)
  /\ exists ordered,
       ordered ≡ₚ ContextBuilder.normalize <$> memories data
       /\ StronglySorted (fun a b => (relevance b <= relevance a)%Q) ordered
       /\ out = take (Z.to_nat limit) ordered.
Proof.
  intros limit out Hvalid Hlimit.
  apply validateMemories_Forall in Hvalid.
  assert (base.filter ContextBuilder.keep (memories data) = memories data) as Hall.
  { apply filter_all. eapply Forall_impl; [exact Hvalid|].
    intros m Hm. apply Is_true_true. by apply validMemory_keep. }
  assert (out = take (Z.to_nat limit)
                  (sort byRelevanceDesc (ContextBuilder.normalize <$> memories data)))
    as Hout.
  { unfold out, ContextBuilder.processMemories. fold limit.
    by rewrite slice0_nonneg, Hall. }
  split_and!.
  - rewrite Hout, length_take, sort_length, length_fmap. lia.
  - intros m Hm. simpl. apply clamp_id.
    rewrite Forall_forall in Hvalid. by apply Hvalid.
  - exists (sort byRelevanceDesc (ContextBuilder.normalize <$> memories data)).
    split_and!; [apply sort_perm| |done].
    eapply StronglySorted_weaken; [|apply sorted_byRelevance].
    intros a b. apply byRelevanceDesc_before.
Qed.

Lemma ContextBuilder_keeps_validated_data_witness :
  Z.of_nat (length (ContextBuilder.processMemories defaultBuilder validMemories None)) = 2.
Proof.
  destruct (ContextBuilder_keeps_validated_data defaultBuilder
              {| memories := validMemories |} None) as (Hlen & _);
    [reflexivity|vm_compute; discriminate|].
  exact Hlen.
Defined.


(** X3.  [processMemories] is idempotent for a non-negative [topK]:
    processing its own output again, with the same options, changes
    nothing. *)
Theorem ContextBuilder_processMemories_idempotent
    (config : ContextBuilder.ContextBuilderConfig) (mems : list Memory)
    (options : option ContextOptions) :
  0 <= default (ContextBuilder.config_topK config) (options_topK options) ->
  ContextBuilder.processMemories config
    (ContextBuilder.processMemories config mems options) options
  = ContextBuilder.processMemories config mems options.
Proof.
  intros Hlimit. unfold ContextBuilder.processMemories.
  set (limit := default _ _) in *.
  rewrite !slice0_nonneg by done.
  set (valid := ContextBuilder.normalize <$> base.filter ContextBuilder.keep mems).
  set (out := take (Z.to_nat limit) (sort byRelevanceDesc valid)).
  assert (forall m, m ∈ out -> exists m0, ContextBuilder.keep m0 = true
                                          /\ m = ContextBuilder.normalize m0) as Hout.
  { intros m Hm. apply elem_of_take in Hm as (i & Hm & _).
    apply list_elem_of_lookup_2 in Hm.
    rewrite (sort_perm byRelevanceDesc) in Hm.
    apply list_elem_of_fmap in Hm as (m0 & -> & Hm0).
    apply list_elem_of_filter in Hm0 as [Hkeep _].
    exists m0. split; [by apply Is_true_true|done]. }
  assert (base.filter ContextBuilder.keep out = out) as Hkeep.
  { apply filter_all, Forall_forall. intros m Hm.
    destruct (Hout m Hm) as (m0 & Hk & ->). apply Is_true_true.
    by rewrite keep_normalize. }
  assert (ContextBuilder.normalize <$> out = out) as Hnorm.
  { rewrite <- (list_fmap_id out) at 2. apply list_fmap_ext.
    intros i m Hm. apply list_elem_of_lookup_2 in Hm.
    destruct (Hout m Hm) as (m0 & _ & ->). apply normalize_idemp. }
  rewrite Hkeep, Hnorm.
  rewrite sort_of_sorted.
  - unfold out. rewrite take_take. f_equal. lia.
  - apply StronglySorted_Sorted, StronglySorted_take, sorted_byRelevance.
Qed.

Lemma ContextBuilder_processMemories_idempotent_witness :
  ContextBuilder.processMemories defaultBuilder
    (ContextBuilder.processMemories defaultBuilder rawMemories (topK_only 1)) (topK_only 1)
  = [ {| text := "high"; relevance := 1; timestamp := 3; source := "tab";
         metadata := Some [] |} ].
Proof.
  rewrite (ContextBuilder_processMemories_idempotent defaultBuilder rawMemories (topK_only 1)).
  - reflexivity.
  - vm_compute. discriminate.
Defined.

(* ===================================================================== *)
(** * A provider outside a browser window *)
(* ===================================================================== *)

Lemma getStoredPermissions_no_window env :
  window env = None -> Provider.getStoredPermissions env = ∅.
Proof. intros H. unfold Provider.getStoredPermissions. by rewrite H. Qed.

Lemma isPermissionGranted_no_window env domain capability :
  window env = None -> Provider.isPermissionGranted env domain capability = Returns false.
Proof.
  intros H. unfold Provider.isPermissionGranted.
  by rewrite getStoredPermissions_no_window, lookup_empty.
Qed.

(** X4.  Without a window a provider of [createProvider] reads no stored
    permission: [isPermissionGranted] is false for every domain and
    capability, although [requestPermission] then answers, without asking
    anybody, with a grant that always includes the read capability (a
    first-time grant, unless the domain is the name of a member of
    [Object.prototype]); the check stays false after that grant, so
    [getContext] and [provideContext] keep failing for lack of
    permission. *)
Theorem createProvider_without_window
    (config : Provider.ProviderConfig)
    (getContextData : option ContextOptions -> Outcome ContextData)
    (handler : option Provider.WebAgentContextHandler)
    (stringifiedLength : WebAgentContext -> Outcome Z)
    (env : Env) (now : Z) (appInfo : AppInfo) :
  window env = None ->
  (forall domain capability,
      Provider.isPermissionGranted env domain capability = Returns false)
  /\ exists r env',
       Provider.requestPermission env now appInfo = Returns (r, env', [])
       /\ res_granted r = true
       /\ (isFirstTime r = true <-> requestDomain env appInfo ∉ objectPrototypeKeys)
       /\ (res_capabilities r ≫= read) = Some true
       /\ "context.read" ∈ res_permissions r
       /\ (forall domain capability,
             Provider.isPermissionGranted env' domain capability = Returns false)
       /\ (forall now' options,
             Provider.getContext config getContextData env' now' options
             = Provider.failed config now' "Permission required to access memory data")
       /\ (forall now' c options,
             Provider.handleWebAgentContext config handler stringifiedLength env' now' c
               options
             = (Provider.rejection now' c (Some ["Permission denied for domain"])
                  (writeDenied (wac_domain c)), env')).
Proof.
  intros Hw. split; [intros; by apply isPermissionGranted_no_window|].
  unfold Provider.requestPermission.
  rewrite isPermissionGranted_no_window by done. simpl.
  rewrite getStoredPermissions_no_window by done. rewrite Hw.
  unfold Provider.autoGrant. simpl.
  eexists _, _. split; [reflexivity|]. simpl.
  rewrite orb_true_r. simpl.
  split_and!; try done.
  - unfold truthy_at, requestDomain. rewrite lookup_empty.
    rewrite (bool_decide_eq_false_2 (is_Some None)) by (by intros [? ?]).
    simpl. rewrite negb_true_iff. apply bool_decide_eq_false.
  - apply elem_of_cons. by left.
  - intros. apply isPermissionGranted_no_window. by rewrite window_store.
  - intros now' options. unfold Provider.getContext.
    by rewrite isPermissionGranted_no_window by (by rewrite window_store).
  - intros now' c options. unfold Provider.handleWebAgentContext.
    by rewrite isPermissionGranted_no_window by (by rewrite window_store).
Qed.

Lemma createProvider_without_window_witness :
  Provider.isPermissionGranted (headless (Some {[ "localhost" := grantedRecord true true ]}))
    (Some "localhost") (Some CapRead) = Returns false.
Proof.
  apply (proj1 (createProvider_without_window (sampleConfig None)
                  (fun _ => Returns {| memories := [] |}) None sizeOk
                  (headless (Some {[ "localhost" := grantedRecord true true ]})) 0 sampleApp
                  eq_refl)).
Defined.
(* ===================================================================== *)
(** * Refused writes *)
(* ===================================================================== *)

(** X5.  A [provideContext] that the provider refuses stores nothing: a
    missing write permission gives [PERMISSION_DENIED], and is checked
    first; then an agent type outside [allowedAgentTypes] and a context
    above [maxWebAgentContextSize] give [INVALID_OPTIONS]; each leaves
    the environment as it was and counts every memory as rejected.
    Without a custom handler the call is all or nothing: it either
    succeeds, accepting every memory under the id of the context, or fails
    with an error, no memory accepted and nothing stored. *)
Theorem handleWebAgentContext_refusals
    (config : Provider.ProviderConfig) (handler : option Provider.WebAgentContextHandler)
    (stringifiedLength : WebAgentContext -> Outcome Z)
    (env : Env) (now : Z) (c : WebAgentContext) (options : option WebAgentContextOptions) :
  let run h := Provider.handleWebAgentContext config h stringifiedLength env now c options in
  let count := Z.of_nat (length (wac_memories c)) in
  (Provider.isPermissionGranted env (Some (wac_domain c)) (Some CapWrite) = Returns false ->
   run handler = (Provider.rejection now c (Some ["Permission denied for domain"])
                    (writeDenied (wac_domain c)), env))
  /\ (Provider.isPermissionGranted env (Some (wac_domain c)) (Some CapWrite) = Returns true ->
      Provider.agentTypeRefused config c = true ->
      (run handler).2 = env
      /\ cp_success (run handler).1 = false
      /\ code <$> cp_error (run handler).1 = Some INVALID_OPTIONS
      /\ memoriesRejected (run handler).1 = count)
  /\ (forall contextSize,
      Provider.isPermissionGranted env (Some (wac_domain c)) (Some CapWrite) = Returns true ->
      Provider.agentTypeRefused config c = false ->
      stringifiedLength c = Returns contextSize ->
      Provider.tooLarge config contextSize = true ->
      (run handler).2 = env
      /\ cp_success (run handler).1 = false
      /\ code <$> cp_error (run handler).1 = Some INVALID_OPTIONS
      /\ memoriesRejected (run handler).1 = count)
  /\ ((cp_success (run None).1 = true
       /\ memoriesAccepted (run None).1 = count /\ memoriesRejected (run None).1 = 0
       /\ cp_error (run None).1 = None
       /\ cp_contextId (run None).1 = Some (Provider.makeContextId c))
      \/ (cp_success (run None).1 = false
          /\ memoriesAccepted (run None).1 = 0 /\ memoriesRejected (run None).1 = count
          /\ is_Some (cp_error (run None).1)
          /\ (run None).2 = env)).
Proof.
  intros run count. split_and!.
  - intros Hperm. unfold run, Provider.handleWebAgentContext. by rewrite Hperm.
  - intros Hperm Hagent. unfold run, Provider.handleWebAgentContext.
    rewrite Hperm. simpl. by rewrite Hagent.
  - intros contextSize Hperm Hagent Hsize Hlarge.
    unfold run, Provider.handleWebAgentContext.
    rewrite Hperm. simpl. rewrite Hagent, Hsize. simpl. by rewrite Hlarge.
  - unfold run, Provider.handleWebAgentContext.
    destruct (Provider.isPermissionGranted env _ _) as [[|]|e]; simpl;
      [|right; by eauto|right; by eauto].
    destruct (Provider.agentTypeRefused config c); [right; by eauto|].
    destruct (stringifiedLength c) as [contextSize|e]; simpl; [|right; by eauto].
    destruct (Provider.tooLarge config contextSize); [right; by eauto|].
    destruct (Provider.getStoredWebAgentContexts env now) as [stored env1].
    left. simpl. done.
Qed.

Lemma handleWebAgentContext_refusals_witness :
  Provider.handleWebAgentContext (sampleConfig None) None sizeOk
    (browser (Some {[ "example.com" := grantedRecord true false ]}) None) 5
    (sampleContext "agent" 1) None
  = (Provider.rejection 5 (sampleContext "agent" 1) (Some ["Permission denied for domain"])
       (writeDenied "example.com"),
     browser (Some {[ "example.com" := grantedRecord true false ]}) None).
Proof.
  apply (proj1 (handleWebAgentContext_refusals (sampleConfig None) None sizeOk
                  (browser (Some {[ "example.com" := grantedRecord true false ]}) None) 5
                  (sampleContext "agent" 1) None)).
  vm_compute. reflexivity.
Defined.
(* ===================================================================== *)
(** * The write-back store: a stored context and its lifetime *)
(* ===================================================================== *)

Lemma get_filter {V : Type} (P : string * V -> Prop) `{!forall x, Decision (P x)}
    (m : OMap V) k v :
  NoDup (keys m) -> Js.get k m = Some v ->
  Js.get k (base.filter P m) = if decide (P (k, v)) then Some v else None.
Proof.
  induction m as [|[k' v'] r IH]; [done|].
  intros Hnd Hget. simpl in Hnd, Hget. apply NoDup_cons in Hnd as [Hk' Hnd].
  rewrite filter_cons.
  destruct (String.eqb_spec k k') as [->|Hne].
  - injection Hget as ->.
    destruct (decide (P (k', v))); simpl.
    + by rewrite String.eqb_refl.
    + apply get_None_keys. intros Hin. apply Hk'.
      eapply elem_of_sublist; [exact Hin|]. apply keys_filter_sublist.
  - destruct (decide (P (k', v'))); simpl.
    + destruct (String.eqb_spec k k'); [done|]. by apply IH.
    + by apply IH.
Qed.

Lemma NoDup_keys_evictOldest config (s : WebAgentContextStorage) :
  NoDup (keys s) -> NoDup (keys (Provider.evictOldest config s)).
Proof.
  intros Hnd. unfold Provider.evictOldest. case_bool_decide; [|done].
  rewrite delete_all_filter by done. by apply NoDup_keys_filter.
Qed.

Lemma NoDup_keys_markProcessed k (s : WebAgentContextStorage) :
  NoDup (keys s) -> NoDup (keys (Provider.markProcessed k s)).
Proof.
  intros Hnd. unfold Provider.markProcessed.
  destruct (Js.get k s); [by apply NoDup_keys_set|done].
Qed.

Lemma expiryOf_truthy now c options :
  0 <= now -> truthy_num (Provider.expiryOf now c options) = true.
Proof.
  intros Hnow. unfold Provider.expiryOf.
  destruct (wac_expiresAt c) as [e|]; simpl.
  - destruct (truthy_num e) eqn:E; [done|].
    unfold truthy_num. apply negb_true_iff, Z.eqb_neq. case_bool_decide; lia.
  - unfold truthy_num. apply negb_true_iff, Z.eqb_neq. case_bool_decide; lia.
Qed.

(** X6.  A context that [provideContext] accepts can be read back under
    its id, marked as processed, at any time before its expiry, and is
    gone from every read at or after it.  The expiry is the context's own
    [expiresAt] when it has one, and otherwise five minutes after the call
    for the storage type "ephemeral" and twenty-four hours after it for
    any other. *)
Theorem write_back_round_trip
    (config : Provider.ProviderConfig) (handler : option Provider.WebAgentContextHandler)
    (stringifiedLength : WebAgentContext -> Outcome Z)
    (env : Env) (now : Z) (c : WebAgentContext) (options : option WebAgentContextOptions)
    (contextSize : Z) :
  inBrowser env -> NoDup (keys (persistedContexts env)) ->
  admissible config stringifiedLength env c contextSize -> 0 <= now ->
  let env' := (Provider.handleWebAgentContext config handler stringifiedLength env now c
                 options).2 in
  let contextId := Provider.makeContextId c in
  let expiry := Provider.expiryOf now c options in
  (forall t, t < expiry ->
     Js.get contextId (Provider.getStoredWebAgentContexts env' t).1
     = Some (freshEntry now c options contextSize true))
  /\ (forall t, expiry <= t ->
        Js.get contextId (Provider.getStoredWebAgentContexts env' t).1 = None)
  /\ (forall e, wac_expiresAt c = Some e -> e ≠ 0 -> expiry = e)
  /\ (wac_expiresAt c = None -> options ≫= storageType = Some "ephemeral" ->
      expiry = now + 5 * 60 * 1000)
  /\ (wac_expiresAt c = None -> options ≫= storageType ≠ Some "ephemeral" ->
      expiry = now + 24 * 60 * 60 * 1000).
Proof.
  intros Hb Hnd Hadm Hnow env' contextId expiry.
  set (stored := Provider.markProcessed contextId
                   (Js.set contextId (freshEntry now c options contextSize false)
                      (Provider.evictOldest config
                         (liveContexts now (persistedContexts env))))).
  assert (env' = withContexts env stored) as Henv.
  { unfold env'.
    by rewrite (handleWebAgentContext_stores config handler stringifiedLength env now c
                  options contextSize). }
  assert (NoDup (keys stored)) as Hnds.
  { apply NoDup_keys_markProcessed, NoDup_keys_set, NoDup_keys_evictOldest.
    by apply NoDup_keys_filter. }
  assert (Js.get contextId stored = Some (freshEntry now c options contextSize true))
    as Hget.
  { unfold stored, Provider.markProcessed. rewrite get_set_eq. simpl.
    by rewrite get_set_eq. }
  assert (forall t, (Provider.getStoredWebAgentContexts env' t).1
                    = base.filter (fun e => Provider.notExpired t e.2 = true) stored)
    as Hread.
  { intros t. rewrite Henv.
    destruct (getStoredWebAgentContexts_browser (withContexts env stored) t) as [Hr _];
      [by apply inBrowser_withContexts|done|].
    exact Hr. }
  split_and!.
  - intros t Ht. rewrite Hread, (get_filter _ _ _ _ Hnds Hget).
    rewrite decide_True; [done|]. simpl. by apply notExpired_fresh.
  - intros t Ht. rewrite Hread, (get_filter _ _ _ _ Hnds Hget).
    rewrite decide_False; [done|]. simpl.
    unfold Provider.notExpired. simpl. fold expiry.
    unfold expiry at 1. rewrite expiryOf_truthy by done. simpl.
    rewrite bool_decide_eq_false_2 by lia. done.
  - intros e He Hne. unfold expiry, Provider.expiryOf. rewrite He. simpl.
    unfold truthy_num. by rewrite (proj2 (Z.eqb_neq e 0) Hne).
  - intros He Hs. unfold expiry, Provider.expiryOf. rewrite He. simpl.
    by rewrite bool_decide_eq_true_2.
  - intros He Hs. unfold expiry, Provider.expiryOf. rewrite He. simpl.
    by rewrite bool_decide_eq_false_2.
Qed.

Lemma write_back_round_trip_witness :
  let env' := (Provider.handleWebAgentContext (sampleConfig None) None sizeOk writable 1000
                 (sampleContext "agent" 7)
                 (Some {| storageType := Some "ephemeral" |})).2 in
  Js.get "agent_default_7" (Provider.getStoredWebAgentContexts env' 300999).1
  = Some (freshEntry 1000 (sampleContext "agent" 7)
            (Some {| storageType := Some "ephemeral" |}) 100 true)
  /\ Js.get "agent_default_7" (Provider.getStoredWebAgentContexts env' 301000).1 = None.
Proof.
  intros env'.
  destruct (write_back_round_trip (sampleConfig None) None sizeOk writable 1000
              (sampleContext "agent" 7) (Some {| storageType := Some "ephemeral" |}) 100)
    as (Hlive & Hgone & _).
  - split; eexists; reflexivity.
  - constructor.
  - split_and!; reflexivity.
  - lia.
  - split.
    + apply (Hlive 300999). reflexivity.
    + apply (Hgone 301000). discriminate.
Defined.
(* ===================================================================== *)
(** * Capabilities: what a request grants and what a write needs *)
(* ===================================================================== *)

(** X7.  [contributeMemory] of a provider files the memories as a context
    of agent type "other" for the page's own domain.  So a provider whose
    [allowedAgentTypes] is set and does not list "other" refuses every
    contribution with [INVALID_OPTIONS] and stores nothing; and without
    the write capability for the page's domain every contribution is
    refused with [PERMISSION_DENIED]. *)
Theorem contributeMemory_agent_type
    (config : Provider.ProviderConfig) (handler : option Provider.WebAgentContextHandler)
    (stringifiedLength : WebAgentContext -> Outcome Z)
    (env : Env) (now : Z) (mems : list Memory) (src : string) :
  let out := Provider.contributeMemory config handler stringifiedLength env now mems src in
  (Provider.isPermissionGranted env (Some (currentDomain env)) (Some CapWrite)
   = Returns false ->
   out.2 = env /\ cp_success out.1 = false
   /\ code <$> cp_error out.1 = Some PERMISSION_DENIED
   /\ memoriesRejected out.1 = Z.of_nat (length mems))
  /\ (forall allowed,
      Provider.isPermissionGranted env (Some (currentDomain env)) (Some CapWrite)
      = Returns true ->
      Provider.allowedAgentTypes config = Some allowed -> "other" ∉ allowed ->
      out.2 = env /\ cp_success out.1 = false
      /\ cp_error out.1
         = Some {| code := INVALID_OPTIONS;
                   message := "Agent type 'other' is not allowed";
                   recoverable := false; suggestedAction := None |}
      /\ memoriesRejected out.1 = Z.of_nat (length mems)).
Proof.
  intros out. split.
  - intros Hperm. unfold out, Provider.contributeMemory, Provider.handleWebAgentContext.
    simpl. by rewrite Hperm.
  - intros allowed Hperm Hallowed Hother.
    unfold out, Provider.contributeMemory, Provider.handleWebAgentContext.
    simpl. rewrite Hperm. simpl.
    unfold Provider.agentTypeRefused. simpl. rewrite Hallowed.
    by rewrite bool_decide_eq_false_2.
Qed.

Lemma contributeMemory_agent_type_witness :
  let config :=
    {| Provider.providerId := "demo"; Provider.providerName := "Demo";
       Provider.version := "1.0.0"; Provider.supportsContextProvision := None;
       Provider.maxWebAgentContextSize := None; Provider.webAgentStorageLimit := None;
       Provider.allowedAgentTypes := Some ["assistant"; "tool"] |} in
  let out := Provider.contributeMemory config None sizeOk writable 3
               [sampleMemory "note" (1 # 2)] "notes-app" in
  out.2 = writable /\ code <$> cp_error out.1 = Some INVALID_OPTIONS.
Proof.
  intros config out.
  destruct (proj2 (contributeMemory_agent_type config None sizeOk writable 3
                     [sampleMemory "note" (1 # 2)] "notes-app")
                  ["assistant"; "tool"]) as (Henv & _ & Herr & _).
  - reflexivity.
  - reflexivity.
  - vm_compute. intros H. inversion H as [|? ? ? H1]; subst.
    inversion H1 as [|? ? ? H2]; subst. inversion H2.
  - split; [exact Henv|]. unfold out. by rewrite Herr.
Defined.
Lemma truthy_obool_true (b : option bool) : truthy_obool b = true <-> b = Some true.
Proof. destruct b as [[|]|]; simpl; split; congruence. Qed.

Lemma grantedList_read (c : Capabilities) :
  "context.read" ∈ grantedList c <-> read c = Some true.
Proof.
  rewrite <- truthy_obool_true. unfold grantedList.
  destruct (truthy_obool (read c)), (truthy_obool (write c)); simpl;
    rewrite ?elem_of_cons, ?elem_of_nil; split; try done; try (by left).
  - intros [H|H]; [discriminate H|done].
Qed.

Lemma grantedList_write (c : Capabilities) :
  "context.write" ∈ grantedList c <-> write c = Some true.
Proof.
  rewrite <- truthy_obool_true. unfold grantedList.
  destruct (truthy_obool (read c)), (truthy_obool (write c)); simpl;
    rewrite ?elem_of_cons, ?elem_of_nil; split; try done; try (by left);
    try (by right; left).
  - intros [H|H]; [discriminate H|done].
Qed.

Lemma not_granted_cases env appInfo :
  Provider.isPermissionGranted env (Some (requestDomain env appInfo)) None = Returns false ->
  forall r, Provider.getStoredPermissions env !! requestDomain env appInfo = Some r ->
            granted r = true -> ~ notRevoked r.
Proof.
  rewrite isPermissionGranted_general.
  rewrite str_or_Some_nonempty by apply requestDomain_nonempty.
  intros H r Hr Hg Hrev. rewrite Hr, Hg in H. simpl in H.
  apply truthy_onum_false in Hrev. rewrite Hrev in H. done.
Qed.

Lemma isPermissionGranted_record env domain r capability :
  domain ≠ "" -> Provider.getStoredPermissions env !! domain = Some r ->
  Provider.isPermissionGranted env (Some domain) capability
  = if negb (granted r) || truthy_onum (revokedAt r) then Returns false
    else match capability with
         | None => Returns true
         | Some cap =>
             match capabilities r with
             | Some c => Returns (bool_decide (capability_flag c cap = Some true))
             | None => Throws (ErrorObj "Cannot read properties of undefined")
             end
         end.
Proof.
  intros Hne Hr. unfold Provider.isPermissionGranted.
  rewrite str_or_Some_nonempty by done. by rewrite Hr.
Qed.

Lemma isPermissionGranted_stored env domain rec p capability :
  inBrowser env -> domain ≠ "" ->
  Provider.isPermissionGranted (Provider.storePermissions env (<[domain := rec]> p))
    (Some domain) capability
  = if negb (granted rec) || truthy_onum (revokedAt rec) then Returns false
    else match capability with
         | None => Returns true
         | Some cap =>
             match capabilities rec with
             | Some c => Returns (bool_decide (capability_flag c cap = Some true))
             | None => Throws (ErrorObj "Cannot read properties of undefined")
             end
         end.
Proof.
  intros Hb Hne. apply isPermissionGranted_record; [done|].
  by rewrite getStoredPermissions_store, lookup_insert_eq.
Qed.

(** What a store that is written and read back holds after an assignment
    under ["__proto__"] that creates no property. *)
Lemma getStoredPermissions_store_same env :
  inBrowser env ->
  Provider.getStoredPermissions
    (Provider.storePermissions env (Provider.getStoredPermissions env))
  = Provider.getStoredPermissions env.
Proof. intros Hb. by rewrite getStoredPermissions_store. Qed.

(** X8.  In a browser, and for a domain other than ["__proto__"], what
    [requestPermission] answers is what [isPermissionGranted] says
    afterwards for the domain of the answer: the check without a
    capability returns the answer's [granted], and the check of a
    capability returns true exactly when the answer is a grant whose
    capability map has that flag true.  After a new answer of the user the
    list of permissions names exactly the capabilities granted.  For the
    domain ["__proto__"] (a page can name it in [appInfo.domain]) the
    answer is not stored: the store reads as before the request and the
    check of that domain stays false, also after an answer with [granted]
    true. *)
Theorem requestPermission_then_check
    (env : Env) (now : Z) (appInfo : AppInfo)
    (r : PermissionResult) (env' : Env) (shown : list string) :
  inBrowser env ->
  Provider.requestPermission env now appInfo = Returns (r, env', shown) ->
  res_domain r = Some (requestDomain env appInfo)
  /\ (requestDomain env appInfo ≠ "__proto__" ->
      Provider.isPermissionGranted env' (res_domain r) None = Returns (res_granted r)
      /\ forall c cap,
           res_capabilities r = Some c ->
           Provider.isPermissionGranted env' (res_domain r) (Some cap)
           = Returns (res_granted r && bool_decide (capability_flag c cap = Some true)))
  /\ (Provider.isPermissionGranted env (Some (requestDomain env appInfo)) None
      = Returns false ->
      exists c, res_capabilities r = Some c
                /\ res_permissions r = (if res_granted r then grantedList c else [])
                /\ ("context.read" ∈ res_permissions r
                    <-> res_granted r = true /\ read c = Some true)
                /\ ("context.write" ∈ res_permissions r
                    <-> res_granted r = true /\ write c = Some true))
  /\ (requestDomain env appInfo = "__proto__" ->
      Provider.getStoredPermissions env !! "__proto__" = None ->
      Provider.getStoredPermissions env' = Provider.getStoredPermissions env
      /\ forall capability,
           Provider.isPermissionGranted env' (Some "__proto__") capability
           = Returns false).
Proof.
  intros Hb Hreq.
  pose proof (requestDomain_nonempty env appInfo) as Hne.
  destruct (requestPermission_cases env appInfo) as [(r0 & Hr & Hg & Hrev)|Hno].
  - rewrite (requestPermission_granted env now appInfo r0) in Hreq by done.
    injection Hreq as <- <- <-. simpl.
    apply truthy_onum_false in Hrev.
    split_and!; [done| | |].
    + intros _. split.
      * rewrite (isPermissionGranted_record env _ r0) by done. by rewrite Hg, Hrev.
      * intros c cap Hc. rewrite (isPermissionGranted_record env _ r0) by done.
        by rewrite Hg, Hrev, Hc.
    + rewrite (isPermissionGranted_record env _ r0) by done. by rewrite Hg, Hrev.
    + intros Hproto Hnone. rewrite Hproto, Hnone in Hr. done.
  - rewrite requestPermission_asks in Hreq by done.
    assert (forall rec : PermissionRecord,
              requestDomain env appInfo = "__proto__" ->
              Provider.getStoredPermissions env !! "__proto__" = None ->
              let after := Provider.storePermissions env
                             (assign (requestDomain env appInfo) rec
                                (Provider.getStoredPermissions env)) in
              Provider.getStoredPermissions after = Provider.getStoredPermissions env
              /\ forall capability,
                   Provider.isPermissionGranted after (Some "__proto__") capability
                   = Returns false) as Hproto.
    { intros rec Hp Hnone after. subst after. rewrite Hp, assign_proto by done.
      rewrite getStoredPermissions_store_same by done. split; [done|].
      intros capability. unfold Provider.isPermissionGranted.
      rewrite str_or_Some_nonempty by done.
      by rewrite getStoredPermissions_store_same, Hnone. }
    destruct (userResponse env appInfo _) as [[[|] c] sh] eqn:Hu;
      injection Hreq as <- <- <-; simpl.
    + split_and!; [done| | |].
      * intros Hord. rewrite assign_ordinary by done. split.
        -- by rewrite isPermissionGranted_stored.
        -- intros c' cap [= <-]. by rewrite isPermissionGranted_stored.
      * intros _. exists c. split; [done|]. split; [done|]. split.
        -- rewrite grantedList_read. tauto.
        -- rewrite grantedList_write. tauto.
      * intros Hp Hnone. by apply Hproto.
    + split_and!; [done| | |].
      * intros Hord. rewrite assign_ordinary by done. split.
        -- by rewrite isPermissionGranted_stored.
        -- intros c' cap [= <-]. by rewrite isPermissionGranted_stored.
      * intros _. eexists. split; [done|]. split; [done|].
        split; rewrite elem_of_nil; (split; [done|by intros [? _]]).
      * intros Hp Hnone. by apply Hproto.
Qed.

Lemma requestPermission_then_check_witness :
  let env := browser None None in
  exists r env' shown,
    Provider.requestPermission env 1 sampleApp = Returns (r, env', shown)
    /\ Provider.isPermissionGranted env' (res_domain r) None = Returns (res_granted r).
Proof.
  intros env.
  eexists _, _, _. split; [reflexivity|].
  refine (proj1 (proj1 (proj2 (requestPermission_then_check env 1 sampleApp _ _ _ _
                                 eq_refl)) _)).
  - split; eexists; reflexivity.
  - discriminate.
Defined.

(** X9.  The write capability is opt-in.  When an application that does
    not ask for it ([requestedCapabilities.write] not true) gets a new
    answer to [requestPermission], whatever the user says and also without
    a window, the answer carries [write] false and no "context.write", and
    every later [provideContext] for that domain is refused with
    [PERMISSION_DENIED] and stores nothing. *)
Theorem write_capability_is_opt_in
    (env : Env) (now : Z) (appInfo : AppInfo)
    (r : PermissionResult) (env' : Env) (shown : list string) :
  (requestedCapabilities appInfo ≫= req_write) ≠ Some true ->
  Provider.isPermissionGranted env (Some (requestDomain env appInfo)) None = Returns false ->
  Provider.requestPermission env now appInfo = Returns (r, env', shown) ->
  (res_capabilities r ≫= write) = Some false
  /\ ("context.write" ∉ res_permissions r)
  /\ forall config handler stringifiedLength now' c options,
       wac_domain c = requestDomain env appInfo ->
       Provider.handleWebAgentContext config handler stringifiedLength env' now' c options
       = (Provider.rejection now' c (Some ["Permission denied for domain"])
            (writeDenied (wac_domain c)), env').
Proof.
  intros Hwrite Hfresh Hreq.
  pose proof (requestDomain_nonempty env appInfo) as Hne.
  assert (truthy_obool (req_write (default Provider.defaultRequested
                                     (requestedCapabilities appInfo))) = false) as Hw.
  { destruct (requestedCapabilities appInfo) as [rc|]; simpl in *; [|done].
    by destruct (req_write rc) as [[|]|]. }
  rewrite requestPermission_asks in Hreq by (by apply not_granted_cases).
  assert (forall ft g c sh, userResponse env appInfo ft = (g, c, sh) ->
                            write c = Some false) as Hresp.
  { intros ft g c sh. unfold userResponse, Provider.askUser, Provider.autoGrant.
    rewrite Hw. simpl.
    destruct (window env) as [w|]; [|by intros [= <- <- <-]].
    destruct (confirm w _); by intros [= <- <- <-]. }
  assert (forall rec : PermissionRecord,
            (capabilities rec ≫= write) = Some false ->
            forall p, Provider.isPermissionGranted
                        (Provider.storePermissions env
                           (assign (requestDomain env appInfo) rec p))
                        (Some (requestDomain env appInfo)) (Some CapWrite)
                      = Returns false) as Hcheck.
  { intros rec Hrec p. unfold Provider.isPermissionGranted.
    rewrite str_or_Some_nonempty by done.
    unfold Provider.getStoredPermissions, Provider.storePermissions, setPermissionsItem.
    destruct (window env) as [w|] eqn:Ew; [|destruct (localStorage env); simpl;
      rewrite ?Ew; by rewrite lookup_empty].
    destruct (localStorage env) as [ls|] eqn:Els; simpl; rewrite ?Ew, ?Els;
      [|by rewrite lookup_empty].
    simpl.
    destruct (assign_cases (requestDomain env appInfo) rec p)
      as [->|(_ & Hnone & ->)]; [|by rewrite Hnone].
    rewrite lookup_insert_eq.
    destruct (negb (granted rec) || truthy_onum (revokedAt rec)); [done|].
    destruct (capabilities rec) as [c|]; [|done]. simpl in Hrec.
    simpl. by rewrite Hrec. }
  destruct (userResponse env appInfo _) as [[[|] c] sh] eqn:Hu;
    injection Hreq as <- <- <-; simpl.
  - pose proof (Hresp _ _ _ _ Hu) as Hc. split_and!; [done| |].
    + rewrite grantedList_write, Hc. discriminate.
    + intros config handler sl now' c0 options Hdom.
      unfold Provider.handleWebAgentContext. rewrite Hdom.
      by rewrite Hcheck.
  - split_and!; [done|apply not_elem_of_nil|].
    intros config handler sl now' c0 options Hdom.
    unfold Provider.handleWebAgentContext. rewrite Hdom.
    by rewrite Hcheck.
Qed.

Lemma write_capability_is_opt_in_witness :
  let env := {| window := Some {| hostname := Some "example.com"; confirm := fun _ => true |};
                localStorage := Some {| permissionsItem := None;
                                        webAgentContextItem := None |};
                chromeStorageLocal := None |} in
  exists r env' shown,
    Provider.requestPermission env 1 sampleApp = Returns (r, env', shown)
    /\ res_granted r = true
    /\ (res_capabilities r ≫= write) = Some false
    /\ (Provider.handleWebAgentContext (sampleConfig None) None sizeOk env' 2
          (sampleContext "agent" 1) None).2 = env'.
Proof.
  intros env. eexists _, _, _. split; [reflexivity|]. split; [reflexivity|].
  edestruct (write_capability_is_opt_in env 1 sampleApp) as (Hw & _ & Hput);
    [discriminate|reflexivity|reflexivity|].
  split; [exact Hw|].
  by rewrite (Hput (sampleConfig None) None sizeOk 2 (sampleContext "agent" 1) None eq_refl).
Defined.

(* ===================================================================== *)
(** * The PermissionManager and its store *)
(* ===================================================================== *)







(* ===================================================================== *)
(** * The BaseProvider *)
(* ===================================================================== *)

(** X12.  A BaseProvider consults its context source only with the
    permission of the page's domain: without it, and always before the SDK
    has installed a PermissionManager, [getContext] answers
    "Permission required to access memory data" whatever the source would
    do, and [requestPermission] throws before initialisation.  In a page
    whose user accepts the prompt, a request for the page's own domain is
    granted and the next [getContext] returns what the ContextBuilder makes
    of the source's data; the page's host name must not be ["__proto__"],
    for which the grant is answered but not stored, so that [getContext]
    keeps refusing. *)
Theorem BaseProvider_permission_gate
    (this : BaseProvider.BaseProvider)
    (source : option ContextOptions -> Outcome ContextData)
    (env : Env) (now : Z) (options : option ContextOptions) :
  (BaseProvider.isPermissionGranted this env None = false ->
   BaseProvider.getContext this source env now options
   = readDenied now (BaseProvider.info this))
  /\ (BaseProvider._permissionManager this = None ->
      BaseProvider.getContext this source env now options
      = readDenied now (BaseProvider.info this)
      /\ forall appInfo,
           exists e, BaseProvider.requestPermission this env now appInfo = Throws e)
  /\ (forall pm builder w appInfo data,
        BaseProvider._permissionManager this = Some pm ->
        BaseProvider._contextBuilder this = Some builder ->
        PermissionManager.autoShowUI pm = true ->
        inBrowser env -> chromeStorageLocal env = None ->
        window env = Some w -> (forall m, confirm w m = true) ->
        hostname w ≠ Some "__proto__" ->
        app_domain appInfo = None ->
        source options = Returns data ->
        exists r env' shown,
          BaseProvider.requestPermission this env now appInfo = Returns (r, env', shown)
          /\ res_granted r = true
          /\ forall now',
               BaseProvider.getContext this source env' now' options
               = ContextBuilder.buildContextResult builder now' data options
                   (BaseProvider.info this))
  /\ (forall pm w appInfo,
        BaseProvider._permissionManager this = Some pm ->
        PermissionManager.autoShowUI pm = true ->
        inBrowser env -> chromeStorageLocal env = None ->
        window env = Some w -> (forall m, confirm w m = true) ->
        hostname w = Some "__proto__" ->
        app_domain appInfo = None ->
        PermissionManager.getStoredPermissions env !! "__proto__" = None ->
        exists r env' shown,
          BaseProvider.requestPermission this env now appInfo = Returns (r, env', shown)
          /\ res_granted r = true
          /\ forall now',
               BaseProvider.getContext this source env' now' options
               = readDenied now' (BaseProvider.info this)).
Proof.
  split_and!.
  - intros Hperm. unfold BaseProvider.getContext.
    unfold BaseProvider.isPermissionGranted in *. simpl in *. by rewrite Hperm.
  - intros Hpm. split.
    + unfold BaseProvider.getContext, BaseProvider.isPermissionGranted,
        BaseProvider.getPermissionState. by rewrite Hpm.
    + intros appInfo. unfold BaseProvider.requestPermission. rewrite Hpm. by eauto.
  - intros pm builder w appInfo data Hpm Hbuilder Hui Hb Hc Hw Hyes Hhost Hdom Hsrc.
    unfold BaseProvider.requestPermission. rewrite Hpm.
    assert (managerDomain env appInfo = PermissionManager.getCurrentDomain env) as Hmd.
    { unfold managerDomain. by rewrite Hdom. }
    assert (PermissionManager.getCurrentDomain env ≠ "__proto__") as Hord.
    { unfold PermissionManager.getCurrentDomain. rewrite Hw. simpl.
      destruct (hostname w) as [h|]; simpl; [|done]. by intros ->. }
    assert (forall env0 : Env,
              window env0 = window env ->
              PermissionManager.isPermissionGranted env0
                (PermissionManager.getCurrentDomain env) = true ->
              forall now',
                BaseProvider.getContext this source env0 now' options
                = ContextBuilder.buildContextResult builder now' data options
                    (BaseProvider.info this)) as Hread.
    { intros env0 Hw0 Hcheck now'.
      unfold BaseProvider.getContext, BaseProvider.isPermissionGranted,
        BaseProvider.getPermissionState, BaseProvider.getCurrentDomain.
      rewrite Hpm. simpl. unfold PermissionManager.getCurrentDomain in Hcheck.
      rewrite Hw0, Hcheck. simpl. rewrite Hsrc. simpl. by rewrite Hbuilder. }
    unfold PermissionManager.requestPermission. fold (managerDomain env appInfo).
    rewrite Hmd.
    destruct (PermissionManager.isPermissionGranted env
                (PermissionManager.getCurrentDomain env)) eqn:Hcheck.
    + eexists _, _, _. split; [reflexivity|]. split; [done|].
      by apply Hread.
    + rewrite Hui. unfold PermissionManager.showPermissionDialog. rewrite Hw, Hyes.
      eexists _, _, _. split; [reflexivity|]. split; [done|].
      apply Hread.
      * unfold PermissionManager.grantPermission, PermissionManager.storePermissions,
          setPermissionsItem.
        rewrite Hc. by destruct (localStorage env).
      * unfold PermissionManager.grantPermission, PermissionManager.isPermissionGranted.
        rewrite assign_ordinary by done.
        by rewrite manager_store_read, lookup_insert_eq.
  - intros pm w appInfo Hpm Hui Hb Hc Hw Hyes Hhost Hdom Hnone.
    unfold BaseProvider.requestPermission. rewrite Hpm.
    assert (PermissionManager.getCurrentDomain env = "__proto__") as Hcur.
    { unfold PermissionManager.getCurrentDomain. rewrite Hw. simpl. by rewrite Hhost. }
    assert (managerDomain env appInfo = "__proto__") as Hmd.
    { unfold managerDomain. by rewrite Hdom, Hcur. }
    unfold PermissionManager.requestPermission. fold (managerDomain env appInfo).
    rewrite Hmd. unfold PermissionManager.isPermissionGranted at 1.
    rewrite Hnone, Hui. unfold PermissionManager.showPermissionDialog.
    rewrite Hw, Hyes.
    eexists _, _, _. split; [reflexivity|]. split; [done|].
    intros now'. unfold PermissionManager.grantPermission.
    rewrite assign_proto by done.
    set (env' := PermissionManager.storePermissions env _).
    assert (window env' = window env) as Hwin.
    { unfold env', PermissionManager.storePermissions, setPermissionsItem.
      rewrite Hc. by destruct (localStorage env). }
    unfold BaseProvider.getContext, BaseProvider.isPermissionGranted,
      BaseProvider.getPermissionState, BaseProvider.getCurrentDomain.
    rewrite Hpm, Hwin, Hw. simpl. rewrite Hhost. simpl.
    unfold PermissionManager.isPermissionGranted, env'.
    by rewrite manager_store_read, Hnone.
Qed.

Lemma BaseProvider_permission_gate_witness :
  BaseProvider.getContext sampleBaseProvider
    (fun _ => Returns {| memories := rawMemories |}) (agreeing None) 5 None
  = readDenied 5 (BaseProvider.info sampleBaseProvider).
Proof.
  apply (proj1 (BaseProvider_permission_gate sampleBaseProvider
                  (fun _ => Returns {| memories := rawMemories |}) (agreeing None) 5 None)).
  reflexivity.
Defined.

(* ===================================================================== *)
(** * The registry: keeping its providers *)
(* ===================================================================== *)

Lemma get_delete_eq {V : Type} (k : string) (m : OMap V) :
  NoDup (keys m) -> Js.get k (Js.delete k m) = None.
Proof.
  intros Hnd. rewrite delete_filter by done. apply get_None_keys.
  intros Hin. apply list_elem_of_fmap in Hin as ([k' v] & -> & Hin).
  by apply list_elem_of_filter in Hin as [Hne _].
Qed.

Lemma get_delete_ne {V : Type} (k k' : string) (m : OMap V) :
  k ≠ k' -> Js.get k' (Js.delete k m) = Js.get k' m.
Proof.
  intros Hne. induction m as [|[k0 v0] r IH]; [done|]. simpl.
  destruct (String.eqb_spec k k0) as [->|Hk].
  - by destruct (String.eqb_spec k' k0) as [->|].
  - simpl. by rewrite IH.
Qed.

Lemma delete_snoc {V : Type} (k : string) (v : V) (m : OMap V) :
  k ∉ keys m -> Js.delete k (m ++ [(k, v)])%list = m.
Proof.
  induction m as [|[k0 v0] r IH]; simpl; intros Hk.
  - by rewrite String.eqb_refl.
  - apply not_elem_of_cons in Hk as [Hne Hk].
    destruct (String.eqb_spec k k0); [done|]. by rewrite IH.
Qed.

Lemma delete_absent {V : Type} (k : string) (m : OMap V) :
  Js.get k m = None -> Js.delete k m = m.
Proof.
  induction m as [|[k0 v0] r IH]; [done|]. simpl.
  destruct (String.eqb_spec k k0); [done|]. intros H. by rewrite IH.
Qed.

Lemma has_keys {V : Type} (k : string) (m : OMap V) :
  Js.has k m = true <-> k ∈ keys m.
Proof.
  unfold Js.has. pose proof (get_None_keys k m) as H.
  destruct (Js.get k m); split; try done.
  - intros _. destruct (decide (k ∈ keys m)); [done|]. by apply H in n.
  - intros Hin. by apply H in Hin.
Qed.

(** X13.  A registry keeps one provider per id, in the order of first
    registration.  After [registerProvider] the provider is the one found
    under its id and the other ids are untouched; registering under an id
    already present replaces that provider in place, and under a new id
    appends it.  [unregisterProvider] tells whether the id was registered;
    afterwards the id is not found, the other providers keep their places,
    and unregistering a provider just added under a new id gives the
    registry back. *)
Theorem registry_bookkeeping (providers : Registry.Providers) (p : MemoryProvider.t) :
  wfProviders providers ->
  let id := MemoryProvider.providerId p in
  let registered := Registry.registerProvider providers p in
  wfProviders registered
  /\ Registry.getProvider registered id = Some p
  /\ (forall other, other ≠ id ->
        Registry.getProvider registered other = Registry.getProvider providers other)
  /\ (id ∈ keys providers -> keys registered = keys providers)
  /\ (id ∉ keys providers ->
      registered = (providers ++ [(id, p)])%list
      /\ Registry.unregisterProvider registered id = (true, providers))
  /\ (forall pid,
        let out := Registry.unregisterProvider providers pid in
        (out.1 = true <-> pid ∈ keys providers)
        /\ wfProviders out.2
        /\ Registry.getProvider out.2 pid = None
        /\ (forall other, other ≠ pid ->
              Registry.getProvider out.2 other = Registry.getProvider providers other)
        /\ Registry.getProviders out.2 `sublist_of` Registry.getProviders providers
        /\ (out.1 = false -> out.2 = providers)).
Proof.
  intros Hwf id registered. pose proof Hwf as [Hnd Hid].
  unfold Registry.getProvider, registered, Registry.registerProvider. fold id.
  split_and!.
  - by apply wfProviders_register.
  - apply get_set_eq.
  - intros other Hne. by apply get_set_ne.
  - intros Hin. by apply keys_set_present.
  - intros Hnin. assert (Js.set id p providers = (providers ++ [(id, p)])%list) as Hset.
    { apply set_absent. by apply get_None_keys. }
    split; [done|]. rewrite Hset. unfold Registry.unregisterProvider, Js.has.
    rewrite get_snoc by (by apply get_None_keys). by rewrite delete_snoc.
  - intros pid. cbv zeta. unfold Registry.unregisterProvider.
    destruct (Js.has pid providers) eqn:Hhas; simpl.
    + split_and!.
      * split; [intros _; by apply has_keys|done].
      * apply (wfProviders_unregister providers pid) in Hwf.
        unfold Registry.unregisterProvider in Hwf. by rewrite Hhas in Hwf.
      * by apply get_delete_eq.
      * intros other Hne. by apply get_delete_ne.
      * unfold Registry.getProviders, values. apply fmap_sublist.
        rewrite delete_filter by done. apply sublist_filter.
      * done.
    + assert (pid ∉ keys providers) as Hnin.
      { intros Hin. apply has_keys in Hin. congruence. }
      split; [|split; [done|split; [by apply get_None_keys|done]]].
      split; [done|]. intros Hin. by apply Hnin in Hin.
Qed.

Lemma registry_bookkeeping_witness :
  Registry.getProvider (Registry.registerProvider [("p1", p1)] p2) "p2" = Some p2
  /\ Registry.unregisterProvider (Registry.registerProvider [("p1", p1)] p2) "p2"
     = (true, [("p1", p1)]).
Proof.
  assert (wfProviders [("p1", p1)]) as Hwf.
  { apply (wfProviders_register [] p1), wfProviders_nil. }
  destruct (registry_bookkeeping [("p1", p1)] p2 Hwf) as (_ & Hget & _ & _ & Hnew & _).
  split; [exact Hget|]. apply Hnew.
  vm_compute. intros H. inversion H as [|? ? ? H1]; subst. inversion H1.
Defined.
(* ===================================================================== *)
(** * The registry: a refused read and a single answer *)
(* ===================================================================== *)

(** X14.  A read that a provider of [createProvider] refuses for lack of
    the read capability reaches the caller of the registry's [getContext]
    as a failure of code [PROVIDER_ERROR] (not [PERMISSION_DENIED]), not
    recoverable, with the provider's own identity in the metadata.  When
    that provider is the only one registered and holds the general
    permission, [getAggregatedContext] queries it and fails with
    [NO_DATA]. *)
Theorem registry_refused_read
    (config : Provider.ProviderConfig)
    (source : option ContextOptions -> Outcome ContextData)
    (handler : option Provider.WebAgentContextHandler)
    (stringifiedLength : WebAgentContext -> Outcome Z)
    (env : Env) (now : Z) (options : option ContextOptions)
    (rest : Registry.Providers) :
  Provider.isPermissionGranted env (Some (currentDomain env)) (Some CapRead)
  = Returns false ->
  let p := Provider.createProvider config source handler stringifiedLength env now in
  let id := Provider.providerId config in
  let refused := Provider.failed config now "Permission required to access memory data" in
  Registry.getContext ((id, p) :: rest) now options None
  = Returns {| cr_success := false; cr_data := None;
               cr_error :=
                 Some {| code := PROVIDER_ERROR;
                         message := "Permission required to access memory data";
                         recoverable := false; suggestedAction := None |};
               cr_metadata :=
                 {| generatedAt := now; provider := Provider.providerRef config;
                    dataSource := emptyDataSource |} |}
  /\ (Provider.isPermissionGranted env None None = Returns true ->
      ExtensionSDK.getAggregatedContext [(id, p)] now options
      = Returns (Registry.noData now [p] [refused])
      /\ RegistryManager.getAggregatedContext [(id, p)] now options
         = Returns (Registry.noData now [p] [refused])
      /\ code <$> ag_error (Registry.noData now [p] [refused]) = Some NO_DATA
      /\ ag_providerResults (Registry.noData now [p] [refused]) !! id = Some refused).
Proof.
  intros Hperm p id refused.
  assert (MemoryProvider.getContext p options = Returns refused) as Hget.
  { unfold p, Provider.createProvider. simpl. unfold Provider.getContext.
    by rewrite Hperm. }
  split.
  - clearbody p. unfold Registry.getContext.
    change (Registry.selectProvider ((id, p) :: rest) None) with (Some p).
    cbv beta iota. by rewrite Hget.
  - intros Hgeneral.
    assert (Registry.availableProviders [(id, p)] = [p]) as Havail.
    { unfold Registry.availableProviders, values. simpl.
      rewrite filter_cons_True; [done|].
      unfold p, Provider.createProvider. simpl. by rewrite Hgeneral. }
    assert (forall merge,
              Registry.getAggregatedContextWith merge [(id, p)] now options
              = Returns (Registry.noData now [p] [refused])) as Hagg.
    { clearbody p. intros merge. unfold Registry.getAggregatedContextWith.
      rewrite Havail. simpl. by rewrite Hget. }
    split_and!; [apply Hagg|apply Hagg|done|].
    unfold Registry.noData, Registry.resultEntries, fromEntries. simpl.
    apply lookup_insert_eq.
Qed.

Lemma registry_refused_read_witness :
  let env := browser (Some {[ "example.com" := grantedRecord false true ]}) None in
  let p := Provider.createProvider (sampleConfig None)
             (fun _ => Returns {| memories := rawMemories |}) None sizeOk env 4 in
  (r ← Registry.getContext [("demo", p)] 4 None None; Returns (code <$> cr_error r))
  = Returns (Some PROVIDER_ERROR)
  /\ (r ← ExtensionSDK.getAggregatedContext [("demo", p)] 4 None;
      Returns (code <$> ag_error r))
     = Returns (Some NO_DATA).
Proof.
  intros env p.
  destruct (registry_refused_read (sampleConfig None)
              (fun _ => Returns {| memories := rawMemories |}) None sizeOk env 4 None [])
    as [Hget Hagg]; [reflexivity|].
  destruct (Hagg eq_refl) as (Hsdk & _).
  split.
  - fold p in Hget. change (Provider.providerId (sampleConfig None)) with "demo" in Hget.
    by rewrite Hget.
  - fold p in Hsdk. change (Provider.providerId (sampleConfig None)) with "demo" in Hsdk.
    by rewrite Hsdk.
Defined.

(** X15.  When exactly one of the providers queried by
    [getAggregatedContext] answers with data, the aggregated context is
    that provider's context as it came: the merge returns a single context
    unchanged, so neither the removal of duplicates, nor the ordering, nor
    the [topK] of the caller applies to it. *)
Theorem aggregation_single_answer
    (providers : Registry.Providers) (now : Z) (options : option ContextOptions)
    (results : list ProviderContextResult) (r : ProviderContextResult) :
  let available := Registry.availableProviders providers in
  (fun p => MemoryProvider.getContext p options) <$> available = Returns <$> results ->
  base.filter (fun x => Registry.successfulWithData x = true) results = [r] ->
  exists sdk manager,
    ExtensionSDK.getAggregatedContext providers now options = Returns sdk
    /\ RegistryManager.getAggregatedContext providers now options = Returns manager
    /\ ag_success sdk = true /\ ag_success manager = true
    /\ ag_data sdk = pr_data r /\ ag_data manager = pr_data r
    /\ providerCount (ag_metadata sdk) = 1
    /\ ag_providers sdk = MemoryProvider.providerId <$> available.
Proof.
  intros available Hres Hone.
  assert (available ≠ []) as Hne.
  { intros Hnil. rewrite Hnil in Hres. destruct results; [|done]. done. }
  assert (exists d, pr_data r = Some d) as [d Hd].
  { assert (r ∈ base.filter (fun x => Registry.successfulWithData x = true) results)
      as Hin by (rewrite Hone; apply list_elem_of_here).
    apply list_elem_of_filter in Hin as [Hs _].
    unfold Registry.successfulWithData in Hs.
    apply andb_true_iff in Hs as [_ Hs]. apply bool_decide_eq_true in Hs.
    destruct Hs as [d Hd]. by exists d. }
  assert (forall merge,
            (forall c o, merge [c] o = c) ->
            Registry.getAggregatedContextWith merge providers now options
            = Returns (Registry.aggregated now options available results [r] d))
    as Hagg.
  { intros merge Hmerge.
    destruct (getAggregatedContextWith_spec merge providers now options) as [_ H].
    destruct (H results Hne Hres) as [_ Hsome].
    rewrite Hsome by (by rewrite Hone).
    rewrite Hone. unfold Registry.successfulData. simpl. rewrite Hd. simpl.
    by rewrite Hmerge. }
  eexists _, _. split; [by apply Hagg|]. split; [by apply Hagg|]. by rewrite Hd.
Qed.

Lemma aggregation_single_answer_witness :
  (r ← RegistryManager.getAggregatedContext
         [("p4", p4);
          ("dup", staticProvider "dup" true
                    (Returns (sampleResult [sampleMemory "alpha" (1 # 2);
                                            sampleMemory "alpha" (9 # 10)])))]
         0 (topK_only 1);
   Returns (ag_data r))
  = Returns (Some {| memories := [sampleMemory "alpha" (1 # 2);
                                  sampleMemory "alpha" (9 # 10)] |}).
Proof.
  destruct (aggregation_single_answer
              [("p4", p4);
               ("dup", staticProvider "dup" true
                         (Returns (sampleResult [sampleMemory "alpha" (1 # 2);
                                                 sampleMemory "alpha" (9 # 10)])))]
              0 (topK_only 1)
              [deniedResult;
               sampleResult [sampleMemory "alpha" (1 # 2); sampleMemory "alpha" (9 # 10)]]
              (sampleResult [sampleMemory "alpha" (1 # 2); sampleMemory "alpha" (9 # 10)]))
    as (sdk & manager & _ & Hm & _ & _ & _ & Hdata & _); [reflexivity|reflexivity|].
  rewrite Hm. simpl. by rewrite Hdata.
Defined.
(* ===================================================================== *)
(** * The registry: event listeners *)
(* ===================================================================== *)

Section ListenerFacts.

Context {Callback : Type} `{EqDecision Callback}.

Implicit Types (listeners : OMap (list Callback)) (s : list Callback).

Lemma set_set {V : Type} (k : string) (v v' : V) (m : OMap V) :
  Js.set k v (Js.set k v' m) = Js.set k v m.
Proof.
  induction m as [|[k0 v0] r IH]; simpl.
  - by rewrite String.eqb_refl.
  - destruct (String.eqb_spec k k0) as [->|Hne]; simpl.
    + by rewrite String.eqb_refl.
    + destruct (String.eqb_spec k k0); [done|]. by rewrite IH.
Qed.

Lemma set_same {V : Type} (k : string) (v : V) (m : OMap V) :
  Js.get k m = Some v -> Js.set k v m = m.
Proof.
  induction m as [|[k0 v0] r IH]; [done|]. simpl.
  destruct (String.eqb_spec k k0) as [->|Hne].
  - by intros [= ->].
  - intros H. by rewrite IH.
Qed.

Lemma Set_add_spec x s :
  NoDup s ->
  NoDup (RegistryEvents.Set_add x s) /\ RegistryEvents.Set_add x s ≠ []
  /\ x ∈ RegistryEvents.Set_add x s
  /\ RegistryEvents.Set_add x (RegistryEvents.Set_add x s) = RegistryEvents.Set_add x s.
Proof.
  intros Hnd. unfold RegistryEvents.Set_add.
  destruct (decide (x ∈ s)) as [Hin|Hnin].
  - rewrite !bool_decide_eq_true_2 by done.
    split_and!; try done. intros ->. by apply elem_of_nil in Hin.
  - rewrite !bool_decide_eq_false_2 by done.
    assert (x ∈ (s ++ [x])%list) as Hx by (apply elem_of_app; right; apply list_elem_of_here).
    rewrite bool_decide_eq_true_2 by done.
    split_and!; try done.
    + apply NoDup_app. split_and!; [done| |apply NoDup_singleton].
      intros y Hy Hy'. apply list_elem_of_singleton in Hy'. by subst.
    + by destruct s.
Qed.

Lemma Set_delete_sublist x s : RegistryEvents.Set_delete x s `sublist_of` s.
Proof.
  induction s as [|y r IH]; simpl; [done|].
  case_bool_decide; [by apply sublist_cons|by apply sublist_skip].
Qed.

Lemma Set_delete_notin x s : NoDup s -> x ∉ RegistryEvents.Set_delete x s.
Proof.
  induction s as [|y r IH]; simpl; intros Hnd; [apply not_elem_of_nil|].
  apply NoDup_cons in Hnd as [Hy Hnd].
  case_bool_decide as Hxy; [by subst|].
  apply not_elem_of_cons. split; [done|by apply IH].
Qed.

Lemma Set_delete_snoc x s : x ∉ s -> RegistryEvents.Set_delete x (s ++ [x])%list = s.
Proof.
  induction s as [|y r IH]; simpl; intros Hx.
  - by rewrite bool_decide_eq_true_2.
  - apply not_elem_of_cons in Hx as [Hne Hx].
    rewrite bool_decide_eq_false_2 by done. by rewrite IH.
Qed.

Lemma addEventListener_set listeners event callback :
  RegistryEvents.addEventListener listeners event callback
  = Js.set event (RegistryEvents.Set_add callback (listenersOf listeners event)) listeners.
Proof.
  unfold RegistryEvents.addEventListener, listenersOf, Js.has.
  destruct (Js.get event listeners) as [s|] eqn:Hget; simpl.
  - by rewrite Hget.
  - rewrite get_set_eq. apply set_set.
Qed.

Lemma wfListeners_get listeners event s :
  wfListeners listeners -> Js.get event listeners = Some s -> s ≠ [] /\ NoDup s.
Proof. intros [_ Hwf] Hget. apply (Hwf event). by apply get_Some_elem. Qed.

Lemma listenersOf_NoDup listeners event :
  wfListeners listeners -> NoDup (listenersOf listeners event).
Proof.
  intros Hwf. unfold listenersOf.
  destruct (Js.get event listeners) as [s|] eqn:Hget; [|constructor].
  by apply (wfListeners_get listeners event s).
Qed.

Lemma wfListeners_set listeners event s :
  wfListeners listeners -> s ≠ [] -> NoDup s -> wfListeners (Js.set event s listeners).
Proof.
  intros [Hnd Hwf] Hne Hs. split; [by apply NoDup_keys_set|].
  intros e cs Hin. apply elem_of_set in Hin as [[-> ->]|[_ Hin]]; [done| |done].
  by apply (Hwf e).
Qed.

Lemma wfListeners_delete listeners event :
  wfListeners listeners -> wfListeners (Js.delete event listeners).
Proof.
  intros [Hnd Hwf]. split; [by apply NoDup_keys_delete|].
  intros e cs Hin. rewrite delete_filter in Hin by done.
  apply list_elem_of_filter in Hin as [_ Hin]. by apply (Hwf e).
Qed.

End ListenerFacts.

(** X16.  The listeners of a registry stay well formed under
    [addEventListener] and [removeEventListener]: one entry per event
    type, each a non-empty set of distinct callbacks.  A callback that is
    added is run by [dispatchEvent] for that type, adding it again changes
    nothing, a callback that is removed is not run, and removing a
    callback just added restores the listeners exactly; the callbacks of
    the other event types are never touched. *)
Theorem listeners_add_remove {Callback : Type} `{EqDecision Callback}
    (listeners : OMap (list Callback)) (env : Env) (event : string) (callback : Callback) :
  wfListeners listeners ->
  let added := RegistryEvents.addEventListener listeners event callback in
  let removed := RegistryEvents.removeEventListener listeners event callback in
  wfListeners added /\ wfListeners removed
  /\ callback ∈ (RegistryEvents.dispatchEvent added env event).1.1
  /\ RegistryEvents.addEventListener added event callback = added
  /\ (callback ∉ (RegistryEvents.dispatchEvent removed env event).1.1)
  /\ (callback ∉ listenersOf listeners event ->
      RegistryEvents.removeEventListener added event callback = listeners)
  /\ (forall other, other ≠ event ->
        listenersOf added other = listenersOf listeners other
        /\ listenersOf removed other = listenersOf listeners other).
Proof.
  intros Hwf added removed.
  pose proof (listenersOf_NoDup listeners event Hwf) as Hnd0.
  destruct (Set_add_spec callback _ Hnd0) as (Hnd1 & Hne1 & Hin1 & Hidem).
  assert (added = Js.set event
                    (RegistryEvents.Set_add callback (listenersOf listeners event))
                    listeners) as Hadded by apply addEventListener_set.
  assert (listenersOf added event
          = RegistryEvents.Set_add callback (listenersOf listeners event)) as Hof.
  { unfold listenersOf at 1. by rewrite Hadded, get_set_eq. }
  assert (wfListeners removed /\ (callback ∉ listenersOf removed event)
          /\ forall other, other ≠ event ->
               listenersOf removed other = listenersOf listeners other) as Hrem.
  { unfold removed, RegistryEvents.removeEventListener.
    destruct (Js.get event listeners) as [s|] eqn:Hget.
    - destruct (wfListeners_get listeners event s Hwf Hget) as [Hs Hnds].
      case_bool_decide as Hlen.
      + split_and!.
        * by apply wfListeners_delete.
        * unfold listenersOf. rewrite get_delete_eq by apply Hwf. apply not_elem_of_nil.
        * intros other Hne. unfold listenersOf. by rewrite get_delete_ne.
      + split_and!.
        * apply wfListeners_set; [done| |].
          -- intros Hnil. by rewrite Hnil in Hlen.
          -- eapply sublist_NoDup; [exact Hnds|apply Set_delete_sublist].
        * unfold listenersOf. rewrite get_set_eq. simpl. by apply Set_delete_notin.
        * intros other Hne. unfold listenersOf. by rewrite get_set_ne.
    - split_and!; [done| |done].
      unfold listenersOf. rewrite Hget. apply not_elem_of_nil. }
  destruct Hrem as (Hwfr & Hnotin & Hother).
  split_and!.
  - rewrite Hadded. by apply wfListeners_set.
  - done.
  - unfold RegistryEvents.dispatchEvent. simpl. fold (listenersOf added event).
    by rewrite Hof.
  - rewrite addEventListener_set, Hof, Hidem, Hadded. apply set_set.
  - unfold RegistryEvents.dispatchEvent. simpl. done.
  - intros Hfresh.
    assert (added = Js.set event (listenersOf listeners event ++ [callback])%list listeners)
      as Hadded'.
    { rewrite Hadded. unfold RegistryEvents.Set_add. by rewrite bool_decide_eq_false_2. }
    clear Hadded Hof. clearbody added. subst added.
    unfold RegistryEvents.removeEventListener.
    rewrite get_set_eq, Set_delete_snoc by done.
    unfold listenersOf in *.
    destruct (Js.get event listeners) as [s|] eqn:Hg; simpl in *.
    + destruct (wfListeners_get listeners event s Hwf Hg) as [Hs _].
      rewrite (bool_decide_eq_false_2 (length s = 0%nat)) by (by destruct s).
      rewrite set_set. by apply set_same.
    + rewrite set_absent by done.
      apply delete_snoc. by apply get_None_keys.
  - intros other Hne. split; [|by apply Hother].
    unfold listenersOf. by rewrite Hadded, get_set_ne.
Qed.

Lemma listeners_add_remove_witness :
  RegistryEvents.removeEventListener
    (RegistryEvents.addEventListener [("context-provided", [1%nat])] "context-provided" 2%nat)
    "context-provided" 2%nat
  = [("context-provided", [1%nat])].
Proof.
  refine (proj1 (proj2 (proj2 (proj2 (proj2 (proj2
            (listeners_add_remove [("context-provided", [1%nat])] (browser None None)
               "context-provided" 2%nat _)))))) _).
  - split; [repeat constructor; apply not_elem_of_nil|].
    intros event callbacks Hin. apply list_elem_of_singleton in Hin as [= -> ->].
    split; [done|repeat constructor; apply not_elem_of_nil].
  - vm_compute. intros Hin. apply list_elem_of_singleton in Hin. discriminate Hin.
Defined.

(* ===================================================================== *)
(** * The client-side helpers *)
(* ===================================================================== *)

(** X17.  [getContextSafely] never throws.  It returns [null] only when
    the page has no registry or when the provider that the registry routes
    to throws; otherwise it returns the registry's result, which with no
    provider registered (or none under the given id) is the failure
    [NOT_AVAILABLE], not [null].  With providers built by [createProvider]
    it always returns a result. *)
Theorem getContextSafely_spec
    (providers : Registry.Providers) (now : Z) (options : option ContextOptions)
    (providerId : option string) :
  let safe := Helpers.getContextSafely (Some (ExtensionSDK.createRegistry providers now))
                options providerId in
  Helpers.getContextSafely None options providerId = None
  /\ safe = Helpers.getContextSafely (Some (RegistryManager.createRegistry providers now))
              options providerId
  /\ (forall r, Registry.getContext providers now options providerId = Returns r ->
                safe = Some r)
  /\ (forall e, Registry.getContext providers now options providerId = Throws e ->
                safe = None)
  /\ (safe = None <->
      exists p e, Registry.selectProvider providers providerId = Some p
                  /\ MemoryProvider.getContext p options = Throws e)
  /\ (Registry.selectProvider providers providerId = None ->
      safe = Some (Registry.notAvailable now))
  /\ ((forall p, p ∈ values providers -> sdkBuilt p) -> is_Some safe).
Proof.
  intros safe. unfold safe, Helpers.getContextSafely. simpl.
  split_and!; try done.
  - by intros r ->.
  - by intros e ->.
  - unfold Registry.getContext.
    destruct (Registry.selectProvider providers providerId) as [p|]; simpl.
    + destruct (MemoryProvider.getContext p options) as [r|e] eqn:Hp; simpl.
      * split; [done|]. by intros (p' & e & [= <-] & He); rewrite Hp in He.
      * split; [|done]. intros _. by exists p, e.
    + split; [done|]. by intros (p' & e & ? & _).
  - unfold Registry.getContext. by intros ->.
  - intros Hsdk. unfold Registry.getContext.
    destruct (Registry.selectProvider providers providerId) as [p|] eqn:Hsel;
      simpl; [|by eauto].
    apply selectProvider_elem in Hsel.
    destruct (Hsdk p Hsel) as (c & src & h & sl & env & t & ->). simpl. by eauto.
Qed.

Lemma getContextSafely_spec_witness :
  Helpers.getContextSafely
    (Some (ExtensionSDK.createRegistry [("broken", throwingProvider)] 0)) None None = None
  /\ Helpers.getContextSafely (Some (ExtensionSDK.createRegistry [] 0)) None None
     = Some (Registry.notAvailable 0).
Proof.
  split.
  - apply (proj1 (proj2 (proj2 (proj2 (getContextSafely_spec [("broken", throwingProvider)]
                                         0 None None)))) (ErrorObj "boom")).
    reflexivity.
  - apply (getContextSafely_spec [] 0 None None). reflexivity.
Defined.

Lemma filter_nil_not_elem {A : Type} (P : A -> Prop) `{!forall x, Decision (P x)}
    (l : list A) (x : A) :
  base.filter P l = [] -> x ∈ l -> ~ P x.
Proof.
  intros Hnil Hx HP.
  assert (x ∈ base.filter P l) as Hin by (by apply list_elem_of_filter).
  rewrite Hnil in Hin. by apply elem_of_nil in Hin.
Qed.

(** X18.  [selectBestProvider] returns a registered provider whenever one
    is registered, and [null] only without a registry or without
    providers.  If some registered provider is among the preferred ids, it
    returns the first of these in the order of registration (not in the
    order of the preference list); otherwise, if required features are
    given and some provider has them all, the first such provider; and
    otherwise the first registered provider, even when it lacks a required
    feature. *)
Theorem selectBestProvider_spec
    (registry : AgentMemoryRegistry.t) (features : MemoryProvider.t -> list string)
    (criteria : Helpers.ProviderSelectionCriteria) :
  let providers := AgentMemoryRegistry.getProviders registry in
  let preferred := default [] (Helpers.preferredProviders criteria) in
  let required := default [] (Helpers.requiredFeatures criteria) in
  let best := Helpers.selectBestProvider (Some registry) features criteria in
  Helpers.selectBestProvider None features criteria = None
  /\ (best = None <-> providers = [])
  /\ (forall p, best = Some p -> p ∈ providers)
  /\ (forall p, p ∈ providers -> MemoryProvider.providerId p ∈ preferred ->
        exists q before_q after_q,
          best = Some q /\ MemoryProvider.providerId q ∈ preferred
          /\ providers = (before_q ++ q :: after_q)%list
          /\ Forall (fun x => MemoryProvider.providerId x ∉ preferred) before_q)
  /\ ((forall p, p ∈ providers -> MemoryProvider.providerId p ∉ preferred) ->
      required ≠ [] ->
      forall p, p ∈ providers -> hasFeatures features required p ->
        exists q before_q after_q,
          best = Some q /\ hasFeatures features required q
          /\ providers = (before_q ++ q :: after_q)%list
          /\ Forall (fun x => ~ hasFeatures features required x) before_q)
  /\ ((forall p, p ∈ providers -> MemoryProvider.providerId p ∉ preferred) ->
      (forall p, p ∈ providers -> ~ hasFeatures features required p) ->
      best = head providers).
Proof.
  intros providers preferred required best.
  unfold best, Helpers.selectBestProvider, Helpers.isProtocolAvailable,
    Helpers.installedProviders. simpl.
  fold providers preferred required. clearbody providers.
  set (pref := base.filter (fun p => MemoryProvider.providerId p ∈ preferred) providers).
  set (comp := base.filter
                 (fun p => Forall (fun feature => feature ∈ features p) required)
                 providers).
  assert (forall (l : list MemoryProvider.t),
            bool_decide (0 < length l)%nat = negb (bool_decide (l = []))) as Hlen.
  { intros [|x l]; [done|]. rewrite bool_decide_eq_true_2 by (simpl; lia).
    by rewrite bool_decide_eq_false_2. }
  assert (Helpers.nonEmpty (Helpers.preferredProviders criteria) = false -> pref = [])
    as Hpref0.
  { unfold pref, preferred. destruct (Helpers.preferredProviders criteria) as [[|]|];
      simpl; try done; intros _; apply filter_none, Forall_forall;
      intros x _; apply not_elem_of_nil. }
  assert (forall q, head pref = Some q -> q ∈ providers) as Hprefin.
  { intros q Hq. apply head_Some_elem_of in Hq.
    by apply list_elem_of_filter in Hq as [_ Hq]. }
  assert (forall q, head comp = Some q -> q ∈ providers) as Hcompin.
  { intros q Hq. apply head_Some_elem_of in Hq.
    by apply list_elem_of_filter in Hq as [_ Hq]. }
  split; [done|].
  case_bool_decide as Hnil.
  { apply length_zero_iff_nil in Hnil.
    split; [done|]. split; [done|]. split; [|split].
    - intros p Hp. rewrite Hnil in Hp. by apply elem_of_nil in Hp.
    - intros _ _ p Hp. rewrite Hnil in Hp. by apply elem_of_nil in Hp.
    - by rewrite Hnil. }
  assert (providers ≠ []) as Hne.
  { intros H. apply Hnil. by rewrite H. }
  rewrite !Hlen.
  destruct (decide (pref = [])) as [Hp|Hp].
  - rewrite (bool_decide_eq_true_2 _ Hp), andb_false_r.
    destruct (decide (comp = [])) as [Hc|Hc].
    + rewrite (bool_decide_eq_true_2 _ Hc), andb_false_r.
      split; [|split; [|split; [|split]]].
      * split; [|done]. by intros ->%head_None.
      * intros p Hhead. by apply head_Some_elem_of.
      * intros p Hin Hpref. exfalso.
        by apply (filter_nil_not_elem _ _ _ Hp Hin).
      * intros _ _ p Hin Hfeat. exfalso.
        by apply (filter_nil_not_elem _ _ _ Hc Hin).
      * done.
    + rewrite (bool_decide_eq_false_2 _ Hc), andb_true_r.
      destruct (Helpers.nonEmpty (Helpers.requiredFeatures criteria)) eqn:Hreq.
      * destruct (head comp) as [q|] eqn:Hq; [|by apply head_None in Hq].
        pose proof (head_Some_elem_of _ _ Hq) as Hqin.
        apply list_elem_of_filter in Hqin as [Hqf Hqin].
        split; [|split; [|split; [|split]]].
        -- split; [done|]. intros H. by rewrite H in Hne.
        -- by intros p [= <-].
        -- intros p Hin Hpref. exfalso.
           by apply (filter_nil_not_elem _ _ _ Hp Hin).
        -- intros _ _ p Hin Hfeat.
           destruct (head_filter_Some _ _ _ Hq) as (l1 & l2 & Hl & Hl1).
           by exists q, l1, l2.
        -- intros _ Hnone. exfalso. by apply (Hnone q).
      * split; [|split; [|split; [|split]]].
        -- split; [|done]. by intros ->%head_None.
        -- intros p Hhead. by apply head_Some_elem_of.
        -- intros p Hin Hpref. exfalso.
           by apply (filter_nil_not_elem _ _ _ Hp Hin).
        -- intros _ Hr. exfalso. apply Hr. unfold required.
           by destruct (Helpers.requiredFeatures criteria) as [[|]|].
        -- done.
  - rewrite (bool_decide_eq_false_2 _ Hp), andb_true_r.
    destruct (Helpers.nonEmpty (Helpers.preferredProviders criteria)) eqn:Hpn;
      [|by specialize (Hpref0 eq_refl)].
    destruct (head pref) as [q|] eqn:Hq; [|by apply head_None in Hq].
    pose proof (head_Some_elem_of _ _ Hq) as Hqin.
    apply list_elem_of_filter in Hqin as [Hqp Hqin].
    split; [|split; [|split; [|split]]].
    + split; [done|]. intros H. by rewrite H in Hne.
    + by intros p [= <-].
    + intros p Hin Hpref.
      destruct (head_filter_Some _ _ _ Hq) as (l1 & l2 & Hl & Hl1).
      by exists q, l1, l2.
    + intros Hnone. exfalso. by apply (Hnone q).
    + intros Hnone. exfalso. by apply (Hnone q).
Qed.

Lemma selectBestProvider_spec_witness :
  Helpers.selectBestProvider
    (Some (ExtensionSDK.createRegistry [("p1", p1); ("p2", p2); ("p3", p3)] 0))
    sampleFeatures
    {| Helpers.preferredProviders := None;
       Helpers.requiredFeatures := Some ["voice"] |}
  = Some p1.
Proof.
  apply (proj2 (proj2 (proj2 (proj2 (proj2
           (selectBestProvider_spec
              (ExtensionSDK.createRegistry [("p1", p1); ("p2", p2); ("p3", p3)] 0)
              sampleFeatures
              {| Helpers.preferredProviders := None;
                 Helpers.requiredFeatures := Some ["voice"] |})))))).
  - intros p _. apply not_elem_of_nil.
  - intros p Hp Hf. apply Forall_cons in Hf as [Hv _].
    unfold sampleFeatures in Hv.
    destruct (MemoryProvider.providerId p =? "p3")%string.
    + apply elem_of_cons in Hv as [Hv|Hv]; [discriminate Hv|].
      apply list_elem_of_singleton in Hv. discriminate Hv.
    + apply list_elem_of_singleton in Hv. discriminate Hv.
Defined.
Lemma fold_assign_lookup {A V : Type} (key : A -> string) (f : A -> V) (l : list A)
    (acc : gmap string V) :
  NoDup (key <$> l) -> acc !! "__proto__" = None ->
  let out := fold_left (fun results x => assign (key x) (f x) results) l acc in
  (forall x, x ∈ l -> key x ≠ "__proto__" -> out !! key x = Some (f x))
  /\ (forall k, k ∉ key <$> l -> out !! k = acc !! k)
  /\ out !! "__proto__" = None.
Proof.
  revert acc. induction l as [|y r IH]; intros acc Hnd Hacc; simpl.
  - split; [|done]. intros x Hx. by apply elem_of_nil in Hx.
  - rewrite fmap_cons in Hnd. apply NoDup_cons in Hnd as [Hy Hnd].
    assert (assign (key y) (f y) acc !! "__proto__" = None) as Hacc'.
    { destruct (decide (key y = "__proto__")) as [Hk|Hk].
      - rewrite Hk. by rewrite assign_proto.
      - by rewrite assign_lookup_ne. }
    destruct (IH (assign (key y) (f y) acc) Hnd Hacc') as (Hin & Hout & Hproto).
    split; [|split; [|done]].
    + intros x Hx Hord. apply elem_of_cons in Hx as [->|Hx]; [|by apply Hin].
      rewrite Hout by done. rewrite assign_ordinary by done. apply lookup_insert_eq.
    + intros k Hk. rewrite ?fmap_cons in Hk. apply not_elem_of_cons in Hk as [Hne Hk].
      rewrite Hout by done. by apply assign_lookup_ne.
Qed.

(** X19.  [checkAllPermissions] and [requestAllPermissions] never throw:
    a provider whose check throws is recorded as [false], and one whose
    [requestPermission] throws as a denial that is not a first time.
    Under each registered id (other than ["__proto__"], under which no
    entry is made) stands the answer of that provider, and no other id has
    an entry.  When every provider's check answers without throwing, and
    no provider is registered under ["__proto__"], the registry's
    [isPermissionGranted] without a provider id is true exactly when
    [checkAllPermissions] has a true entry.  Without a registry both
    surveys are empty. *)
Theorem permission_surveys
    (providers : Registry.Providers) (now : Z) (appInfo : AppInfo)
    (callIsPermissionGranted : MemoryProvider.t -> option string -> Outcome bool) :
  wfProviders providers ->
  let registry := Some (ExtensionSDK.createRegistry providers now) in
  let checked := Helpers.checkAllPermissions registry callIsPermissionGranted appInfo in
  let requested := Helpers.requestAllPermissions registry appInfo in
  Helpers.checkAllPermissions None callIsPermissionGranted appInfo = ∅
  /\ Helpers.requestAllPermissions None appInfo = ∅
  /\ (forall id p, id ≠ "__proto__" -> Registry.getProvider providers id = Some p ->
        (forall b, callIsPermissionGranted p (app_domain appInfo) = Returns b ->
                   checked !! id = Some b)
        /\ (forall e, callIsPermissionGranted p (app_domain appInfo) = Throws e ->
                      checked !! id = Some false)
        /\ (forall r, MemoryProvider.requestPermission p appInfo = Returns r ->
                      requested !! id = Some r)
        /\ (forall e, MemoryProvider.requestPermission p appInfo = Throws e ->
                      requested !! id = Some requestFailed))
  /\ (forall id, Registry.getProvider providers id = None \/ id = "__proto__" ->
        checked !! id = None /\ requested !! id = None)
  /\ ((forall p, p ∈ Registry.getProviders providers ->
         callIsPermissionGranted p (app_domain appInfo)
         = Returns (MemoryProvider.isPermissionGranted p (app_domain appInfo))) ->
      Registry.getProvider providers "__proto__" = None ->
      (Registry.isPermissionGranted providers None (app_domain appInfo) = true
       <-> exists id, checked !! id = Some true)).
Proof.
  intros Hwf registry checked requested.
  pose proof Hwf as [Hnd Hid].
  pose proof (wfProviders_ids providers Hwf) as Hids.
  assert (NoDup (MemoryProvider.providerId <$> values providers)) as Hnd'
    by (by rewrite Hids).
  unfold checked, requested, Helpers.checkAllPermissions, Helpers.requestAllPermissions,
    Helpers.isProtocolAvailable, Helpers.installedProviders, Registry.getProvider.
  simpl. unfold Registry.getProviders.
  destruct (fold_assign_lookup MemoryProvider.providerId
              (fun p => try_catch (callIsPermissionGranted p (app_domain appInfo))
                          (fun _ => false))
              (values providers) ∅ Hnd' (lookup_empty _)) as (Hcin & Hcout & Hcproto).
  destruct (fold_assign_lookup MemoryProvider.providerId
              (fun p => try_catch (MemoryProvider.requestPermission p appInfo)
                          (fun _ => requestFailed))
              (values providers) ∅ Hnd' (lookup_empty _)) as (Hrin & Hrout & Hrproto).
  assert (forall id p, Js.get id providers = Some p ->
            p ∈ values providers /\ MemoryProvider.providerId p = id) as Hget.
  { intros id p Hp. apply get_Some_elem in Hp. split; [|by apply Hid].
    apply list_elem_of_fmap. by exists (id, p). }
  split; [done|]. split; [done|]. split; [|split].
  - intros id p Hord Hp. destruct (Hget id p Hp) as [Hin <-].
    unfold requestFailed in *. split_and!.
    + intros b Hb. rewrite (Hcin p Hin Hord). by rewrite Hb.
    + intros e He. rewrite (Hcin p Hin Hord). by rewrite He.
    + intros r Hr. rewrite (Hrin p Hin Hord). by rewrite Hr.
    + intros e He. rewrite (Hrin p Hin Hord). by rewrite He.
  - intros id [Hnone| ->].
    + apply get_None_keys in Hnone. rewrite <- Hids in Hnone.
      split; [by rewrite Hcout|].
      unfold requestFailed in *. by rewrite Hrout.
    + split; [done|]. unfold requestFailed in *. done.
  - intros Hreport Hnoproto.
    assert (forall p, p ∈ values providers -> MemoryProvider.providerId p ≠ "__proto__")
      as Hord.
    { intros p Hin Hp. apply get_None_keys in Hnoproto. apply Hnoproto.
      rewrite <- Hids, <- Hp. apply list_elem_of_fmap. by exists p. }
    unfold Registry.isPermissionGranted. simpl. rewrite existsb_exists. split.
    + intros (p & Hin & Hp). exists (MemoryProvider.providerId p).
      apply list_elem_of_In in Hin. rewrite (Hcin p Hin (Hord p Hin)).
      rewrite (Hreport p Hin). simpl. by rewrite Hp.
    + intros (id & Hc).
      destruct (decide (id ∈ MemoryProvider.providerId <$> values providers))
        as [Hin|Hnin].
      * apply list_elem_of_fmap in Hin as (p & -> & Hin).
        exists p. split; [by apply list_elem_of_In|].
        rewrite (Hcin p Hin (Hord p Hin)), (Hreport p Hin) in Hc. simpl in Hc.
        by injection Hc.
      * by rewrite Hcout in Hc.
Qed.

Lemma permission_surveys_witness :
  let providers := [("p1", p1); ("broken", throwingProvider)] in
  let registry := Some (ExtensionSDK.createRegistry providers 0) in
  Helpers.checkAllPermissions registry throwingCheck sampleApp !! "p1" = Some true
  /\ Helpers.checkAllPermissions registry throwingCheck sampleApp !! "broken" = Some false
  /\ Helpers.requestAllPermissions registry sampleApp !! "broken" = Some requestFailed.
Proof.
  intros providers registry.
  assert (wfProviders providers) as Hwf.
  { apply (wfProviders_register [("p1", p1)] throwingProvider),
      (wfProviders_register [] p1), wfProviders_nil. }
  destruct (permission_surveys providers 0 sampleApp throwingCheck Hwf)
    as (_ & _ & Hin & _).
  split_and!.
  - apply (proj1 (Hin "p1" p1 ltac:(discriminate) eq_refl) true). reflexivity.
  - apply (proj1 (proj2 (Hin "broken" throwingProvider ltac:(discriminate) eq_refl))
             (ErrorObj "boom")).
    reflexivity.
  - apply (proj2 (proj2 (proj2 (Hin "broken" throwingProvider ltac:(discriminate)
                                  eq_refl))) (ErrorObj "boom")).
    reflexivity.
Defined.

(* ===================================================================== *)
(** * The client SDK *)
(* ===================================================================== *)

Lemma string_length_zero (s : string) : String.length s = 0%nat <-> s = "".
Proof. destruct s; simpl; split; congruence. Qed.

(** X20.  [initMemoryClient] returns a client exactly when [appName] is
    not empty and [appId] has at least three characters, and throws
    otherwise.  A client with a preferred provider is bound to that id
    alone: when the id is not registered, the client has no provider and
    no permission although providers may be installed, and its
    [getContext] fails with [NOT_AVAILABLE] instead of falling back to
    another provider.  Outside mock mode [getContext] of a client is the
    registry's [getContext] for the preferred id. *)
Theorem initMemoryClient_spec
    (protocol : option AgentMemoryRegistry.t) (config : ClientSDK.MemorySDKConfig) :
  ((exists client, ClientSDK.initMemoryClient protocol config = Returns client)
   <-> validConfig config)
  /\ (validConfig config -> truthy_obool (ClientSDK.mockMode config) = false ->
      protocol = None ->
      exists client,
        ClientSDK.initMemoryClient protocol config = Returns client
        /\ ClientSDK.available client = false
        /\ forall now options,
             (r ← ClientSDK.getContext now client options;
              Returns (cr_success r, code <$> cr_error r))
             = Returns (false, Some NOT_AVAILABLE))
  /\ (forall providers now,
      validConfig config -> truthy_obool (ClientSDK.mockMode config) = false ->
      protocol = Some (ExtensionSDK.createRegistry providers now) ->
      exists client,
        ClientSDK.initMemoryClient protocol config = Returns client
        /\ ClientSDK.available client = true
        /\ (ClientSDK.providersInstalled client = true <-> providers ≠ [])
        /\ ClientSDK.provider client
           = Registry.selectProvider providers (ClientSDK.preferredProvider config)
        /\ (forall options,
              ClientSDK.getContext now client options
              = Registry.getContext providers now
                  (Some (default ClientSDK.noOptions options))
                  (ClientSDK.preferredProvider config))
        /\ (forall id, ClientSDK.preferredProvider config = Some id -> id ≠ "" ->
              Registry.getProvider providers id = None ->
              ClientSDK.provider client = None
              /\ ClientSDK.permissionGranted client = false
              /\ forall options,
                   ClientSDK.getContext now client options
                   = Returns (Registry.notAvailable now))).
Proof.
  unfold validConfig, ClientSDK.initMemoryClient.
  destruct (truthy_str (ClientSDK.appName config)) eqn:Hname; simpl.
  2:{ assert (ClientSDK.appName config = "") as Hn.
      { destruct (decide (ClientSDK.appName config = "")) as [|Hne]; [done|].
        apply truthy_str_nonempty in Hne. congruence. }
      split_and!.
      - split; [by intros [c Hc]|]. by intros [? _].
      - by intros [? _].
      - by intros ? ? [? _]. }
  apply truthy_str_nonempty in Hname.
  destruct (truthy_str (ClientSDK.appId config)) eqn:Hid; simpl.
  2:{ assert (ClientSDK.appId config = "") as Hn.
      { destruct (decide (ClientSDK.appId config = "")) as [|Hne]; [done|].
        apply truthy_str_nonempty in Hne. congruence. }
      rewrite Hn. simpl. split_and!.
      - split; [by intros [c Hc]|]. intros [_ H]. lia.
      - intros [_ H]. lia.
      - intros ? ? [_ H]. lia. }
  destruct (String.length (ClientSDK.appId config) <? 3)%nat eqn:Hlen.
  { apply Nat.ltb_lt in Hlen. split_and!.
    - split; [by intros [c Hc]|]. intros [_ H]. lia.
    - intros [_ H]. lia.
    - intros ? ? [_ H]. lia. }
  apply Nat.ltb_ge in Hlen.
  split_and!.
  - split; [done|]. intros _.
    destruct (truthy_obool (ClientSDK.mockMode config)); [by eauto|].
    destruct protocol; by eauto.
  - intros _ Hmock ->. rewrite Hmock. eexists. split; [done|]. by split.
  - intros providers now _ Hmock ->. rewrite Hmock. eexists. split; [done|]. simpl.
    assert (Registry.selectProvider providers (ClientSDK.preferredProvider config)
            = if truthy_ostr (ClientSDK.preferredProvider config)
              then Registry.getProvider providers
                     (default "" (ClientSDK.preferredProvider config))
              else head (Registry.getProviders providers)) as Hsel.
    { unfold Registry.selectProvider, Registry.getProvider, Registry.getProviders.
      destruct (ClientSDK.preferredProvider config) as [id|]; simpl; [|done].
      by destruct (truthy_str id). }
    split; [done|]. split.
    { unfold Registry.getProviders, values. rewrite length_fmap.
      destruct providers as [|x r]; [split; done|]. split; [done|]. intros _.
      apply bool_decide_eq_true_2. simpl. lia. }
    split; [by rewrite Hsel|]. split; [done|].
    intros id Hpref Hne Hnone. rewrite Hpref. simpl.
    apply truthy_str_nonempty in Hne. rewrite Hne, Hnone. split; [done|]. split; [done|].
    intros options. unfold ClientSDK.getContext. simpl. rewrite Hpref.
    unfold Registry.getContext, Registry.selectProvider. rewrite Hne.
    unfold Registry.getProvider in Hnone. by rewrite Hnone.
Qed.

Lemma initMemoryClient_spec_witness :
  exists client,
    ClientSDK.initMemoryClient (Some (ExtensionSDK.createRegistry [("p1", p1)] 0))
      (sampleClientConfig (Some "p9")) = Returns client
    /\ ClientSDK.providersInstalled client = true
    /\ ClientSDK.provider client = None
    /\ ClientSDK.getContext 0 client None = Returns (Registry.notAvailable 0).
Proof.
  destruct (proj2 (proj2 (initMemoryClient_spec
                            (Some (ExtensionSDK.createRegistry [("p1", p1)] 0))
                            (sampleClientConfig (Some "p9"))))
                  [("p1", p1)] 0)
    as (client & Hinit & _ & Hinst & _ & _ & Hpref).
  - split; [discriminate|simpl; lia].
  - reflexivity.
  - reflexivity.
  - destruct (Hpref "p9" eq_refl) as (Hprov & _ & Hget); [discriminate|reflexivity|].
    exists client. split; [exact Hinit|]. split; [by apply Hinst|]. split; [exact Hprov|].
    apply Hget.
Defined.


Lemma processMemories_valid_length config (mems : list Memory) options :
  Forall validMemory mems ->
  0 <= default (ContextBuilder.config_topK config) (options_topK options) ->
  Z.of_nat (length (ContextBuilder.processMemories config mems options))
  = Z.min (default (ContextBuilder.config_topK config) (options_topK options))
          (Z.of_nat (length mems)).
Proof.
  intros Hvalid Hlimit. unfold ContextBuilder.processMemories.
  rewrite slice0_nonneg by done.
  rewrite filter_all.
  - rewrite length_take, sort_length, length_fmap. lia.
  - eapply Forall_impl; [exact Hvalid|].
    intros m Hm. apply Is_true_true. by apply validMemory_keep.
Qed.

(** X22.  [createMemories] makes one memory per content string, with the
    text trimmed and the same source, relevance and time stamp for all.
    With the default options every memory has relevance 0.8 and the
    source "user-input", and the memories pass [validateContextData]
    exactly when no content string is blank; a ContextBuilder then keeps
    every one of them that fits its [topK]. *)
Theorem createMemories_spec
    (now : Z) (content : string + list string) (options : option ClientSDK.MemoryOptions) :
  let contents := match content with inl one => [one] | inr many => many end in
  let created := ClientSDK.createMemories now content options in
  text <$> created = trim <$> contents
  /\ (forall m, m ∈ created ->
        relevance m = default (8 # 10) (options ≫= ClientSDK.opt_relevance)
        /\ source m = default "user-input" (options ≫= ClientSDK.opt_source)
        /\ timestamp m = default now (options ≫= ClientSDK.opt_timestamp))
  /\ (options = None ->
      (validateContextData {| memories := created |} = true
       <-> Forall (fun t => blank t = false) contents)
      /\ forall config,
           validateContextData {| memories := created |} = true ->
           0 <= ContextBuilder.config_topK config ->
           Z.of_nat (length (ContextBuilder.processMemories config created None))
           = Z.min (ContextBuilder.config_topK config) (Z.of_nat (length contents))).
Proof.
  intros contents created.
  unfold created, ClientSDK.createMemories. fold contents.
  split_and!.
  - rewrite <- list_fmap_compose. by apply list_fmap_ext.
  - intros m Hm. apply list_elem_of_fmap in Hm as (t & -> & _). done.
  - intros ->. simpl. split.
    + unfold validateContextData. simpl. rewrite validateMemories_Forall, Forall_fmap.
      apply Forall_iff. intros t. unfold validMemory. simpl.
      rewrite blank_trim. split; [by intros (_ & ? & _)|].
      intros Ht. split_and!; try done.
    + intros config Hvalid Hpos.
      apply validateMemories_Forall in Hvalid. simpl in Hvalid.
      rewrite (processMemories_valid_length config _ None Hvalid Hpos).
      simpl. by rewrite length_fmap.
Qed.

Lemma createMemories_spec_witness :
  validateContextData
    {| memories := ClientSDK.createMemories 5 (inr [" first "; "second"]) None |} = true
  /\ Z.of_nat (length (ContextBuilder.processMemories defaultBuilder
                         (ClientSDK.createMemories 5 (inr [" first "; "second"]) None)
                         None)) = 2.
Proof.
  destruct (proj2 (proj2 (createMemories_spec 5 (inr [" first "; "second"]) None)) eq_refl)
    as [Hvalid Hkeep].
  assert (validateContextData
            {| memories := ClientSDK.createMemories 5 (inr [" first "; "second"]) None |}
          = true) as Hv.
  { apply Hvalid. repeat constructor. }
  split; [exact Hv|]. apply (Hkeep defaultBuilder Hv). discriminate.
Defined.
(* ===================================================================== *)
(** * Storage keys *)
(* ===================================================================== *)

(** X23.  The storage keys of providers never collide: the three keys
    made for a provider id are determined by the id alone and differ from
    the keys of every other id, a key of one kind (permissions, write-back
    contexts, analytics) is never a key of another kind whatever the two
    ids are, and no provider key is one of the base keys, among them the
    default key of a PermissionManager. *)
Theorem createStorageKeys_separate (a b : string) :
  let ka := StorageKeys.createStorageKeys a in
  let kb := StorageKeys.createStorageKeys b in
  (StorageKeys.permissions ka = StorageKeys.permissions kb <-> a = b)
  /\ (StorageKeys.webAgentContext ka = StorageKeys.webAgentContext kb <-> a = b)
  /\ (StorageKeys.analytics ka = StorageKeys.analytics kb <-> a = b)
  /\ StorageKeys.permissions ka ≠ StorageKeys.webAgentContext kb
  /\ StorageKeys.permissions ka ≠ StorageKeys.analytics kb
  /\ StorageKeys.webAgentContext ka ≠ StorageKeys.analytics kb
  /\ Forall (fun base => StorageKeys.permissions ka ≠ base
                         /\ StorageKeys.webAgentContext ka ≠ base
                         /\ StorageKeys.analytics ka ≠ base)
       [StorageKeys.PERMISSIONS_BASE; StorageKeys.WEB_AGENT_CONTEXT_BASE;
        StorageKeys.EXTENSION_SETTINGS; StorageKeys.UI_PROMPT_DISMISSED;
        StorageKeys.ANALYTICS_LOG].
Proof.
  cbv zeta. unfold StorageKeys.createStorageKeys. cbn [StorageKeys.permissions
    StorageKeys.webAgentContext StorageKeys.analytics].
  split_and!.
  - split; [|by intros ->]. intros H. vm_compute in H. by injection H.
  - split; [|by intros ->]. intros H. vm_compute in H. by injection H.
  - split; [|by intros ->]. intros H. vm_compute in H. by injection H.
  - intros H. vm_compute in H. discriminate H.
  - intros H. vm_compute in H. discriminate H.
  - intros H. vm_compute in H. discriminate H.
  - repeat constructor; intros H; vm_compute in H; discriminate H.
Qed.

(* ===================================================================== *)
(** * The write-back store: capacity *)
(* ===================================================================== *)

Lemma length_set {V : Type} (k : string) (v : V) (m : OMap V) :
  (length (Js.set k v m) <= length m + 1)%nat
  /\ (is_Some (Js.get k m) -> length (Js.set k v m) = length m).
Proof.
  induction m as [|[k0 v0] r [IH1 IH2]]; simpl.
  - split; [lia|]. by intros [? ?].
  - destruct (String.eqb_spec k k0) as [->|Hne]; simpl.
    + split; [lia|done].
    + split; [lia|]. intros H. by rewrite IH2.
Qed.

Lemma length_markProcessed k (s : WebAgentContextStorage) :
  length (Provider.markProcessed k s) = length s.
Proof.
  unfold Provider.markProcessed. destruct (Js.get k s) eqn:Hget; [|done].
  apply length_set. by rewrite Hget.
Qed.

(** X24.  The write-back store never outgrows its limit: after every
    accepted [provideContext], whatever was stored before (also more
    entries than the limit allows), the persisted collection holds at most
    [webAgentStorageLimit] entries (100 when the limit is not set), and
    apart from the new entry none of them had expired at the time of the
    call. *)
Theorem write_back_capacity
    (config : Provider.ProviderConfig) (handler : option Provider.WebAgentContextHandler)
    (stringifiedLength : WebAgentContext -> Outcome Z)
    (env : Env) (now : Z) (c : WebAgentContext) (options : option WebAgentContextOptions)
    (contextSize : Z) :
  inBrowser env -> NoDup (keys (persistedContexts env)) ->
  admissible config stringifiedLength env c contextSize ->
  1 <= Provider.storageLimit config ->
  let after :=
    persistedContexts
      (Provider.handleWebAgentContext config handler stringifiedLength env now c options).2
  in
  Z.of_nat (length after) <= Provider.storageLimit config
  /\ NoDup (keys after)
  /\ (Provider.webAgentStorageLimit config = None -> Provider.storageLimit config = 100)
  /\ forall k d, Js.get k after = Some d ->
       Provider.notExpired now d = true
       \/ (k = Provider.makeContextId c /\ d = freshEntry now c options contextSize true).
Proof.
  intros Hb Hnd Hadm Hlimit after.
  set (live := liveContexts now (persistedContexts env)).
  set (kept := Provider.evictOldest config live).
  set (contextId := Provider.makeContextId c).
  assert (after = Provider.markProcessed contextId
                    (Js.set contextId (freshEntry now c options contextSize false) kept))
    as Hafter.
  { unfold after.
    by rewrite (handleWebAgentContext_stores config handler stringifiedLength env now c
                  options contextSize). }
  assert (NoDup (keys live)) as Hndl by (by apply NoDup_keys_filter).
  assert (NoDup (keys kept)) as Hndk by (by apply NoDup_keys_evictOldest).
  assert (Z.of_nat (length kept) <= Provider.storageLimit config - 1) as Hkept.
  { destruct (Z.lt_ge_cases (Z.of_nat (length live)) (Provider.storageLimit config))
      as [Hlt|Hge].
    - unfold kept. rewrite evictOldest_below by done. lia.
    - destruct (evictOldest_at_limit config live Hndl) as [Hlen _]; [lia|].
      fold kept in Hlen. lia. }
  assert (kept `sublist_of` live) as Hsub.
  { unfold kept, Provider.evictOldest. case_bool_decide; [|done].
    rewrite delete_all_filter by done. apply sublist_filter. }
  split_and!.
  - rewrite Hafter, length_markProcessed.
    pose proof (proj1 (length_set contextId (freshEntry now c options contextSize false)
                         kept)). lia.
  - rewrite Hafter. by apply NoDup_keys_markProcessed, NoDup_keys_set.
  - unfold Provider.storageLimit. by intros ->.
  - intros k d Hget. rewrite Hafter in Hget.
    unfold Provider.markProcessed in Hget. rewrite get_set_eq in Hget. simpl in Hget.
    rewrite set_set in Hget.
    destruct (decide (k = contextId)) as [->|Hne].
    + rewrite get_set_eq in Hget. injection Hget as <-. by right.
    + rewrite get_set_ne in Hget by done. left.
      apply get_Some_elem in Hget.
      eapply elem_of_sublist in Hget; [|exact Hsub].
      unfold live, liveContexts in Hget. by apply list_elem_of_filter in Hget as [? _].
Qed.

Lemma write_back_capacity_witness :
  let full := [ ("a_default_1", freshEntry 1 (sampleContext "a" 1) None 100 true);
                ("b_default_2", freshEntry 2 (sampleContext "b" 2) None 100 true);
                ("c_default_3", freshEntry 3 (sampleContext "c" 3) None 100 true) ] in
  let env := browser (Some {[ "example.com" := grantedRecord true true ]}) (Some full) in
  Z.of_nat (length (persistedContexts
                      (Provider.handleWebAgentContext (sampleConfig (Some 2)) None sizeOk
                         env 4 (sampleContext "d" 4) None).2)) <= 2.
Proof.
  intros full env.
  refine (proj1 (write_back_capacity (sampleConfig (Some 2)) None sizeOk env 4
                   (sampleContext "d" 4) None 100 _ _ _ _)).
  - split; eexists; reflexivity.
  - vm_compute. repeat constructor; intros H; repeat (apply elem_of_cons in H as [H|H];
      [discriminate H|]); by apply elem_of_nil in H.
  - split_and!; reflexivity.
  - vm_compute. discriminate.
Defined.
(* ===================================================================== *)
(** * The registry: routing a write *)
(* ===================================================================== *)

Lemma bind_returns {A : Type} (m : Outcome A) : (result ← m; Returns result) = m.
Proof. by destruct m. Qed.

(** X25.  Without a provider id the registry of index.ts hands
    [provideContext] to the first provider, in the order of registration,
    that has the method and holds the permission for the context's domain,
    and answers [NOT_AVAILABLE], every memory rejected, when there is
    none; the registry of the RegistryManager takes the first provider
    that has the method, whatever its permission.  With a provider id
    both call that provider alone.  [contributeMemory] goes to the first
    provider that has that method, in both.  A provider of
    [createProvider] has the two methods unless it was configured with
    [supportsContextProvision] false. *)
Theorem registry_write_routing
    (providers : Registry.Providers) (c : WebAgentContext)
    (o : option WebAgentContextOptions) (mems : list Memory) (src : string) :
  let permitted p := MemoryProvider.isPermissionGranted p (Some (wac_domain c)) in
  let unavailable :=
    ExtensionSDK.provisionNotAvailable "No providers support context provision"
      (length (wac_memories c)) in
  (forall l1 p l2 provide,
      values providers = (l1 ++ p :: l2)%list ->
      Forall (fun q => exposesProvideContext q = false \/ permitted q = false) l1 ->
      MemoryProvider.provideContext p = Some provide -> permitted p = true ->
      ExtensionSDK.provideContext providers c o None = provide c o)
  /\ (Forall (fun q => exposesProvideContext q = false \/ permitted q = false)
        (values providers) ->
      ExtensionSDK.provideContext providers c o None = Returns unavailable
      /\ cp_success unavailable = false
      /\ memoriesRejected unavailable = Z.of_nat (length (wac_memories c)))
  /\ (forall l1 p l2 provide,
      values providers = (l1 ++ p :: l2)%list ->
      Forall (fun q => exposesProvideContext q = false) l1 ->
      MemoryProvider.provideContext p = Some provide ->
      RegistryManager.provideContext providers c o None
      = Returns (try_catch (provide c o)
                   (fun error =>
                      RegistryManager.provisionFailure PROVIDER_ERROR
                        (message_or error "Unknown error") false
                        (length (wac_memories c)))))
  /\ (forall pid p provide,
      pid ≠ "" -> Registry.getProvider providers pid = Some p ->
      MemoryProvider.provideContext p = Some provide ->
      ExtensionSDK.provideContext providers c o (Some pid) = provide c o)
  /\ (forall pid,
      pid ≠ "" ->
      Registry.getProvider providers pid ≫= MemoryProvider.provideContext = None ->
      ExtensionSDK.provideContext providers c o (Some pid) = Returns unavailable)
  /\ (forall l1 p l2 contribute,
      values providers = (l1 ++ p :: l2)%list ->
      Forall (fun q => exposesContributeMemory q = false) l1 ->
      MemoryProvider.contributeMemory p = Some contribute ->
      ExtensionSDK.contributeMemory providers mems src None = contribute mems src
      /\ RegistryManager.contributeMemory providers mems src None
         = Returns (try_catch (contribute mems src)
                      (fun error =>
                         RegistryManager.provisionFailure PROVIDER_ERROR
                           (message_or error "Unknown error") false (length mems))))
  /\ (forall config source handler stringifiedLength env now,
      let p := Provider.createProvider config source handler stringifiedLength env now in
      exposesProvideContext p
      = negb (bool_decide (Provider.supportsContextProvision config = Some false))
      /\ exposesContributeMemory p = exposesProvideContext p).
Proof.
  intros permitted unavailable. unfold permitted. clear permitted.
  assert (forall p : MemoryProvider.t,
            exposesProvideContext p = true <-> is_Some (MemoryProvider.provideContext p))
    as Hexp.
  { intros p. unfold exposesProvideContext. apply bool_decide_eq_true. }
  assert (forall p : MemoryProvider.t,
            exposesContributeMemory p = true <-> is_Some (MemoryProvider.contributeMemory p))
    as Hexc.
  { intros p. unfold exposesContributeMemory. apply bool_decide_eq_true. }
  split_and!.
  - intros l1 p l2 provide Hvals Hl1 Hprov Hperm.
    unfold ExtensionSDK.provideContext. simpl. rewrite Hvals.
    rewrite (find_first _ l1 l2 p).
    + simpl. rewrite Hprov. apply bind_returns.
    + eapply Forall_impl; [exact Hl1|]. intros q [Hq|Hq]; simpl; rewrite Hq;
        [done|apply andb_false_r].
    + apply andb_true_iff. split; [|done]. apply Hexp. by rewrite Hprov.
  - intros Hall. split; [|done].
    unfold ExtensionSDK.provideContext. simpl.
    rewrite find_none_all; [done|].
    eapply Forall_impl; [exact Hall|]. intros q [Hq|Hq]; simpl; rewrite Hq;
      [done|apply andb_false_r].
  - intros l1 p l2 provide Hvals Hl1 Hprov.
    unfold RegistryManager.provideContext. simpl. rewrite Hvals.
    rewrite (find_first _ l1 l2 p); [|done|].
    + simpl. by rewrite Hprov.
    + apply Hexp. by rewrite Hprov.
  - intros pid p provide Hne Hget Hprov.
    unfold ExtensionSDK.provideContext. simpl.
    apply truthy_str_nonempty in Hne. rewrite Hne.
    unfold Registry.getProvider in Hget. rewrite Hget. simpl. rewrite Hprov.
    apply bind_returns.
  - intros pid Hne Hnone.
    unfold ExtensionSDK.provideContext. simpl.
    apply truthy_str_nonempty in Hne. rewrite Hne.
    unfold Registry.getProvider in Hnone. by rewrite Hnone.
  - intros l1 p l2 contribute Hvals Hl1 Hcon.
    unfold ExtensionSDK.contributeMemory, RegistryManager.contributeMemory. simpl.
    rewrite Hvals, (find_first _ l1 l2 p); [|done|].
    + simpl. by rewrite Hcon.
    + apply Hexc. by rewrite Hcon.
  - intros config source handler sl env now.
    unfold exposesProvideContext, exposesContributeMemory, Provider.createProvider.
    simpl. by destruct (bool_decide (Provider.supportsContextProvision config = Some false)).
Qed.

Lemma registry_write_routing_witness :
  let refusing :=
    {| MemoryProvider.providerId := "first"; MemoryProvider.providerName := "First";
       MemoryProvider.version := "1.0.0";
       MemoryProvider.isPermissionGranted := fun _ => false;
       MemoryProvider.requestPermission := fun _ => Throws Thrown;
       MemoryProvider.getContext := fun _ => Returns deniedResult;
       MemoryProvider.provideContext :=
         Some (fun c _ => Returns (ExtensionSDK.provisionNotAvailable "first" 0));
       MemoryProvider.contributeMemory := None |} in
  let accepting :=
    {| MemoryProvider.providerId := "second"; MemoryProvider.providerName := "Second";
       MemoryProvider.version := "1.0.0";
       MemoryProvider.isPermissionGranted := fun _ => true;
       MemoryProvider.requestPermission := fun _ => Throws Thrown;
       MemoryProvider.getContext := fun _ => Returns deniedResult;
       MemoryProvider.provideContext :=
         Some (fun c _ => Returns (ExtensionSDK.provisionNotAvailable "second" 0));
       MemoryProvider.contributeMemory := None |} in
  let providers := [("first", refusing); ("second", accepting)] in
  ExtensionSDK.provideContext providers (sampleContext "agent" 1) None None
  = Returns (ExtensionSDK.provisionNotAvailable "second" 0)
  /\ RegistryManager.provideContext providers (sampleContext "agent" 1) None None
     = Returns (ExtensionSDK.provisionNotAvailable "first" 0).
Proof.
  intros refusing accepting providers.
  destruct (registry_write_routing providers (sampleContext "agent" 1) None [] "")
    as (Hsdk & _ & Hmanager & _).
  split.
  - apply (Hsdk [refusing] accepting []
             (fun _ _ => Returns (ExtensionSDK.provisionNotAvailable "second" 0)) eq_refl);
      [|reflexivity|reflexivity].
    apply Forall_cons. split; [by right|constructor].
  - apply (Hmanager [] refusing [accepting]
             (fun _ _ => Returns (ExtensionSDK.provisionNotAvailable "first" 0)) eq_refl);
      [constructor|reflexivity].
Defined.

(* ===================================================================== *)
(** * Looking a provider up by name *)
(* ===================================================================== *)

Lemma lower_ascii_idemp (c : ascii) : lower_ascii (lower_ascii c) = lower_ascii c.
Proof. by destruct c as [[] [] [] [] [] [] [] []]. Qed.

Lemma toLowerCase_idemp (s : string) : toLowerCase (toLowerCase s) = toLowerCase s.
Proof.
  induction s as [|c r IH]; simpl; [done|]. by rewrite lower_ascii_idemp, IH.
Qed.

(** X26.  [getProviderByName] compares names without regard to the case
    of ASCII letters: names that differ only in case find the same
    provider, which is the first registered provider whose name equals the
    given one up to case; it finds nothing when no registered name does,
    and nothing without a registry. *)
Theorem getProviderByName_spec (registry : AgentMemoryRegistry.t) (name : string) :
  let providers := AgentMemoryRegistry.getProviders registry in
  let found := Helpers.getProviderByName (Some registry) name in
  let sameName p := toLowerCase (MemoryProvider.providerName p) = toLowerCase name in
  Helpers.getProviderByName None name = None
  /\ (forall other, toLowerCase other = toLowerCase name ->
        Helpers.getProviderByName (Some registry) other = found)
  /\ Helpers.getProviderByName (Some registry) (toLowerCase name) = found
  /\ (forall p, found = Some p ->
        sameName p
        /\ exists l1 l2, providers = (l1 ++ p :: l2)%list
                         /\ Forall (fun q => ~ sameName q) l1)
  /\ (found = None <-> Forall (fun q => ~ sameName q) providers).
Proof.
  intros providers found sameName.
  unfold found, Helpers.getProviderByName, Helpers.isProtocolAvailable,
    Helpers.installedProviders. simpl. fold providers.
  split; [done|]. split; [by intros other ->|].
  split; [by rewrite toLowerCase_idemp|].
  unfold sameName. clear found sameName. clearbody providers.
  induction providers as [|q r [IH1 IH2]]; simpl.
  - split; [done|]. split; [constructor|done].
  - destruct (String.eqb_spec (toLowerCase (MemoryProvider.providerName q))
                (toLowerCase name)) as [Heq|Hne].
    + split.
      * intros p [= <-]. split; [done|]. by exists [], r.
      * split; [done|]. intros H. apply Forall_cons in H as [H _]. done.
    + split.
      * intros p Hp. destruct (IH1 p Hp) as (Hs & l1 & l2 & -> & Hl1).
        split; [done|]. exists (q :: l1), l2. split; [done|]. by constructor.
      * rewrite IH2. split; [by constructor|]. by intros [_ H]%Forall_cons.
Qed.
